(** * MtProtoSender: the MTProto session sender of telethon/network/mtproto_sender.py

    A shallow embedding of the sender: the frame codec ([_send_packet],
    [_decode_msg]), the sequence rule ([_generate_sequence]), [send],
    [receive], the inbound dispatcher ([_process_msg]) and its handlers.

    Python integers are unbounded, so they are [Z]; byte strings are lists of
    [byte], with the little-endian conversions of coqutil.  The sender object,
    the session, the transport and the request objects it mutates live in one
    state record that is threaded through a state-and-exception monad: a raised
    exception keeps the state reached so far, as in Python.

    The collaborators the module imports (crypto, session clock, gzip, the TL
    catalog, the error taxonomy) are type classes; the binary reader and
    writer, which the module uses on every line, are modelled concretely.  The
    updates thread and the lock are outside the model: every function is the
    behaviour of one call that runs alone. *)

From Stdlib Require Import ZArith List Bool String Ascii Lia.
From coqutil Require Import Byte Word.LittleEndianList.
Import ListNotations.
Local Open Scope Z_scope.

(** ** Bytes, exceptions and outcomes *)

Definition bytes := list byte.

(** len(b) of Python, as an integer. *)
Definition len {A : Type} (l : list A) : Z := Z.of_nat (List.length l).

(** The RPCError object built by the rpc_result handler. *)
Record RPCError := mkRPCError {
  code : Z;
  message : string;
  must_resend : bool;
  additional_data : option Z
}.

Inductive exn : Type :=
| BufferError
| OverflowError
| ValueError (msg : string)
| AttributeError (attr : string)
| TimeoutError
| RecursionError
| GzipError
| BadMessageError (error_code : Z)
| FloodWaitError (seconds : option Z)
| InvalidDCError (error : RPCError)
| RPCErrorRaised (error : RPCError).

Inductive outcome (A : Type) : Type :=
| Ok (a : A)
| Raise (e : exn).
Arguments Ok {A} a.
Arguments Raise {A} e.

Definition obind {A B : Type} (o : outcome A) (k : A -> outcome B) : outcome B :=
  match o with
  | Ok a => k a
  | Raise e => Raise e
  end.

Declare Scope outcome_scope.
Delimit Scope outcome_scope with outcome.
Notation "x <- m ;; k" := (obind m (fun x => k))
  (at level 61, m at next level, right associativity) : outcome_scope.
Notation "' pat <- m ;; k" := (obind m (fun x => match x with pat => k end))
  (at level 61, pat pattern, m at next level, right associativity) : outcome_scope.

(** ** BinaryReader and BinaryWriter *)

(** int.from_bytes(bs, byteorder='little', signed=signed). *)
Definition from_bytes (bs : bytes) (signed : bool) : Z :=
  let u := le_combine bs in
  match bs with
  | [] => 0
  | _ :: _ => if signed && (2 ^ (8 * len bs - 1) <=? u) then u - 2 ^ (8 * len bs) else u
  end.

(** Whether [value] fits in [n] bytes, signed or unsigned. *)
Definition fits (n : nat) (signed : bool) (value : Z) : bool :=
  if signed
  then (- 2 ^ (8 * Z.of_nat n - 1) <=? value) && (value <? 2 ^ (8 * Z.of_nat n - 1))
  else (0 <=? value) && (value <? 2 ^ (8 * Z.of_nat n)).

(** value.to_bytes(n, byteorder='little', signed=signed); a value out of range
    raises. *)
Definition to_bytes (n : nat) (signed : bool) (value : Z) : outcome bytes :=
  if fits n signed value then Ok (le_split n value) else Raise OverflowError.

(** Modelled from the spec: BinaryReader of telethon.utils, which is not among
    the sources.  The spec fixes the field widths and the little-endian order
    (section 6) and that reading more than what remains fails (section 4.1).
    The reader is a byte string and a cursor; every failed read is a
    BufferError. *)
Record BinaryReader := mkReader {
  stream : bytes;
  position : Z
}.

Definition BinaryReader_of (data : bytes) : BinaryReader := mkReader data 0.

Definition remaining (reader : BinaryReader) : bytes :=
  skipn (Z.to_nat (position reader)) (stream reader).

Definition advance (n : Z) (reader : BinaryReader) : BinaryReader :=
  mkReader (stream reader) (position reader + n).

Definition read (length : Z) (reader : BinaryReader) : outcome (bytes * BinaryReader) :=
  if length <? 0 then Raise BufferError
  else
    let result := firstn (Z.to_nat length) (remaining reader) in
    if len result =? length then Ok (result, advance length reader)
    else Raise BufferError.

Definition read_int (signed : bool) (reader : BinaryReader) : outcome (Z * BinaryReader) :=
  ('(bs, reader) <- read 4 reader ;; Ok (from_bytes bs signed, reader))%outcome.

Definition read_long (signed : bool) (reader : BinaryReader) : outcome (Z * BinaryReader) :=
  ('(bs, reader) <- read 8 reader ;; Ok (from_bytes bs signed, reader))%outcome.

Definition tell_position (reader : BinaryReader) : Z := position reader.

Definition set_position (p : Z) (reader : BinaryReader) : outcome BinaryReader :=
  if p <? 0 then Raise (ValueError "negative seek position") else Ok (mkReader (stream reader) p).

Definition seek (offset : Z) (reader : BinaryReader) : outcome BinaryReader :=
  set_position (position reader + offset) reader.

(** Modelled from the spec: BinaryWriter of telethon.utils, which is not among
    the sources.  The writer is the byte string written so far; integers are
    appended little-endian in their fixed width (section 6). *)
Definition BinaryWriter := bytes.

Definition write (data : bytes) (writer : BinaryWriter) : outcome BinaryWriter :=
  Ok (writer ++ data).

Definition write_int (value : Z) (signed : bool) (writer : BinaryWriter) : outcome BinaryWriter :=
  (bs <- to_bytes 4 signed value ;; Ok (writer ++ bs))%outcome.

Definition write_long (value : Z) (signed : bool) (writer : BinaryWriter) : outcome BinaryWriter :=
  (bs <- to_bytes 8 signed value ;; Ok (writer ++ bs))%outcome.

Definition get_bytes (writer : BinaryWriter) : bytes := writer.

(** ** Data model *)

Record AuthKey := mkAuthKey {
  key : bytes;
  key_id : Z
}.

(** Modelled from the spec: Session of telethon.tl.session, which is not among
    the sources (section 3: auth_key, salt, id, sequence, time_offset and the
    last msg_id handed out, which the msg_ids must exceed). *)
Record Session := mkSession {
  salt : Z;
  id : Z;
  sequence : Z;
  auth_key : AuthKey;
  time_offset : Z;
  last_msg_id : Z
}.

(** A request object: what on_send writes, the [confirmed] flag (content
    related or not), and the attributes the sender assigns.  on_response is
    the request's own parser; the bytes handed to it are recorded in
    [responses], one entry per call. *)
Record Request := mkRequest {
  body : bytes;
  confirmed : bool;
  msg_id : Z;
  confirm_received : bool;
  responses : list bytes
}.

Inductive TLObject : Type :=
| MsgsAckObject (msg_ids : list Z)
| UpdateObject (constructor_id : Z) (raw : bytes).

(** Python passes requests and the updates list by reference; a reference is
    an index into the store of the state below. *)
Definition ref := nat.

Record Transport := mkTransport {
  sent : list bytes;
  incoming : list bytes;
  cancelled : nat
}.

Inductive level : Type := DEBUG | INFO | WARNING | STDOUT.

Record MtProtoSender := mkSender {
  _transport : Transport;
  session : Session;
  _need_confirmation : list Z;
  logging_out : bool;
  _waiting_receive : bool;
  _updates_thread_receiving : bool;
  _updates_thread_sleep : option Z;
  saved : list Session;
  log : list (level * string);
  requests : ref -> Request;
  next_ref : ref;
  sinks : ref -> list TLObject;
  confirm_writes : list (ref * bool)
}.

(** Field updates. *)
Definition with_salt (v : Z) (x : Session) : Session :=
  mkSession v (id x) (sequence x) (auth_key x) (time_offset x) (last_msg_id x).
Definition with_sequence (v : Z) (x : Session) : Session :=
  mkSession (salt x) (id x) v (auth_key x) (time_offset x) (last_msg_id x).
Definition with_time_offset (v : Z) (x : Session) : Session :=
  mkSession (salt x) (id x) (sequence x) (auth_key x) v (last_msg_id x).
Definition with_last_msg_id (v : Z) (x : Session) : Session :=
  mkSession (salt x) (id x) (sequence x) (auth_key x) (time_offset x) v.

Definition with_msg_id (v : Z) (r : Request) : Request :=
  mkRequest (body r) (confirmed r) v (confirm_received r) (responses r).
Definition with_confirm_received (v : bool) (r : Request) : Request :=
  mkRequest (body r) (confirmed r) (msg_id r) v (responses r).
Definition with_response (data : bytes) (r : Request) : Request :=
  mkRequest (body r) (confirmed r) (msg_id r) (confirm_received r) (responses r ++ [data]).

Definition with_transport (f : Transport -> Transport) (s : MtProtoSender) : MtProtoSender :=
  mkSender (f (_transport s)) (session s) (_need_confirmation s) (logging_out s)
    (_waiting_receive s) (_updates_thread_receiving s) (_updates_thread_sleep s)
    (saved s) (log s) (requests s) (next_ref s) (sinks s) (confirm_writes s).
Definition with_session (f : Session -> Session) (s : MtProtoSender) : MtProtoSender :=
  mkSender (_transport s) (f (session s)) (_need_confirmation s) (logging_out s)
    (_waiting_receive s) (_updates_thread_receiving s) (_updates_thread_sleep s)
    (saved s) (log s) (requests s) (next_ref s) (sinks s) (confirm_writes s).
Definition with_need_confirmation (f : list Z -> list Z) (s : MtProtoSender) : MtProtoSender :=
  mkSender (_transport s) (session s) (f (_need_confirmation s)) (logging_out s)
    (_waiting_receive s) (_updates_thread_receiving s) (_updates_thread_sleep s)
    (saved s) (log s) (requests s) (next_ref s) (sinks s) (confirm_writes s).
Definition with_waiting_receive (v : bool) (s : MtProtoSender) : MtProtoSender :=
  mkSender (_transport s) (session s) (_need_confirmation s) (logging_out s)
    v (_updates_thread_receiving s) (_updates_thread_sleep s)
    (saved s) (log s) (requests s) (next_ref s) (sinks s) (confirm_writes s).
Definition with_updates_thread_sleep (v : option Z) (s : MtProtoSender) : MtProtoSender :=
  mkSender (_transport s) (session s) (_need_confirmation s) (logging_out s)
    (_waiting_receive s) (_updates_thread_receiving s) v
    (saved s) (log s) (requests s) (next_ref s) (sinks s) (confirm_writes s).
Definition with_saved (f : list Session -> list Session) (s : MtProtoSender) : MtProtoSender :=
  mkSender (_transport s) (session s) (_need_confirmation s) (logging_out s)
    (_waiting_receive s) (_updates_thread_receiving s) (_updates_thread_sleep s)
    (f (saved s)) (log s) (requests s) (next_ref s) (sinks s) (confirm_writes s).
Definition with_log (f : list (level * string) -> list (level * string)) (s : MtProtoSender)
  : MtProtoSender :=
  mkSender (_transport s) (session s) (_need_confirmation s) (logging_out s)
    (_waiting_receive s) (_updates_thread_receiving s) (_updates_thread_sleep s)
    (saved s) (f (log s)) (requests s) (next_ref s) (sinks s) (confirm_writes s).
Definition with_request (l : ref) (f : Request -> Request) (s : MtProtoSender) : MtProtoSender :=
  mkSender (_transport s) (session s) (_need_confirmation s) (logging_out s)
    (_waiting_receive s) (_updates_thread_receiving s) (_updates_thread_sleep s)
    (saved s) (log s)
    (fun l' => if Nat.eqb l' l then f (requests s l) else requests s l')
    (next_ref s) (sinks s) (confirm_writes s).
Definition with_next_ref (v : ref) (s : MtProtoSender) : MtProtoSender :=
  mkSender (_transport s) (session s) (_need_confirmation s) (logging_out s)
    (_waiting_receive s) (_updates_thread_receiving s) (_updates_thread_sleep s)
    (saved s) (log s) (requests s) v (sinks s) (confirm_writes s).
Definition with_sink (l : ref) (f : list TLObject -> list TLObject) (s : MtProtoSender)
  : MtProtoSender :=
  mkSender (_transport s) (session s) (_need_confirmation s) (logging_out s)
    (_waiting_receive s) (_updates_thread_receiving s) (_updates_thread_sleep s)
    (saved s) (log s) (requests s) (next_ref s)
    (fun l' => if Nat.eqb l' l then f (sinks s l) else sinks s l')
    (confirm_writes s).
Definition with_confirm_writes (f : list (ref * bool) -> list (ref * bool)) (s : MtProtoSender)
  : MtProtoSender :=
  mkSender (_transport s) (session s) (_need_confirmation s) (logging_out s)
    (_waiting_receive s) (_updates_thread_receiving s) (_updates_thread_sleep s)
    (saved s) (log s) (requests s) (next_ref s) (sinks s) (f (confirm_writes s)).

(** ** The state-and-exception monad of the sender *)

Definition M (A : Type) : Type := MtProtoSender -> outcome A * MtProtoSender.

Definition ret {A : Type} (a : A) : M A := fun s => (Ok a, s).

Definition bind {A B : Type} (m : M A) (k : A -> M B) : M B :=
  fun s =>
    match m s with
    | (Ok a, s') => k a s'
    | (Raise e, s') => (Raise e, s')
    end.

Definition raise {A : Type} (e : exn) : M A := fun s => (Raise e, s).
Definition lift {A : Type} (o : outcome A) : M A := fun s => (o, s).
Definition gets {A : Type} (f : MtProtoSender -> A) : M A := fun s => (Ok (f s), s).
Definition modify (f : MtProtoSender -> MtProtoSender) : M unit := fun s => (Ok tt, f s).

Declare Scope sender_scope.
Delimit Scope sender_scope with sender.
Notation "x <- m ;; k" := (bind m (fun x => k))
  (at level 61, m at next level, right associativity) : sender_scope.
Notation "' pat <- m ;; k" := (bind m (fun x => match x with pat => k end))
  (at level 61, pat pattern, m at next level, right associativity) : sender_scope.
Notation "m ;; k" := (bind m (fun _ => k))
  (at level 61, right associativity) : sender_scope.
Local Open Scope sender_scope.

Definition when (c : bool) (m : M unit) : M unit := if c then m else ret tt.

(** Truthiness of a handler's return value; a handler that falls off its end
    returns None. *)
Definition truthy (r : option bool) : bool :=
  match r with
  | Some b => b
  | None => false
  end.

(** ** The collaborators the sender consumes *)

(** utils.calc_msg_key, utils.calc_key and AES.encrypt_ige / AES.decrypt_ige;
    the boolean of [calc_key] is its client flag (True when sending, False
    when decoding). *)
Class Crypto := {
  calc_msg_key : bytes -> bytes;
  calc_key : bytes -> bytes -> bool -> bytes * bytes;
  encrypt_ige : bytes -> bytes -> bytes -> bytes;
  decrypt_ige : bytes -> bytes -> bytes -> bytes
}.

(** The clock behind Session.get_new_msg_id and Session.update_time_offset. *)
Class Clock := {
  fresh_msg_id : Session -> Z;
  offset_for : Z -> Session -> Z
}.

(** gzip.decompress, the TL readers of BinaryReader, the catalog [tlobjects]
    and the serialisation of MsgsAck. *)
Class Codec := {
  gzip_decompress : bytes -> outcome bytes;
  tgread_bytes : BinaryReader -> outcome (bytes * BinaryReader);
  tgread_string : BinaryReader -> outcome (string * BinaryReader);
  tgread_object : BinaryReader -> outcome (TLObject * BinaryReader);
  tlobjects : Z -> bool;
  MsgsAck_on_send : list Z -> bytes
}.

(** Which errors the error taxonomy declares "must resend". *)
Class Taxonomy := {
  must_resend_of : Z -> string -> bool
}.

(** ** Primitive effects *)

(** self._logger.debug / info / warning, and print. *)
Definition logger (lvl : level) (text : string) : M unit :=
  modify (with_log (fun l => l ++ [(lvl, text)])).

(** self._transport.send(data). *)
Definition transport_send (data : bytes) : M unit :=
  modify (with_transport (fun t => mkTransport (sent t ++ [data]) (incoming t) (cancelled t))).

(** self._transport.cancel_receive(). *)
Definition transport_cancel_receive : M unit :=
  modify (with_transport (fun t => mkTransport (sent t) (incoming t) (S (cancelled t)))).

(** self._transport.receive(timeout): the next inbound envelope, or a timeout
    when none is pending. *)
Definition transport_receive : M bytes :=
  fun s =>
    match incoming (_transport s) with
    | [] => (Raise TimeoutError, s)
    | envelope :: rest =>
        (Ok envelope,
         with_transport (fun t => mkTransport (sent t) rest (cancelled t)) s)
    end.

(** self.session.save(): the session as it is now is persisted. *)
Definition session_save : M unit :=
  modify (fun s => with_saved (fun l => l ++ [session s]) s).

Definition deref (request : ref) : M Request := gets (fun s => requests s request).

(** request.msg_id = v *)
Definition set_msg_id (request : ref) (v : Z) : M unit :=
  modify (with_request request (with_msg_id v)).

(** request.confirm_received = v.  Each assignment is also appended to
    [confirm_writes], the history of assignments to that attribute. *)
Definition set_confirm_received (request : ref) (v : bool) : M unit :=
  modify (fun s =>
    with_confirm_writes (fun h => h ++ [(request, v)])
      (with_request request (with_confirm_received v) s)).

(** request.on_response(reader): the request parses what the reader still
    holds; those bytes are recorded.  Where the request leaves the cursor is
    not modelled: no caller looks at the reader again before repositioning
    it. *)
Definition on_response (request : ref) (reader : BinaryReader) : M unit :=
  modify (with_request request (with_response (remaining reader))).

(** updates.append(result) *)
Definition updates_append (updates : ref) (result : TLObject) : M unit :=
  modify (with_sink updates (fun l => l ++ [result])).

(** A newly constructed request object. *)
Definition new_object (r : Request) : M ref :=
  fun s =>
    let l := next_ref s in
    (Ok l, with_next_ref (S l) (with_request l (fun _ => r) s)).

(** Decimal digits. *)
Definition digit_of (c : ascii) : option Z :=
  let n := Z.of_nat (nat_of_ascii c) in
  if (48 <=? n) && (n <=? 57) then Some (n - 48) else None.

Fixpoint parse_digits (acc : Z) (s : string) : option Z :=
  match s with
  | EmptyString => Some acc
  | String c s' =>
      match digit_of c with
      | Some d => parse_digits (10 * acc + d) s'
      | None => None
      end
  end.

Definition parse_int (s : string) : option Z :=
  match s with
  | EmptyString => None
  | _ => parse_digits 0 s
  end.

(** Modelled from the spec: RPCError.additional_data of telethon.errors, which
    is not among the sources: the integer suffix of a FLOOD_WAIT_ message
    (section 4.7). *)
Definition integer_suffix (text : string) : option Z :=
  if String.prefix "FLOOD_WAIT_" text
  then parse_int (substring 11 (String.length text - 11) text)
  else None.

(** Modelled from the spec: RPCError of telethon.errors, which is not among
    the sources.  The error keeps its code and message, is "must resend" when
    the error taxonomy declares it so, and carries the integer suffix of a
    flood-wait message as additional_data (section 4.7). *)
Definition RPCError_init `{Taxonomy} (c : Z) (text : string) : RPCError :=
  mkRPCError c text (must_resend_of c text) (integer_suffix text).

(** sub in text *)
Fixpoint contains (sub text : string) : bool :=
  String.prefix sub text ||
  match text with
  | EmptyString => false
  | String _ text' => contains sub text'
  end.

(** Modelled from the spec: MsgsAck of telethon.tl.types, which is generated
    code and not among the sources.  The object is not content related
    (section 4.3) and serialises the ids it was built from. *)
Definition MsgsAck `{Codec} (ids : list Z) : Request :=
  mkRequest (MsgsAck_on_send ids) false 0 false [].

Section Sender.
Context `{Crypto} `{Clock} `{Codec} `{Taxonomy}.

(** Modelled from the spec: Session.get_new_msg_id of telethon.tl.session,
    which is not among the sources.  The clock supplies the id, and the session
    remembers it as the last one handed out. *)
Definition get_new_msg_id : M Z :=
  new_msg_id <- gets (fun s => fresh_msg_id (session s)) ;;
  modify (with_session (with_last_msg_id new_msg_id)) ;;
  ret new_msg_id.

(** Modelled from the spec: Session.update_time_offset of telethon.tl.session,
    which is not among the sources.  The offset is recomputed by the clock
    from the msg_id the server vouched for. *)
Definition update_time_offset (correct_msg_id : Z) : M unit :=
  modify (with_session (fun x => with_time_offset (offset_for correct_msg_id x) x)).

(** ** The sender *)

Definition _generate_sequence (confirmed : bool) : M Z :=
  if confirmed then
    n <- gets (fun s => sequence (session s)) ;;
    let result := n * 2 + 1 in
    modify (with_session (fun x => with_sequence (sequence x + 1) x)) ;;
    ret result
  else
    n <- gets (fun s => sequence (session s)) ;;
    ret (n * 2).

Definition _send_packet (packet : bytes) (request : ref) : M unit :=
  new_msg_id <- get_new_msg_id ;;
  set_msg_id request new_msg_id ;;
  (* First calculate plain_text to encrypt it *)
  let plain_writer : BinaryWriter := [] in
  v <- gets (fun s => salt (session s)) ;;
  plain_writer <- lift (write_long v false plain_writer) ;;
  v <- gets (fun s => id (session s)) ;;
  plain_writer <- lift (write_long v false plain_writer) ;;
  r <- deref request ;;
  plain_writer <- lift (write_long (msg_id r) true plain_writer) ;;
  r <- deref request ;;
  seq_no <- _generate_sequence (confirmed r) ;;
  plain_writer <- lift (write_int seq_no true plain_writer) ;;
  plain_writer <- lift (write_int (len packet) true plain_writer) ;;
  plain_writer <- lift (write packet plain_writer) ;;
  let msg_key := calc_msg_key (get_bytes plain_writer) in
  k <- gets (fun s => key (auth_key (session s))) ;;
  let key_iv := calc_key k msg_key true in
  let cipher_text := encrypt_ige (get_bytes plain_writer) (fst key_iv) (snd key_iv) in
  (* And then finally send the encrypted packet *)
  let cipher_writer : BinaryWriter := [] in
  v <- gets (fun s => key_id (auth_key (session s))) ;;
  cipher_writer <- lift (write_long v false cipher_writer) ;;
  cipher_writer <- lift (write msg_key cipher_writer) ;;
  cipher_writer <- lift (write cipher_text cipher_writer) ;;
  transport_send (get_bytes cipher_writer).

Definition _decode_msg (envelope : bytes) : M (bytes * Z * Z) :=
  let reader := BinaryReader_of envelope in
  if len envelope <? 8 then raise BufferError
  else
    '(_, reader) <- lift (read_long true reader) ;;
    '(msg_key, reader) <- lift (read 16 reader) ;;
    k <- gets (fun s => key (auth_key (session s))) ;;
    let key_iv := calc_key k msg_key false in
    '(cipher_text, reader) <- lift (read (len envelope - tell_position reader) reader) ;;
    let plain_text := decrypt_ige cipher_text (fst key_iv) (snd key_iv) in
    let plain_text_reader := BinaryReader_of plain_text in
    '(_, plain_text_reader) <- lift (read_long true plain_text_reader) ;;
    '(_, plain_text_reader) <- lift (read_long true plain_text_reader) ;;
    '(remote_msg_id, plain_text_reader) <- lift (read_long true plain_text_reader) ;;
    '(remote_sequence, plain_text_reader) <- lift (read_int true plain_text_reader) ;;
    '(msg_len, plain_text_reader) <- lift (read_int true plain_text_reader) ;;
    '(message, plain_text_reader) <- lift (read msg_len plain_text_reader) ;;
    ret (message, remote_msg_id, remote_sequence).

(** The lock of send() and receive() orders threads and has no effect on the
    state of one call; it is not part of the state. *)
Definition send (request : ref) : M unit :=
  receiving <- gets _updates_thread_receiving ;;
  when receiving
    (logger INFO "Cancelling updates receive from send()..." ;;
     transport_cancel_receive) ;;
  logger DEBUG "send() acquired the lock" ;;
  modify (with_waiting_receive true) ;;
  (* If any message needs confirmation send an AckRequest first *)
  pending <- gets _need_confirmation ;;
  match pending with
  | [] => ret tt
  | _ :: _ =>
      msgs_ack <- new_object (MsgsAck pending) ;;
      a <- deref msgs_ack ;;
      _send_packet (body a) msgs_ack ;;
      modify (with_need_confirmation (fun _ => []))
  end ;;
  (* Finally send our packed request *)
  r <- deref request ;;
  _send_packet (body r) request ;;
  session_save ;;
  logger DEBUG "send() released the lock".

(** *** Message handling

    Every handler returns its Python return value (None when it falls off its
    end) and the reader as it leaves it.  The first two arguments are the
    msg_id and sequence of the inbound message. *)

Definition handled : Type := option bool * BinaryReader.

Definition dispatcher : Type :=
  Z -> Z -> BinaryReader -> option ref -> option ref -> M handled.

Definition _handle_pong (in_msg_id in_sequence : Z) (reader : BinaryReader)
    (request : option ref) : M handled :=
  logger DEBUG "Handling pong" ;;
  '(_, reader) <- lift (read_int false reader) ;;
  '(received_msg_id, reader) <- lift (read_long false reader) ;;
  match request with
  | None => raise (AttributeError "msg_id")
  | Some request =>
      r <- deref request ;;
      when (received_msg_id =? msg_id r)
        (logger WARNING "Pong confirmed a request" ;;
         set_confirm_received request true)
  end ;;
  ret (Some false, reader).

Fixpoint container_loop (process : dispatcher) (count : nat) (in_sequence : Z)
    (reader : BinaryReader) (request updates : option ref) : M BinaryReader :=
  match count with
  | O => ret reader
  | S count' =>
      '(inner_msg_id, reader) <- lift (read_long false reader) ;;
      '(_, reader) <- lift (read_int true reader) ;;
      '(inner_length, reader) <- lift (read_int true reader) ;;
      let begin_position := tell_position reader in
      '(result, reader) <- process inner_msg_id in_sequence reader request updates ;;
      reader <- (if truthy result then ret reader
                 else lift (set_position (begin_position + inner_length) reader)) ;;
      container_loop process count' in_sequence reader request updates
  end.

Definition _handle_container (process : dispatcher) (in_msg_id in_sequence : Z)
    (reader : BinaryReader) (request updates : option ref) : M handled :=
  logger DEBUG "Handling container" ;;
  '(_, reader) <- lift (read_int false reader) ;;
  '(size, reader) <- lift (read_int true reader) ;;
  reader <- container_loop process (Z.to_nat size) in_sequence reader request updates ;;
  ret (Some false, reader).

Definition _handle_bad_server_salt (in_msg_id in_sequence : Z) (reader : BinaryReader)
    (request : option ref) : M handled :=
  logger DEBUG "Handling bad server salt" ;;
  '(_, reader) <- lift (read_int false reader) ;;
  '(_, reader) <- lift (read_long false reader) ;;
  '(_, reader) <- lift (read_int true reader) ;;
  '(_, reader) <- lift (read_int true reader) ;;
  '(new_salt, reader) <- lift (read_long false reader) ;;
  modify (with_session (with_salt new_salt)) ;;
  match request with
  | None => raise (ValueError "Tried to handle a bad server salt with no request specified")
  | Some request =>
      (* Resend *)
      send request ;;
      ret (Some true, reader)
  end.

Definition _handle_bad_msg_notification (in_msg_id in_sequence : Z)
    (reader : BinaryReader) : M handled :=
  logger DEBUG "Handling bad message notification" ;;
  '(_, reader) <- lift (read_int false reader) ;;
  '(_, reader) <- lift (read_long false reader) ;;
  '(_, reader) <- lift (read_int true reader) ;;
  '(error_code, reader) <- lift (read_int true reader) ;;
  let error := BadMessageError error_code in
  if (error_code =? 16) || (error_code =? 17) then
    update_time_offset in_msg_id ;;
    session_save ;;
    logger WARNING "Read Bad Message error: " ;;
    logger INFO "Attempting to use the correct time offset." ;;
    ret (None, reader)
  else raise error.

Definition _handle_rpc_result (in_msg_id in_sequence : Z) (reader : BinaryReader)
    (request : option ref) : M handled :=
  logger DEBUG "Handling RPC result, request is%s None" ;;
  '(_, reader) <- lift (read_int false reader) ;;
  '(request_id, reader) <- lift (read_long false reader) ;;
  '(inner_code, reader) <- lift (read_int false reader) ;;
  match request with
  | None => ret tt
  | Some request =>
      r <- deref request ;;
      when (request_id =? msg_id r) (set_confirm_received request true)
  end ;;
  if inner_code =? 0x2144ca19 then
    '(c, reader) <- lift (read_int true reader) ;;
    '(text, reader) <- lift (tgread_string reader) ;;
    let error := RPCError_init c text in
    logger WARNING "Read RPC error: %s" ;;
    when (must_resend error)
      match request with
      | None =>
          raise (ValueError
            "The previously sent request must be resent. However, no request was previously sent (called from updates thread).")
      | Some request => set_confirm_received request false
      end ;;
    if String.prefix "FLOOD_WAIT_" (message error) then
      modify (with_updates_thread_sleep (additional_data error)) ;;
      raise (FloodWaitError (additional_data error))
    else if contains "_MIGRATE_" (message error) then
      raise (InvalidDCError error)
    else
      raise (RPCErrorRaised error)
  else
    match request with
    | None =>
        raise (ValueError
          "Cannot receive a request from inside an RPC result from the updates thread.")
    | Some request =>
        logger DEBUG "Reading request response" ;;
        if inner_code =? 0x3072cfa1 then
          '(packed_data, reader) <- lift (tgread_bytes reader) ;;
          unpacked_data <- lift (gzip_decompress packed_data) ;;
          let compressed_reader := BinaryReader_of unpacked_data in
          on_response request compressed_reader ;;
          ret (None, reader)
        else
          reader <- lift (seek (-4) reader) ;;
          r <- deref request ;;
          if request_id =? msg_id r then
            on_response request reader ;;
            ret (None, reader)
          else
            logger WARNING
              "RPC result found for unknown request (maybe from previous connection session)" ;;
            ret (None, reader)
    end.

Definition _handle_gzip_packed (process : dispatcher) (in_msg_id in_sequence : Z)
    (reader : BinaryReader) (request updates : option ref) : M handled :=
  logger DEBUG "Handling gzip packed data" ;;
  '(_, reader) <- lift (read_int false reader) ;;
  '(packed_data, reader) <- lift (tgread_bytes reader) ;;
  unpacked_data <- lift (gzip_decompress packed_data) ;;
  let compressed_reader := BinaryReader_of unpacked_data in
  '(result, _) <- process in_msg_id in_sequence compressed_reader request updates ;;
  ret (result, reader).

(** [_process_msg] re-enters itself through containers and gzip wrappers;
    [depth] is the number of frames the interpreter still allows. *)
Fixpoint _process_msg (depth : nat) (in_msg_id in_sequence : Z) (reader : BinaryReader)
    (request updates : option ref) {struct depth} : M handled :=
  match depth with
  | O => raise RecursionError
  | S depth' =>
      modify (with_need_confirmation (fun l => l ++ [in_msg_id])) ;;
      '(code, reader) <- lift (read_int false reader) ;;
      reader <- lift (seek (-4) reader) ;;
      (* The following codes are "parsed manually" *)
      if code =? 0xf35c6d01 then
        _handle_rpc_result in_msg_id in_sequence reader request
      else if code =? 0x347773c5 then
        _handle_pong in_msg_id in_sequence reader request
      else if code =? 0x73f1f8dc then
        _handle_container (_process_msg depth') in_msg_id in_sequence reader request updates
      else if code =? 0x3072cfa1 then
        _handle_gzip_packed (_process_msg depth') in_msg_id in_sequence reader request updates
      else if code =? 0xedab447b then
        _handle_bad_server_salt in_msg_id in_sequence reader request
      else if code =? 0xa7eff811 then
        _handle_bad_msg_notification in_msg_id in_sequence reader
      else if code =? 0x62d6b459 then
        (* msgs_ack, it may handle the request we wanted *)
        '(ack, reader) <- lift (tgread_object reader) ;;
        match request with
        | None => ret tt
        | Some request =>
            r <- deref request ;;
            match ack with
            | MsgsAckObject msg_ids =>
                when (existsb (Z.eqb (msg_id r)) msg_ids)
                  (logger WARNING "Ack found for the current request ID" ;;
                   out <- gets logging_out ;;
                   when out
                     (logger INFO "Message ack confirmed the logout request" ;;
                      set_confirm_received request true))
            | UpdateObject _ _ => raise (AttributeError "msg_ids")
            end
        end ;;
        ret (Some false, reader)
      else if tlobjects code then
        '(result, reader) <- lift (tgread_object reader) ;;
        match updates with
        | None => logger DEBUG "Ignored update for %s"
        | Some updates =>
            logger DEBUG "Read update for %s" ;;
            updates_append updates result
        end ;;
        ret (Some false, reader)
      else
        logger STDOUT "Unknown message: {}" ;;
        ret (Some false, reader)
  end.

(** The body of the [while True] of receive().  Every turn takes one envelope
    off the transport, which times out when none is pending, so the loop makes
    at most one turn more than there are pending envelopes. *)
Fixpoint receive_loop (turns depth : nat) (request updates : option ref) : M unit :=
  match turns with
  | O => raise TimeoutError
  | S turns' =>
      logger INFO "Trying to .receive() the request result..." ;;
      envelope <- transport_receive ;;
      '(decoded, remote_msg_id, remote_sequence) <- _decode_msg envelope ;;
      _process_msg depth remote_msg_id remote_sequence (BinaryReader_of decoded)
        request updates ;;
      done <- match request with
              | None =>
                  match updates with
                  | None => ret false
                  | Some updates =>
                      l <- gets (fun s => sinks s updates) ;;
                      ret (negb (Nat.eqb (List.length l) 0))
                  end
              | Some request =>
                  r <- deref request ;;
                  ret (confirm_received r)
              end ;;
      if done then ret tt else receive_loop turns' depth request updates
  end.

Definition receive (depth : nat) (request updates : option ref) : M unit :=
  match request, updates with
  | None, None =>
      raise (ValueError
        "Both the request and updates parameters cannot be None at the same time.")
  | _, _ =>
      logger DEBUG "receive() acquired the lock" ;;
      pending <- gets (fun s => incoming (_transport s)) ;;
      receive_loop (S (List.length pending)) depth request updates ;;
      logger INFO "Request result received" ;;
      modify (with_waiting_receive false) ;;
      logger DEBUG "receive() released the lock"
  end.

(** receive_update(): receive with no request and a fresh updates list, then
    updates[0]. *)
Definition receive_update (depth : nat) (updates : ref) : M TLObject :=
  modify (with_sink updates (fun _ => [])) ;;
  receive depth None (Some updates) ;;
  l <- gets (fun s => sinks s updates) ;;
  match l with
  | first :: _ => ret first
  | [] => raise (AttributeError "updates[0]")
  end.

End Sender.

(** ** The wire format, as the spec words it

    Section 6: the plaintext is
    salt(u64) || session_id(u64) || msg_id(u64) || sequence(i32) ||
    body_len(i32) || body, and the envelope is
    auth_key_id(u64) || msg_key(16) || AES-IGE(plaintext), all integers
    little-endian.  These two definitions follow the spec; the theorems compare
    them with what [_send_packet] puts on the transport. *)

Definition plain_text_of (x : Session) (m seq_no : Z) (packet : bytes) : bytes :=
  le_split 8 (salt x) ++ le_split 8 (id x) ++ le_split 8 m ++
  le_split 4 seq_no ++ le_split 4 (len packet) ++ packet.

Definition envelope_of `{Crypto} (x : Session) (m seq_no : Z) (packet : bytes) : bytes :=
  let plain_text := plain_text_of x m seq_no packet in
  let msg_key := calc_msg_key plain_text in
  let key_iv := calc_key (key (auth_key x)) msg_key true in
  le_split 8 (key_id (auth_key x)) ++ msg_key ++
  encrypt_ige plain_text (fst key_iv) (snd key_iv).

(** The sequence number [_generate_sequence] hands to a message. *)
Definition sequence_of (x : Session) (content_related : bool) : Z :=
  if content_related then sequence x * 2 + 1 else sequence x * 2.

(** Calling the sequence generator once per flag, in order. *)
Fixpoint generate_all (flags : list bool) : M (list Z) :=
  match flags with
  | [] => ret []
  | confirmed :: flags' =>
      n <- _generate_sequence confirmed ;;
      ns <- generate_all flags' ;;
      ret (n :: ns)
  end.

(** The i-th odd number from [n] on: 2(n+i)+1. *)
Definition odd_series (n : Z) (count : nat) : list Z :=
  map (fun i => 2 * (n + Z.of_nat i) + 1) (seq 0 count).

(** ** What the frame codec and send() do, in closed form

    These definitions restate the effect of [_send_packet], [_decode_msg] and
    [send] without the monad; the lemmas of the second part prove that the
    code computes them. *)

(** Every field of the frame fits its width. *)
Definition sendable `{Clock} (packet : bytes) (request : ref) (s : MtProtoSender) : bool :=
  let x := session s in
  fits 8 false (salt x) && fits 8 false (id x) && fits 8 true (fresh_msg_id x) &&
  fits 4 true (sequence_of x (confirmed (requests s request))) &&
  fits 4 true (len packet) && fits 8 false (key_id (auth_key x)).

(** The state after a [_send_packet] that returns. *)
Definition packet_sent `{Crypto} `{Clock} (packet : bytes) (request : ref) (s : MtProtoSender)
  : MtProtoSender :=
  let m := fresh_msg_id (session s) in
  let c := confirmed (requests s request) in
  with_transport
    (fun t => mkTransport
       (sent t ++ [envelope_of (session s) m (sequence_of (session s) c) packet])
       (incoming t) (cancelled t))
    (with_session (fun x => with_sequence (if c then sequence x + 1 else sequence x) x)
       (with_request request (with_msg_id m)
          (with_session (with_last_msg_id m) s))).

(** decrypt of section 4.1: auth_key_id(8), msg_key(16), then the cipher
    text; from the plaintext skip salt and session id, read remote_msg_id,
    remote_sequence and msg_len, then msg_len bytes of body. *)
Definition decoded `{Crypto} (x : Session) (envelope : bytes) : outcome (bytes * Z * Z) :=
  if len envelope <? 24 then Raise BufferError
  else
    let msg_key := firstn 16 (skipn 8 envelope) in
    let key_iv := calc_key (key (auth_key x)) msg_key false in
    let plain_text := decrypt_ige (skipn 24 envelope) (fst key_iv) (snd key_iv) in
    if len plain_text <? 32 then Raise BufferError
    else
      let msg_len := from_bytes (firstn 4 (skipn 28 plain_text)) true in
      if (msg_len <? 0) || (len plain_text - 32 <? msg_len) then Raise BufferError
      else
        Ok (firstn (Z.to_nat msg_len) (skipn 32 plain_text),
            from_bytes (firstn 8 (skipn 16 plain_text)) true,
            from_bytes (firstn 4 (skipn 24 plain_text)) true).

(** The state in which send() starts to transmit. *)
Definition entered (s : MtProtoSender) : MtProtoSender :=
  with_waiting_receive true
    (with_log (fun l => l ++ [(DEBUG, "send() acquired the lock"%string)])
       (if _updates_thread_receiving s
        then with_transport
               (fun t => mkTransport (sent t) (incoming t) (S (cancelled t)))
               (with_log
                  (fun l => l ++ [(INFO, "Cancelling updates receive from send()..."%string)]) s)
        else s)).

(** The state once the pending acknowledgements, if any, are on the wire. *)
Definition acknowledged `{Crypto} `{Clock} `{Codec} (s : MtProtoSender) : MtProtoSender :=
  match _need_confirmation s with
  | [] => s
  | _ :: _ =>
      with_need_confirmation (fun _ => [])
        (packet_sent (MsgsAck_on_send (_need_confirmation s)) (next_ref s)
           (with_next_ref (S (next_ref s))
              (with_request (next_ref s) (fun _ => MsgsAck (_need_confirmation s)) s)))
  end.

(** The state a send() that returns leaves behind. *)
Definition request_sent `{Crypto} `{Clock} `{Codec} (request : ref) (s : MtProtoSender)
  : MtProtoSender :=
  let s1 := acknowledged (entered s) in
  let s2 := packet_sent (body (requests s1 request)) request s1 in
  with_log (fun l => l ++ [(DEBUG, "send() released the lock"%string)])
    (with_saved (fun l => l ++ [session s2]) s2).

(** The state in which receive() dispatches its first envelope, [pending]
    being the envelopes that follow it on the transport. *)
Definition receiving (pending : list bytes) (s : MtProtoSender) : MtProtoSender :=
  with_transport (fun t => mkTransport (sent t) pending (cancelled t))
    (with_log (fun l => l ++ [(INFO, "Trying to .receive() the request result..."%string)])
       (with_log (fun l => l ++ [(DEBUG, "receive() acquired the lock"%string)]) s)).

(** The envelopes a send() puts on the wire: the msgs_ack for the pending
    ids, if any, then the request. *)
Definition transmitted `{Crypto} `{Clock} `{Codec} (request : ref) (s : MtProtoSender)
  : list bytes :=
  let x := session s in
  let r := requests s request in
  match _need_confirmation s with
  | [] => [envelope_of x (fresh_msg_id x) (sequence_of x (confirmed r)) (body r)]
  | ids =>
      let m1 := fresh_msg_id x in
      let m2 := fresh_msg_id (with_last_msg_id m1 x) in
      [envelope_of x m1 (2 * sequence x) (MsgsAck_on_send ids);
       envelope_of x m2 (sequence_of x (confirmed r)) (body r)]
  end.

(** The msg_id a send() gives to the request. *)
Definition request_msg_id `{Clock} (s : MtProtoSender) : Z :=
  let x := session s in
  match _need_confirmation s with
  | [] => fresh_msg_id x
  | _ :: _ => fresh_msg_id (with_last_msg_id (fresh_msg_id x) x)
  end.

(** ** Concrete collaborators, for running the model *)

(** A cipher that ignores the direction flag: the key is the auth key, the
    cipher text is the plaintext padded with zero bytes to whole blocks. *)
Definition pad16 (data : bytes) : bytes :=
  data ++ repeat Byte.x00 ((16 - List.length data mod 16) mod 16)%nat.

#[local] Instance loopback_crypto : Crypto := {
  calc_msg_key := fun data => le_split 16 (len data);
  calc_key := fun k msg_key _ => (k, msg_key);
  encrypt_ige := fun data _ _ => pad16 data;
  decrypt_ige := fun data _ _ => data
}.

(** A cipher whose key depends on the direction flag, as the key derivation
    of MTProto does: every byte is xor-ed with 0x00 (client) or 0xff. *)
Definition xor_with (k : bytes) (data : bytes) : bytes :=
  map (fun b => byte.xor b (hd Byte.x00 k)) data.

#[local] Instance directional_crypto : Crypto := {
  calc_msg_key := fun data => le_split 16 (len data);
  calc_key := fun _ msg_key client => ([if client then Byte.x00 else Byte.xff], msg_key);
  encrypt_ige := fun data k _ => xor_with k (pad16 data);
  decrypt_ige := fun data k _ => xor_with k data
}.

(** A clock that hands out the last id plus four. *)
#[local] Instance stepping_clock : Clock := {
  fresh_msg_id := fun x => last_msg_id x + 4;
  offset_for := fun correct_msg_id _ => Z.shiftr correct_msg_id 32
}.

(** TL strings with a one-byte length, no compression, an empty catalog. *)
Definition ascii_of_byte (b : byte) : ascii := ascii_of_nat (Z.to_nat (byte.unsigned b)).

Definition short_bytes (reader : BinaryReader) : outcome (bytes * BinaryReader) :=
  ('(n, reader) <- read 1 reader ;;
   read (le_combine n) reader)%outcome.

#[local] Instance plain_codec : Codec := {
  gzip_decompress := fun data => Ok data;
  tgread_bytes := short_bytes;
  tgread_string := fun reader =>
    ('(bs, reader) <- short_bytes reader ;;
     Ok (string_of_list_ascii (map ascii_of_byte bs), reader))%outcome;
  tgread_object := fun reader =>
    ('(c, reader) <- read_int false reader ;;
     Ok (UpdateObject c (remaining reader), reader))%outcome;
  tlobjects := fun _ => false;
  MsgsAck_on_send := fun ids =>
    le_split 4 0x62d6b459 ++ le_split 4 0x1cb5c415 ++ le_split 4 (len ids) ++
    flat_map (le_split 8) ids
}.

(** ERROR_SEE_OTHER (303) must be resent. *)
#[local] Instance see_other : Taxonomy := {
  must_resend_of := fun c _ => c =? 303
}.

Definition request0 : Request := mkRequest [] true 0 false [].

(** A sender at rest: [seq_no] content messages sent, the ids in [acks]
    waiting to be acknowledged, [r] at reference 0. *)
Definition sender0 (slt seq_no last : Z) (acks : list Z) (r : Request) : MtProtoSender :=
  mkSender (mkTransport [] [] 0%nat)
    (mkSession slt 7 seq_no (mkAuthKey [Byte.x2a] 9) 0 last)
    acks false false false None [] []
    (fun l => if Nat.eqb l 0 then r else request0) 1%nat (fun _ => []) [].

(** [text] as TL bytes with a one-byte length. *)
Definition bytes_of_string (text : string) : bytes :=
  map (fun c => byte.of_Z (Z.of_nat (nat_of_ascii c))) (list_ascii_of_string text).

Definition short_string (text : string) : bytes :=
  byte.of_Z (Z.of_nat (String.length text)) :: bytes_of_string text.

(** ** The layout of the inbound messages the handlers parse

    The fields each handler reads, in order, little-endian; [rest] is what
    follows them. *)

Definition rpc_result_message (request_id inner_code : Z) (rest : bytes) : bytes :=
  le_split 4 0xf35c6d01 ++ le_split 8 request_id ++ le_split 4 inner_code ++ rest.

Definition pong_message (ping_msg_id : Z) (rest : bytes) : bytes :=
  le_split 4 0x347773c5 ++ le_split 8 ping_msg_id ++ rest.

Definition bad_server_salt_message (bad_msg_id bad_seq error_code new_salt : Z)
    (rest : bytes) : bytes :=
  le_split 4 0xedab447b ++ le_split 8 bad_msg_id ++ le_split 4 bad_seq ++
  le_split 4 error_code ++ le_split 8 new_salt ++ rest.

Definition bad_msg_notification_message (bad_msg_id bad_seq error_code : Z)
    (rest : bytes) : bytes :=
  le_split 4 0xa7eff811 ++ le_split 8 bad_msg_id ++ le_split 4 bad_seq ++
  le_split 4 error_code ++ rest.

(** An inbound envelope for the cipher that ignores the direction: 24 bytes of
    auth_key_id and msg_key, then the plaintext in clear. *)
Definition inbound_envelope (remote_msg_id remote_sequence : Z) (payload : bytes) : bytes :=
  repeat Byte.x00 24 ++
  le_split 8 5 ++ le_split 8 7 ++ le_split 8 remote_msg_id ++ le_split 4 remote_sequence ++
  le_split 4 (len payload) ++ payload.

Definition good_envelope : bytes := inbound_envelope 104 7 [Byte.x01; Byte.x02].

(** A pong for ping 100. *)
Definition pong_envelope : bytes := inbound_envelope 204 8 (pong_message 100 (le_split 8 1)).

(** Scenario S5 of the spec: rpc_result carrying
    rpc_error(code, message=FLOOD_WAIT_7) for the request 100. *)
Definition flood_wait_message (error_code : Z) : bytes :=
  rpc_result_message 100 0x2144ca19 (le_split 4 error_code ++ short_string "FLOOD_WAIT_7").

(** A request that was sent with msg_id 100. *)
Definition request100 : Request := mkRequest [Byte.x01] true 100 false [].

(** * The rest of the sender *)

(** ** send_ping *)

(** The serialisation of the requests the sender builds itself. *)
Class Functions := {
  PingRequest_on_send : Z -> bytes
}.

(** Modelled from the spec: PingRequest of telethon.tl.functions, which is
    generated code and not among the sources.  A ping is content related
    (section 4.10) and serialises the ping id it was built from. *)
Definition PingRequest `{Functions} (ping_id : Z) : Request :=
  mkRequest (PingRequest_on_send ping_id) true 0 false [].

(** send_ping(); [ping_id] is what utils.generate_random_long() returns. *)
Definition send_ping `{Crypto} `{Clock} `{Codec} `{Taxonomy} `{Functions}
    (depth : nat) (ping_id : Z) : M unit :=
  (request <- new_object (PingRequest ping_id) ;;
   send request ;;
   receive depth (Some request) None)%sender.

(** ** Connection, update handlers and the updates thread

    The attributes of the sender that only these methods touch are kept beside
    the state of the first part.  A handler and a Thread object are known by
    their identity, a number.  The transport is not among the sources:
    [connected] records which of its connect() and close() was called last.
    Thread.start() launches the concurrent loop, which is outside the model;
    [threads_started] records on which Thread objects it was called, in
    order. *)
Record Coordinator := mkCoordinator {
  sender : MtProtoSender;
  connected : bool;
  _on_update_handlers : list nat;
  _updates_thread : option nat;
  _updates_thread_running : bool;
  threads_created : nat;
  threads_started : list nat
}.

Definition with_sender (f : MtProtoSender -> MtProtoSender) (c : Coordinator) : Coordinator :=
  mkCoordinator (f (sender c)) (connected c) (_on_update_handlers c) (_updates_thread c)
    (_updates_thread_running c) (threads_created c) (threads_started c).
Definition with_connected (v : bool) (c : Coordinator) : Coordinator :=
  mkCoordinator (sender c) v (_on_update_handlers c) (_updates_thread c)
    (_updates_thread_running c) (threads_created c) (threads_started c).
Definition with_handlers (f : list nat -> list nat) (c : Coordinator) : Coordinator :=
  mkCoordinator (sender c) (connected c) (f (_on_update_handlers c)) (_updates_thread c)
    (_updates_thread_running c) (threads_created c) (threads_started c).
Definition with_running (v : bool) (c : Coordinator) : Coordinator :=
  mkCoordinator (sender c) (connected c) (_on_update_handlers c) (_updates_thread c)
    v (threads_created c) (threads_started c).
Definition with_started (thread : nat) (c : Coordinator) : Coordinator :=
  mkCoordinator (sender c) (connected c) (_on_update_handlers c) (_updates_thread c)
    (_updates_thread_running c) (threads_created c) (threads_started c ++ [thread]).

(** Thread(name='UpdatesThread', ...): a new Thread object, not yet started. *)
Definition new_thread (c : Coordinator) : Coordinator :=
  mkCoordinator (sender c) (connected c) (_on_update_handlers c) (Some (threads_created c))
    (_updates_thread_running c) (S (threads_created c)) (threads_started c).

(** self._updates_thread.start() is recorded by [with_started]. *)
Definition _set_updates_thread (running : bool) (c : Coordinator) : Coordinator :=
  match _updates_thread c with
  | None => c
  | Some thread =>
      if Bool.eqb running (_updates_thread_running c) then c
      else
        (* Different state, update the saved value and behave as required *)
        let c :=
          with_sender
            (fun s => snd (logger INFO "Changing updates thread running status to %s" s)) c in
        if running then
          with_started thread (with_running true c)
        else
          let c := with_running false c in
          if _updates_thread_receiving (sender c)
          then with_sender (fun s => snd (transport_cancel_receive s)) c
          else c
  end.

Definition connect (c : Coordinator) : Coordinator := with_connected true c.

Definition disconnect (c : Coordinator) : Coordinator :=
  with_connected false (_set_updates_thread false c).

Definition reconnect (c : Coordinator) : Coordinator := connect (disconnect c).

Definition setup_ping_thread (c : Coordinator) : Coordinator :=
  _set_updates_thread true (new_thread c).

Definition add_update_handler (handler : nat) (c : Coordinator) : Coordinator :=
  with_handlers (fun l => l ++ [handler]) c.

(** list.remove(x): the first occurrence goes; None when there is none. *)
Fixpoint list_remove (x : nat) (l : list nat) : option (list nat) :=
  match l with
  | [] => None
  | y :: l' =>
      if Nat.eqb y x then Some l'
      else match list_remove x l' with
           | Some l'' => Some (y :: l'')
           | None => None
           end
  end.

Definition remove_update_handler (handler : nat) (c : Coordinator)
  : outcome unit * Coordinator :=
  match list_remove handler (_on_update_handlers c) with
  | Some l => (Ok tt, with_handlers (fun _ => l) c)
  | None => (Raise (ValueError "list.remove(x): x not in list"), c)
  end.

(** The Thread objects are numbered as they are created, and only created
    ones are known or started. *)
Definition threads_known (c : Coordinator) : Prop :=
  (forall thread, _updates_thread c = Some thread -> (thread < threads_created c)%nat) /\
  (forall thread, In thread (threads_started c) -> (thread < threads_created c)%nat) /\
  NoDup (threads_started c).

(** The public methods of this part, as a user calls them. *)
Inductive call : Type :=
| Connect
| Disconnect
| Reconnect
| SetupPingThread
| AddUpdateHandler (handler : nat)
| RemoveUpdateHandler (handler : nat).

Definition perform (op : call) (c : Coordinator) : Coordinator :=
  match op with
  | Connect => connect c
  | Disconnect => disconnect c
  | Reconnect => reconnect c
  | SetupPingThread => setup_ping_thread c
  | AddUpdateHandler handler => add_update_handler handler c
  | RemoveUpdateHandler handler => snd (remove_update_handler handler c)
  end.

Definition perform_all (ops : list call) (c : Coordinator) : Coordinator :=
  fold_left (fun c op => perform op c) ops c.

(** A sender as __init__ leaves it, around the state [s] of the first part. *)
Definition coordinator0 (s : MtProtoSender) : Coordinator :=
  mkCoordinator s false [] None false 0 [].

(** ** More message layouts *)

Definition tagged (tag : Z) (rest : bytes) : bytes := le_split 4 tag ++ rest.

(** The tags [_process_msg] parses by hand. *)
Definition manual_tags : list Z :=
  [0xf35c6d01; 0x347773c5; 0x73f1f8dc; 0x3072cfa1; 0xedab447b; 0xa7eff811; 0x62d6b459].

(** One record of a container: msg_id, sequence, length, body. *)
Definition inner_record (inner_msg_id inner_sequence : Z) (inner_body : bytes) : bytes :=
  le_split 8 inner_msg_id ++ le_split 4 inner_sequence ++ le_split 4 (len inner_body) ++
  inner_body.

Definition container_message (size : Z) (records : bytes) : bytes :=
  le_split 4 0x73f1f8dc ++ le_split 4 size ++ records.

(** ** Relations between the sender before and after a call *)

(** [m] relates every state it is run in to the state it leaves, whether it
    returns or raises. *)
Definition keeps {A : Type} (R : MtProtoSender -> MtProtoSender -> Prop) (m : M A) : Prop :=
  forall s, R s (snd (m s)).

(** A relation every primitive effect of the frame codec and of the handlers
    respects. *)
Class Stable `{Clock} (R : MtProtoSender -> MtProtoSender -> Prop) : Prop := {
  stable_refl : forall s, R s s;
  stable_trans : forall s1 s2 s3, R s1 s2 -> R s2 s3 -> R s1 s3;
  stable_logger : forall lvl text, keeps R (logger lvl text);
  stable_transport_send : forall data, keeps R (transport_send data);
  stable_save : keeps R session_save;
  stable_set_msg_id : forall r v, keeps R (set_msg_id r v);
  stable_set_confirm_received : forall r v, keeps R (set_confirm_received r v);
  stable_on_response : forall r reader, keeps R (on_response r reader);
  stable_updates_append : forall u o, keeps R (updates_append u o);
  stable_new_object : forall r, keeps R (new_object r);
  stable_get_new_msg_id : keeps R get_new_msg_id;
  stable_update_time_offset : forall m, keeps R (update_time_offset m);
  stable_generate_sequence : forall c, keeps R (_generate_sequence c);
  stable_need_confirmation : forall f, keeps R (modify (with_need_confirmation f));
  stable_updates_thread_sleep : forall v, keeps R (modify (with_updates_thread_sleep v));
  stable_salt : forall v, keeps R (modify (with_session (with_salt v)))
}.

(** ... and the two effects with which send() starts. *)
Class StableEntry (R : MtProtoSender -> MtProtoSender -> Prop) : Prop := {
  stable_cancel_receive : keeps R transport_cancel_receive;
  stable_waiting_receive : keeps R (modify (with_waiting_receive true))
}.

(** What no send, dispatch or receive changes. *)
Record identity_kept (s s' : MtProtoSender) : Prop := {
  kept_id : id (session s') = id (session s);
  kept_auth_key : auth_key (session s') = auth_key (session s);
  kept_logging_out : logging_out s' = logging_out s;
  kept_updates_thread_receiving :
    _updates_thread_receiving s' = _updates_thread_receiving s
}.

(** What a send or a dispatch leaves alone and a receive consumes. *)
Definition inbound_kept (s s' : MtProtoSender) : Prop :=
  incoming (_transport s') = incoming (_transport s).

(** What only ever grows: the content counter, the wire, the saved copies,
    the cancellations; the inbound queue only loses envelopes at its head. *)
Record grows (s s' : MtProtoSender) : Prop := {
  grows_sequence : sequence (session s) <= sequence (session s');
  grows_sent : exists more, sent (_transport s') = sent (_transport s) ++ more;
  grows_saved : exists more, saved s' = saved s ++ more;
  grows_cancelled : (cancelled (_transport s) <= cancelled (_transport s'))%nat;
  grows_incoming :
    exists taken, incoming (_transport s) = taken ++ incoming (_transport s')
}.

(** The last msg_id handed out never goes back. *)
Definition ids_increase (s s' : MtProtoSender) : Prop :=
  last_msg_id (session s) <= last_msg_id (session s').

(** What only the first steps of send() and the last of receive() touch. *)
Definition entry_kept (s s' : MtProtoSender) : Prop :=
  cancelled (_transport s') = cancelled (_transport s) /\
  _waiting_receive s' = _waiting_receive s.

(** The flag that pauses the updates thread, once set, stays set. *)
Definition still_waiting (s s' : MtProtoSender) : Prop :=
  _waiting_receive s = true -> _waiting_receive s' = true.

(** The plaintext [_decode_msg] obtains from an envelope: the cipher text from
    byte 24 on, under the key derived from the msg_key at bytes 8 to 24. *)
Definition received_plain_text `{Crypto} (x : Session) (envelope : bytes) : bytes :=
  let msg_key := firstn 16 (skipn 8 envelope) in
  let key_iv := calc_key (key (auth_key x)) msg_key false in
  decrypt_ige (skipn 24 envelope) (fst key_iv) (snd key_iv).

(** ** States the dispatcher leaves behind *)

(** The msg_id of an inbound message is noted for acknowledgement. *)
Definition noted (in_msg_id : Z) (s : MtProtoSender) : MtProtoSender :=
  with_need_confirmation (fun l => l ++ [in_msg_id]) s.

(** One more entry in the log. *)
Definition logged (lvl : level) (text : string) (s : MtProtoSender) : MtProtoSender :=
  with_log (fun l => l ++ [(lvl, text)]) s.

(** After a message nobody handles. *)
Definition dropped (in_msg_id : Z) (s : MtProtoSender) : MtProtoSender :=
  logged STDOUT "Unknown message: {}" (noted in_msg_id s).

(** After an rpc_result that answers no request of this session. *)
Definition stale_skipped (in_msg_id : Z) (s : MtProtoSender) : MtProtoSender :=
  logged WARNING
    "RPC result found for unknown request (maybe from previous connection session)"
    (logged DEBUG "Reading request response"
       (logged DEBUG "Handling RPC result, request is%s None" (noted in_msg_id s))).

(** ** Containers of results nobody waits for *)

(** One record of a container, holding an rpc_result. *)
Record InnerResult := mkInnerResult {
  inner_msg_id : Z;
  inner_sequence : Z;
  answered_id : Z;
  inner_code : Z;
  inner_rest : bytes
}.

Definition result_record (x : InnerResult) : bytes :=
  inner_record (inner_msg_id x) (inner_sequence x)
    (rpc_result_message (answered_id x) (inner_code x) (inner_rest x)).

(** The record is well formed and is a plain result (neither an rpc_error nor
    gzip packed) that answers another msg_id than [own_msg_id]. *)
Definition stale (own_msg_id : Z) (x : InnerResult) : bool :=
  fits 8 false (inner_msg_id x) && fits 4 true (inner_sequence x) &&
  fits 4 true (len (rpc_result_message (answered_id x) (inner_code x) (inner_rest x))) &&
  fits 8 false (answered_id x) && fits 4 false (inner_code x) &&
  negb (answered_id x =? own_msg_id) &&
  negb (inner_code x =? 0x2144ca19) && negb (inner_code x =? 0x3072cfa1).

(** After every record of a container of such results. *)
Definition all_skipped (records : list InnerResult) (s : MtProtoSender) : MtProtoSender :=
  fold_left (fun s x => stale_skipped (inner_msg_id x) s) records s.

(** ** One turn of the receive loop *)

(** The state in which a turn dispatches the envelope it took, [pending]
    being the envelopes behind it. *)
Definition taken (pending : list bytes) (s : MtProtoSender) : MtProtoSender :=
  with_transport (fun t => mkTransport (sent t) pending (cancelled t))
    (logged INFO "Trying to .receive() the request result..." s).

(** The test that ends the loop. *)
Definition done_with (request updates : option ref) (s : MtProtoSender) : bool :=
  match request with
  | Some request => confirm_received (requests s request)
  | None =>
      match updates with
      | Some updates => negb (Nat.eqb (List.length (sinks s updates)) 0)
      | None => false
      end
  end.

(** What receive() does after its loop. *)
Definition received (s : MtProtoSender) : MtProtoSender :=
  logged DEBUG "receive() released the lock"
    (with_waiting_receive false (logged INFO "Request result received" s)).

(** ** Envelopes nobody handles *)

(** An inbound envelope, the msg_id and sequence it decodes to, and the code
    and the rest of its payload. *)
Record Inbound := mkInbound {
  inbound_bytes : bytes;
  inbound_msg_id : Z;
  inbound_sequence : Z;
  inbound_tag : Z;
  inbound_rest : bytes
}.

(** The envelope decodes under the session [x] and its code is unknown:
    neither parsed by hand nor in the catalog. *)
Definition unknown_to `{Crypto} `{Codec} (x : Session) (m : Inbound) : Prop :=
  decoded x (inbound_bytes m) =
    Ok (tagged (inbound_tag m) (inbound_rest m), inbound_msg_id m, inbound_sequence m) /\
  fits 4 false (inbound_tag m) = true /\
  ~ In (inbound_tag m) manual_tags /\
  tlobjects (inbound_tag m) = false.

(** ** More concrete collaborators and senders *)

(** [count] signed 64-bit integers in a row. *)
Fixpoint read_longs (count : nat) (reader : BinaryReader)
  : outcome (list Z * BinaryReader) :=
  match count with
  | O => Ok ([], reader)
  | S count' =>
      ('(v, reader) <- read_long true reader ;;
       '(vs, reader) <- read_longs count' reader ;;
       Ok (v :: vs, reader))%outcome
  end.

(** A codec with one object in its catalog, which reads a msgs_ack as
    [MsgsAck_on_send] of [plain_codec] writes it: the code, the code of a
    vector, the number of ids and the ids. *)
#[local] Instance catalog_codec : Codec := {
  gzip_decompress := fun data => Ok data;
  tgread_bytes := short_bytes;
  tgread_string := @tgread_string plain_codec;
  tgread_object := fun reader =>
    ('(c, reader) <- read_int false reader ;;
     if c =? 0x62d6b459 then
       '(_, reader) <- read_int false reader ;;
       '(count, reader) <- read_int true reader ;;
       '(ids, reader) <- read_longs (Z.to_nat count) reader ;;
       Ok (MsgsAckObject ids, reader)
     else Ok (UpdateObject c (remaining reader), reader))%outcome;
  tlobjects := fun c => c =? 0x74ae4240;
  MsgsAck_on_send := @MsgsAck_on_send plain_codec
}.

(** ping#7abe77ec ping_id:long *)
#[local] Instance ping_functions : Functions := {
  PingRequest_on_send := fun ping_id => le_split 4 0x7abe77ec ++ le_split 8 ping_id
}.

(** A sender with the envelopes [inbound] waiting on its transport, last
    msg_id 100, no acknowledgement pending and [r] at reference 0. *)
Definition sender1 (out receiving : bool) (inbound : list bytes) (r : Request)
  : MtProtoSender :=
  mkSender (mkTransport [] inbound 0%nat)
    (mkSession 5 7 3 (mkAuthKey [Byte.x2a] 9) 0 100)
    [] out false receiving None [] []
    (fun l => if Nat.eqb l 0 then r else request0) 1%nat (fun _ => []) [].

(** A message with a code nobody knows, and its envelope. *)
Definition unknown_inbound : Inbound :=
  mkInbound (inbound_envelope 201 2 (tagged 0x11223344 [Byte.x09])) 201 2 0x11223344
    [Byte.x09].

(** A plain result for the request 100. *)
Definition answer_envelope : bytes :=
  inbound_envelope 204 8 (rpc_result_message 100 0x997275b5 [Byte.x07]).

(** An object of the catalog of [catalog_codec]. *)
Definition update_envelope : bytes :=
  inbound_envelope 206 10 (tagged 0x74ae4240 [Byte.x03]).

(** Two results for requests of an earlier session. *)
Definition stale_results : list InnerResult :=
  [mkInnerResult 301 1 998 0x997275b5 [Byte.x01]; mkInnerResult 302 3 999 0x997275b5 []].


(** A gzip_packed message around a pong for 100 (no compression). *)
Definition packed_pong : bytes :=
  tagged 0x3072cfa1 (Byte.x14 :: pong_message 100 (le_split 8 1)).

(** * Properties *)

(** ** Bytes and readers *)

Lemma len_app {A : Type} (l1 l2 : list A) : len (l1 ++ l2) = len l1 + len l2.
Proof. unfold len. rewrite length_app. lia. Qed.

Lemma len_nonneg {A : Type} (l : list A) : 0 <= len l.
Proof. unfold len. lia. Qed.

Lemma len_le_split (n : nat) (v : Z) : len (le_split n v) = Z.of_nat n.
Proof. unfold len. now rewrite length_le_split. Qed.

Lemma pow2_half (n : nat) :
  (0 < n)%nat -> 2 ^ (8 * Z.of_nat n) = 2 * 2 ^ (8 * Z.of_nat n - 1).
Proof.
  intros Hn. rewrite <- Z.pow_succ_r by lia. f_equal. lia.
Qed.

(** Reading back what was written gives the value that was written. *)
Lemma from_bytes_le_split (n : nat) (signed : bool) (v : Z) :
  fits n signed v = true -> from_bytes (le_split n v) signed = v.
Proof.
  destruct n as [|n'].
  { unfold fits, from_bytes. change (le_split 0 v) with (@nil byte).
    destruct signed; cbn; intros Hfit; apply andb_prop in Hfit;
      destruct Hfit as [Hlo Hhi]; apply Z.leb_le in Hlo; apply Z.ltb_lt in Hhi; lia. }
  unfold fits, from_bytes.
  rewrite len_le_split, le_combine_split.
  replace (Z.of_nat (S n') * 8) with (8 * Z.of_nat (S n')) by lia.
  change (le_split (S n') v) with (byte.of_Z v :: le_split n' (Z.shiftr v 8)).
  cbv iota.
  destruct signed; cbn [andb]; intros Hfit.
  - apply andb_prop in Hfit. destruct Hfit as [Hlo Hhi].
    apply Z.leb_le in Hlo. apply Z.ltb_lt in Hhi.
    pose proof (pow2_half (S n') ltac:(lia)) as Hpow.
    set (half := 2 ^ (8 * Z.of_nat (S n') - 1)) in *.
    assert (0 < half) by (apply Z.pow_pos_nonneg; lia).
    rewrite Hpow.
    destruct (Z_lt_dec v 0) as [Hneg | Hpos].
    + replace (v mod (2 * half)) with (v + 2 * half).
      2:{ apply Z.mod_unique with (q := -1); lia. }
      destruct (half <=? v + 2 * half) eqn:E; [lia | apply Z.leb_gt in E; lia].
    + rewrite Z.mod_small by lia.
      destruct (half <=? v) eqn:E; [apply Z.leb_le in E; lia | reflexivity].
  - apply andb_prop in Hfit. destruct Hfit as [Hlo Hhi].
    apply Z.leb_le in Hlo. apply Z.ltb_lt in Hhi.
    apply Z.mod_small. lia.
Qed.

(** A read of exactly the bytes at the cursor succeeds and moves the cursor
    past them. *)
Lemma read_prefix (n : Z) (reader : BinaryReader) (xs rest : bytes) :
  0 <= position reader ->
  remaining reader = xs ++ rest ->
  len xs = n ->
  read n reader = Ok (xs, advance n reader) /\
  remaining (advance n reader) = rest /\
  0 <= position (advance n reader).
Proof.
  intros Hpos Hrem Hlen. unfold read.
  pose proof (len_nonneg xs) as Hn. rewrite Hlen in Hn.
  destruct (n <? 0) eqn:E; [apply Z.ltb_lt in E; lia | clear E].
  assert (Hnat : Z.to_nat n = List.length xs) by (unfold len in Hlen; lia).
  rewrite Hrem, Hnat, firstn_app, Nat.sub_diag, firstn_all. cbn [firstn].
  rewrite app_nil_r, Hlen, Z.eqb_refl.
  split; [reflexivity | split].
  - unfold remaining, advance in *. cbn [position stream].
    rewrite Z2Nat.inj_add by lia. rewrite Nat.add_comm, <- skipn_skipn, Hrem, Hnat.
    rewrite skipn_app, Nat.sub_diag, skipn_all. reflexivity.
  - cbn. lia.
Qed.

Lemma read_int_prefix (signed : bool) (v : Z) (reader : BinaryReader) (rest : bytes) :
  0 <= position reader ->
  remaining reader = le_split 4 v ++ rest ->
  fits 4 signed v = true ->
  read_int signed reader = Ok (v, advance 4 reader) /\
  remaining (advance 4 reader) = rest /\
  0 <= position (advance 4 reader).
Proof.
  intros Hpos Hrem Hfit.
  destruct (read_prefix 4 reader _ _ Hpos Hrem (len_le_split 4 v)) as (Hread & Hrest & Hpos').
  unfold read_int. rewrite Hread. cbn [obind].
  rewrite (from_bytes_le_split 4 signed v Hfit). auto.
Qed.

Lemma read_long_prefix (signed : bool) (v : Z) (reader : BinaryReader) (rest : bytes) :
  0 <= position reader ->
  remaining reader = le_split 8 v ++ rest ->
  fits 8 signed v = true ->
  read_long signed reader = Ok (v, advance 8 reader) /\
  remaining (advance 8 reader) = rest /\
  0 <= position (advance 8 reader).
Proof.
  intros Hpos Hrem Hfit.
  destruct (read_prefix 8 reader _ _ Hpos Hrem (len_le_split 8 v)) as (Hread & Hrest & Hpos').
  unfold read_long. rewrite Hread. cbn [obind].
  rewrite (from_bytes_le_split 8 signed v Hfit). auto.
Qed.

(** seek(-4) right after a 4-byte read puts the cursor back. *)
Lemma seek_back (reader : BinaryReader) :
  0 <= position reader ->
  seek (-4) (advance 4 reader) = Ok reader.
Proof.
  intros Hpos. unfold seek, set_position, advance. cbn [position stream].
  replace (position reader + 4 + -4) with (position reader) by lia.
  destruct (position reader <? 0) eqn:E; [apply Z.ltb_lt in E; lia |].
  destruct reader; reflexivity.
Qed.

(** ** The sequence rule *)

Lemma generate_sequence_content (s : MtProtoSender) :
  _generate_sequence true s =
  (Ok (2 * sequence (session s) + 1),
   with_session (with_sequence (sequence (session s) + 1)) s).
Proof.
  unfold _generate_sequence, bind, gets, modify, ret.
  apply f_equal2; [f_equal; lia | reflexivity].
Qed.

Lemma generate_sequence_service (s : MtProtoSender) :
  _generate_sequence false s = (Ok (2 * sequence (session s)), s).
Proof.
  unfold _generate_sequence, bind, gets, ret.
  apply f_equal2; [f_equal; lia | reflexivity].
Qed.

Lemma odd_series_cons (n : Z) (k : nat) :
  odd_series n (S k) = (2 * n + 1) :: odd_series (n + 1) k.
Proof.
  unfold odd_series. cbn [seq map]. f_equal.
  - lia.
  - rewrite <- seq_shift, map_map. apply map_ext. intros i. lia.
Qed.

Lemma generate_all_series (flags : list bool) :
  forall s : MtProtoSender,
  exists outs s',
    generate_all flags s = (Ok outs, s') /\
    Forall2 (fun confirmed n => Z.odd n = confirmed) flags outs /\
    filter Z.odd outs = odd_series (sequence (session s)) (count_occ bool_dec flags true) /\
    sequence (session s') =
      sequence (session s) + Z.of_nat (count_occ bool_dec flags true).
Proof.
  induction flags as [|confirmed flags IH]; intros s.
  - exists [], s. cbn. repeat split; [constructor | lia].
  - cbn [generate_all]. unfold bind at 1.
    destruct confirmed.
    + rewrite generate_sequence_content.
      destruct (IH (with_session (with_sequence (sequence (session s) + 1)) s))
        as (outs & s' & Hrun & Hpar & Hodd & Hseq).
      exists ((2 * sequence (session s) + 1) :: outs), s'.
      unfold bind, ret. rewrite Hrun. cbn [session with_session sequence with_sequence] in *.
      repeat split.
      * constructor; [| exact Hpar].
        rewrite Z.add_comm, Z.odd_add_mul_2. reflexivity.
      * cbn [filter count_occ]. rewrite Z.add_comm at 1. rewrite Z.odd_add_mul_2. cbn [Z.odd].
        destruct (bool_dec true true) as [_ | Hne]; [| congruence].
        rewrite odd_series_cons, Hodd. reflexivity.
      * cbn [count_occ]. destruct (bool_dec true true) as [_ | Hne]; [| congruence]. lia.
    + rewrite generate_sequence_service.
      destruct (IH s) as (outs & s' & Hrun & Hpar & Hodd & Hseq).
      exists ((2 * sequence (session s)) :: outs), s'.
      unfold bind, ret. rewrite Hrun.
      assert (Heven : Z.odd (2 * sequence (session s)) = false).
      { rewrite <- (Z.add_0_l (2 * _)), Z.odd_add_mul_2. reflexivity. }
      repeat split.
      * constructor; assumption.
      * cbn [filter count_occ]. rewrite Heven.
        destruct (bool_dec true false) as [Hne | _]; [congruence | exact Hodd].
      * cbn [count_occ]. destruct (bool_dec true false) as [Hne | _]; [congruence | exact Hseq].
Qed.

(** C2. Sequence rule: with session counter n, a content-related message gets
    sequence 2n+1 and n becomes n+1; any other message gets 2n and n is
    unchanged.  Hence, over any series of calls, content-related sends get odd
    numbers, the others even ones, and the odd numbers handed out are exactly
    2n+1, 2n+3, ... with no gap. *)
Theorem sequence_rule :
  (forall s : MtProtoSender,
     _generate_sequence true s =
     (Ok (2 * sequence (session s) + 1),
      with_session (with_sequence (sequence (session s) + 1)) s)) /\
  (forall s : MtProtoSender,
     _generate_sequence false s = (Ok (2 * sequence (session s)), s)) /\
  (forall (flags : list bool) (s : MtProtoSender),
     exists outs s',
       generate_all flags s = (Ok outs, s') /\
       Forall2 (fun confirmed n => Z.odd n = confirmed) flags outs /\
       filter Z.odd outs =
         odd_series (sequence (session s)) (count_occ bool_dec flags true)).
Proof.
  split; [exact generate_sequence_content | split; [exact generate_sequence_service |]].
  intros flags s.
  destruct (generate_all_series flags s) as (outs & s' & Hrun & Hpar & Hodd & _).
  exists outs, s'. auto.
Qed.

(** ** Running the monad *)

Ltac sender_cbn :=
  cbn [bind ret gets modify lift raise when obind fst snd
       _transport session _need_confirmation logging_out _waiting_receive
       _updates_thread_receiving _updates_thread_sleep saved log requests next_ref
       sinks confirm_writes
       with_transport with_session with_need_confirmation with_waiting_receive
       with_updates_thread_sleep with_saved with_log with_request with_next_ref
       with_sink with_confirm_writes
       salt id sequence auth_key time_offset last_msg_id
       with_salt with_sequence with_time_offset with_last_msg_id
       body confirmed msg_id confirm_received responses
       with_msg_id with_confirm_received with_response
       sent incoming cancelled key key_id
       write get_bytes app].

Ltac sender_run :=
  cbv beta iota zeta delta
    [bind ret gets modify lift raise when deref set_msg_id set_confirm_received
     on_response updates_append new_object session_save logger transport_send
     transport_cancel_receive];
  sender_cbn.

Lemma len_firstn {A : Type} (n : nat) (l : list A) :
  len (firstn n l) = Z.min (Z.of_nat n) (len l).
Proof. unfold len. rewrite length_firstn. lia. Qed.

Lemma len_skipn {A : Type} (n : nat) (l : list A) :
  len (skipn n l) = Z.max 0 (len l - Z.of_nat n).
Proof. unfold len. rewrite length_skipn. lia. Qed.

(** A read at cursor [p] succeeds exactly when [n] bytes are left. *)
Lemma read_at (data : bytes) (p n : Z) :
  0 <= p <= len data ->
  read n (mkReader data p) =
  if (0 <=? n) && (p + n <=? len data)
  then Ok (firstn (Z.to_nat n) (skipn (Z.to_nat p) data), mkReader data (p + n))
  else Raise BufferError.
Proof.
  intros Hp. unfold read, remaining, advance. cbn [position stream].
  destruct (n <? 0) eqn:En.
  - apply Z.ltb_lt in En. destruct (0 <=? n) eqn:E0; [apply Z.leb_le in E0; lia | reflexivity].
  - apply Z.ltb_ge in En. destruct (0 <=? n) eqn:E0; [| apply Z.leb_gt in E0; lia].
    cbn [andb]. rewrite len_firstn, len_skipn.
    destruct (p + n <=? len data) eqn:E1.
    + apply Z.leb_le in E1.
      destruct (Z.min _ _ =? n) eqn:E2; [reflexivity | apply Z.eqb_neq in E2; lia].
    + apply Z.leb_gt in E1.
      destruct (Z.min _ _ =? n) eqn:E2; [apply Z.eqb_eq in E2; lia | reflexivity].
Qed.

(** ** The frame codec *)

Section FrameCodec.
Context `{Crypto} `{Clock}.

Lemma send_packet_ok (packet : bytes) (request : ref) (s : MtProtoSender) :
  sendable packet request s = true ->
  _send_packet packet request s = (Ok tt, packet_sent packet request s).
Proof.
  unfold sendable. intros Hs.
  do 5 (apply andb_prop in Hs; destruct Hs as [Hs ?]).
  unfold _send_packet, get_new_msg_id, set_msg_id, deref, transport_send,
    write_long, write_int, to_bytes.
  sender_cbn. rewrite Nat.eqb_refl. sender_cbn.
  rewrite Hs. sender_cbn. rewrite H5. sender_cbn. rewrite H4. sender_cbn.
  unfold packet_sent, envelope_of, plain_text_of.
  destruct (confirmed (requests s request)); unfold sequence_of in *;
    unfold _generate_sequence; sender_cbn; rewrite H3; sender_cbn; rewrite H2; sender_cbn;
    rewrite H1; sender_cbn; rewrite <- !app_assoc; reflexivity.
Qed.

Lemma send_packet_overflow (packet : bytes) (request : ref) (s : MtProtoSender) :
  sendable packet request s = false ->
  fst (_send_packet packet request s) = Raise OverflowError.
Proof.
  unfold sendable. intros Hs.
  unfold _send_packet, get_new_msg_id, set_msg_id, deref, transport_send,
    write_long, write_int, to_bytes.
  sender_cbn. rewrite Nat.eqb_refl. sender_cbn.
  destruct (fits 8 false (salt (session s))); [sender_cbn | reflexivity].
  destruct (fits 8 false (id (session s))); [sender_cbn | reflexivity].
  destruct (fits 8 true (fresh_msg_id (session s))); [sender_cbn | reflexivity].
  unfold sequence_of in Hs.
  destruct (confirmed (requests s request)); unfold _generate_sequence; sender_cbn.
  all: match goal with |- context [fits 4 true ?q] => destruct (fits 4 true q) end;
    [sender_cbn | reflexivity].
  all: destruct (fits 4 true (len packet)); [sender_cbn | reflexivity].
  all: destruct (fits 8 false (key_id (auth_key (session s)))); [discriminate | reflexivity].
Qed.

(** A [_send_packet] that returns leaves exactly [packet_sent]. *)
Lemma send_packet_inv (packet : bytes) (request : ref) (s s' : MtProtoSender) :
  _send_packet packet request s = (Ok tt, s') ->
  sendable packet request s = true /\ s' = packet_sent packet request s.
Proof.
  intros Hrun. destruct (sendable packet request s) eqn:Hs.
  - rewrite (send_packet_ok _ _ _ Hs) in Hrun. split; congruence.
  - apply send_packet_overflow in Hs. rewrite Hrun in Hs. discriminate.
Qed.

Ltac read_step :=
  rewrite read_at by lia;
  match goal with
  | |- context [(0 <=? ?n) && (?p <=? ?l)] =>
      let E := fresh "E" in
      destruct ((0 <=? n) && (p <=? l)) eqn:E;
      [apply andb_prop in E; destruct E as [_ E]; apply Z.leb_le in E
      |apply andb_false_iff in E; destruct E as [E | E];
        [apply Z.leb_gt in E; try lia | apply Z.leb_gt in E]]
  end; sender_cbn.

(** [_decode_msg] computes [decoded] and leaves the sender as it was. *)
Lemma decode_msg_decoded (envelope : bytes) (s : MtProtoSender) :
  _decode_msg envelope s = (decoded (session s) envelope, s).
Proof.
  unfold _decode_msg, decoded, BinaryReader_of, read_long, read_int, tell_position.
  pose proof (len_nonneg envelope) as Hlen.
  destruct (len envelope <? 8) eqn:E8.
  { apply Z.ltb_lt in E8. destruct (len envelope <? 24) eqn:E24;
      [reflexivity | apply Z.ltb_ge in E24; lia]. }
  apply Z.ltb_ge in E8. sender_cbn.
  read_step.
  2:{ lia. }
  read_step.
  2:{ destruct (len envelope <? 24) eqn:E24; [reflexivity | apply Z.ltb_ge in E24; lia]. }
  destruct (len envelope <? 24) eqn:E24; [apply Z.ltb_lt in E24; lia | clear E24].
  cbn [position].
  read_step.
  2:{ lia. }
  replace (Z.to_nat (0 + 8)) with 8%nat by lia.
  replace (Z.to_nat (0 + 8 + 16)) with 24%nat by lia.
  replace (Z.to_nat 16) with 16%nat by lia.
  rewrite firstn_all2.
  2:{ rewrite length_skipn. unfold len in *. lia. }
  set (plain_text := decrypt_ige _ _ _).
  pose proof (len_nonneg plain_text) as Hpt.
  assert (Hshort : len plain_text < 32 -> (len plain_text <? 32) = true)
    by (intros; apply Z.ltb_lt; assumption).
  do 5 (read_step; [| rewrite Hshort by lia; reflexivity]).
  destruct (len plain_text <? 32) eqn:E32; [apply Z.ltb_lt in E32; lia | clear E32 Hshort].
  replace (Z.to_nat (0 + 8 + 8)) with 16%nat by lia.
  replace (Z.to_nat (0 + 8 + 8 + 8)) with 24%nat by lia.
  replace (Z.to_nat (0 + 8 + 8 + 8 + 4)) with 28%nat by lia.
  replace (Z.to_nat 8) with 8%nat by lia.
  replace (Z.to_nat 4) with 4%nat by lia.
  set (msg_len := from_bytes (firstn 4 (skipn 28 plain_text)) true).
  rewrite read_at by lia. sender_cbn.
  replace (Z.to_nat (0 + 8 + 8 + 8 + 4 + 4)) with 32%nat by lia.
  destruct (msg_len <? 0) eqn:Eneg.
  { apply Z.ltb_lt in Eneg.
    destruct (0 <=? msg_len) eqn:Ez; [apply Z.leb_le in Ez; lia | reflexivity]. }
  apply Z.ltb_ge in Eneg.
  destruct (0 <=? msg_len) eqn:Ez; [| apply Z.leb_gt in Ez; lia].
  cbn [andb orb].
  destruct (len plain_text - 32 <? msg_len) eqn:Ebig.
  - apply Z.ltb_lt in Ebig.
    destruct (0 + 8 + 8 + 8 + 4 + 4 + msg_len <=? len plain_text) eqn:Efit;
      [apply Z.leb_le in Efit; lia | reflexivity].
  - apply Z.ltb_ge in Ebig.
    destruct (0 + 8 + 8 + 8 + 4 + 4 + msg_len <=? len plain_text) eqn:Efit;
      [reflexivity | apply Z.leb_gt in Efit; lia].
Qed.

End FrameCodec.

Lemma slice_at (pre x post : bytes) (n k : nat) :
  List.length pre = n -> List.length x = k ->
  firstn k (skipn n (pre ++ x ++ post)) = x.
Proof.
  intros <- <-.
  rewrite skipn_app, Nat.sub_diag, skipn_all. cbn [skipn app].
  rewrite firstn_app, Nat.sub_diag, firstn_all. cbn [firstn]. apply app_nil_r.
Qed.

Lemma skipn_exact (pre post : bytes) (n : nat) :
  List.length pre = n -> skipn n (pre ++ post) = post.
Proof.
  intros <-. rewrite skipn_app, Nat.sub_diag, skipn_all. reflexivity.
Qed.

Section RoundTrip.
Context `{Crypto} `{Clock}.

(** Decoding an envelope laid out by [envelope_of] gives the packet back,
    when the inbound key undoes the outbound one. *)
Lemma decoded_envelope (x : Session) (m q : Z) (packet padding : bytes) :
  let plain_text := plain_text_of x m q packet in
  let msg_key := calc_msg_key plain_text in
  let k := key (auth_key x) in
  len msg_key = 16 ->
  decrypt_ige
    (encrypt_ige plain_text (fst (calc_key k msg_key true)) (snd (calc_key k msg_key true)))
    (fst (calc_key k msg_key false)) (snd (calc_key k msg_key false)) =
  plain_text ++ padding ->
  fits 8 true m = true -> fits 4 true q = true -> fits 4 true (len packet) = true ->
  decoded x (envelope_of x m q packet) = Ok (packet, m, q).
Proof.
  intros plain_text msg_key k Hkey Hinv Hm Hq Hlen.
  unfold decoded, envelope_of. fold plain_text. fold msg_key. fold k.
  set (cipher := encrypt_ige _ _ _) in *.
  assert (Hk16 : List.length msg_key = 16%nat) by (unfold len in Hkey; lia).
  rewrite !len_app, len_le_split, Hkey.
  pose proof (len_nonneg cipher) as Hc.
  destruct (_ <? 24) eqn:E24; [apply Z.ltb_lt in E24; lia | clear E24].
  rewrite (slice_at (le_split 8 _) msg_key cipher 8 16) by (rewrite ?length_le_split; auto).
  rewrite app_assoc, (skipn_exact _ cipher 24) by (rewrite length_app, length_le_split; lia).
  rewrite Hinv.
  assert (Hpt : plain_text ++ padding =
    (le_split 8 (salt x) ++ le_split 8 (id x)) ++ le_split 8 m ++
    (le_split 4 q ++ le_split 4 (len packet) ++ packet ++ padding)).
  { unfold plain_text, plain_text_of. rewrite <- !app_assoc. reflexivity. }
  assert (Hm' : firstn 8 (skipn 16 (plain_text ++ padding)) = le_split 8 m).
  { rewrite Hpt. apply slice_at; rewrite ?length_app, ?length_le_split; reflexivity. }
  assert (Hq' : firstn 4 (skipn 24 (plain_text ++ padding)) = le_split 4 q).
  { unfold plain_text, plain_text_of.
    replace (_ ++ padding) with
      ((le_split 8 (salt x) ++ le_split 8 (id x) ++ le_split 8 m) ++ le_split 4 q ++
       (le_split 4 (len packet) ++ packet ++ padding))
      by (rewrite <- !app_assoc; reflexivity).
    apply slice_at; rewrite ?length_app, ?length_le_split; reflexivity. }
  assert (Hl' : firstn 4 (skipn 28 (plain_text ++ padding)) = le_split 4 (len packet)).
  { unfold plain_text, plain_text_of.
    replace (_ ++ padding) with
      ((le_split 8 (salt x) ++ le_split 8 (id x) ++ le_split 8 m ++ le_split 4 q) ++
       le_split 4 (len packet) ++ (packet ++ padding))
      by (rewrite <- !app_assoc; reflexivity).
    apply slice_at; rewrite ?length_app, ?length_le_split; reflexivity. }
  assert (Hp' : firstn (Z.to_nat (len packet)) (skipn 32 (plain_text ++ padding)) = packet).
  { unfold plain_text, plain_text_of.
    replace (_ ++ padding) with
      ((le_split 8 (salt x) ++ le_split 8 (id x) ++ le_split 8 m ++ le_split 4 q ++
        le_split 4 (len packet)) ++ packet ++ padding)
      by (rewrite <- !app_assoc; reflexivity).
    apply slice_at; [rewrite ?length_app, ?length_le_split; reflexivity | unfold len; lia]. }
  rewrite Hm', Hq', Hl', !from_bytes_le_split by assumption. rewrite Hp'.
  assert (Hsize : len (plain_text ++ padding) = 32 + len packet + len padding).
  { unfold plain_text, plain_text_of. rewrite !len_app, !len_le_split. lia. }
  rewrite Hsize.
  pose proof (len_nonneg packet). pose proof (len_nonneg padding).
  destruct (_ <? 32) eqn:E32; [apply Z.ltb_lt in E32; lia | clear E32].
  destruct (len packet <? 0) eqn:E0; [apply Z.ltb_lt in E0; lia | clear E0].
  destruct (_ <? len packet) eqn:E1; [apply Z.ltb_lt in E1; lia | reflexivity].
Qed.

(** C1 (as amended). Frame codec round trip: whenever [_send_packet] sends
    payload p, the msg key has 16 bytes and decrypting with the keys derived
    for the inbound direction (client flag False) gives back the plaintext
    sealed with the keys derived for the outbound direction (client flag
    True), followed by any padding, [_decode_msg] of the envelope yields
    exactly (p, the msg_id minted for p, the sequence number minted for p). *)
Theorem frame_round_trip (packet : bytes) (request : ref) (s s' : MtProtoSender)
    (padding : bytes) :
  let m := fresh_msg_id (session s) in
  let q := sequence_of (session s) (confirmed (requests s request)) in
  let plain_text := plain_text_of (session s) m q packet in
  let msg_key := calc_msg_key plain_text in
  let k := key (auth_key (session s)) in
  _send_packet packet request s = (Ok tt, s') ->
  len msg_key = 16 ->
  decrypt_ige
    (encrypt_ige plain_text (fst (calc_key k msg_key true)) (snd (calc_key k msg_key true)))
    (fst (calc_key k msg_key false)) (snd (calc_key k msg_key false)) =
  plain_text ++ padding ->
  msg_id (requests s' request) = m /\
  exists envelope,
    sent (_transport s') = sent (_transport s) ++ [envelope] /\
    _decode_msg envelope s' = (Ok (packet, m, q), s').
Proof.
  intros m q plain_text msg_key k Hrun Hkey Hinv.
  apply send_packet_inv in Hrun. destruct Hrun as [Hs ->].
  unfold sendable in Hs.
  do 5 (apply andb_prop in Hs; destruct Hs as [Hs ?]).
  split.
  - unfold packet_sent. sender_cbn. rewrite Nat.eqb_refl. reflexivity.
  - exists (envelope_of (session s) m q packet). split.
    + unfold packet_sent. sender_cbn. reflexivity.
    + rewrite decode_msg_decoded. f_equal.
      pose proof (decoded_envelope (session s) m q packet padding Hkey Hinv) as Hdec.
      unfold packet_sent. sender_cbn.
      unfold decoded, envelope_of in *. sender_cbn. apply Hdec; assumption.
Qed.
End RoundTrip.

(** The round trip at work: a two-byte payload under the cipher that ignores
    the direction; the 34-byte plaintext is padded with 14 zero bytes. *)
Lemma frame_round_trip_witness :
  let s := sender0 5 3 100 [] request0 in
  let packet := [Byte.x01; Byte.x02] in
  let s' := snd (@_send_packet loopback_crypto stepping_clock packet 0%nat s) in
  msg_id (requests s' 0%nat) = 104 /\
  exists envelope,
    sent (_transport s') = sent (_transport s) ++ [envelope] /\
    @_decode_msg loopback_crypto envelope s' = (Ok (packet, 104, 7), s').
Proof.
  intros s packet s'.
  apply (@frame_round_trip loopback_crypto stepping_clock packet 0%nat s s'
           (repeat Byte.x00 14)).
  - vm_compute. reflexivity.
  - vm_compute. reflexivity.
  - vm_compute. reflexivity.
Defined.

(** C1 (as stated) fails: with a cipher whose keys depend on the direction
    flag, the sender cannot decode the envelope it has just sent.  The
    plaintext comes back xor-ed with 0xff, its length field is negative, and
    [_decode_msg] raises instead of returning (p, 104, 7). *)
Lemma frame_round_trip_counterexample :
  let s := sender0 5 3 100 [] request0 in
  let packet := [Byte.x01; Byte.x02] in
  let run := @_send_packet directional_crypto stepping_clock packet 0%nat s in
  let s' := snd run in
  fst run = Ok tt /\
  msg_id (requests s' 0%nat) = 104 /\
  sequence_of (session s) (confirmed (requests s 0%nat)) = 7 /\
  fst (@_decode_msg directional_crypto (last (sent (_transport s')) []) s') =
    Raise BufferError /\
  fst (@_decode_msg directional_crypto (last (sent (_transport s')) []) s') <>
    Ok (packet, 104, 7).
Proof.
  vm_compute. repeat split; discriminate.
Qed.

(** C5 (as amended). Malformed-frame rejection: decoding fails with a
    BufferError whenever the envelope is shorter than 24 bytes, or the
    decrypted plaintext is shorter than its 32-byte header, or msg_len is
    negative or exceeds the bytes that follow the header; otherwise it succeeds
    and returns (body, remote_msg_id, remote_sequence).  The sender is left as
    it was in both cases. *)
Theorem decode_rejects_malformed `{Crypto} (envelope : bytes) (s : MtProtoSender) :
  let k := key (auth_key (session s)) in
  let msg_key := firstn 16 (skipn 8 envelope) in
  let plain_text :=
    decrypt_ige (skipn 24 envelope)
      (fst (calc_key k msg_key false)) (snd (calc_key k msg_key false)) in
  let msg_len := from_bytes (firstn 4 (skipn 28 plain_text)) true in
  (len envelope < 24 \/ len plain_text < 32 \/ msg_len < 0 \/
   len plain_text - 32 < msg_len ->
   _decode_msg envelope s = (Raise BufferError, s)) /\
  (24 <= len envelope -> 32 <= len plain_text -> 0 <= msg_len <= len plain_text - 32 ->
   _decode_msg envelope s =
   (Ok (firstn (Z.to_nat msg_len) (skipn 32 plain_text),
        from_bytes (firstn 8 (skipn 16 plain_text)) true,
        from_bytes (firstn 4 (skipn 24 plain_text)) true), s)).
Proof.
  intros k msg_key plain_text msg_len.
  rewrite decode_msg_decoded. unfold decoded.
  fold k. fold msg_key. fold plain_text. fold msg_len.
  destruct (len envelope <? 24) eqn:E24;
    [apply Z.ltb_lt in E24 | apply Z.ltb_ge in E24].
  { split; [reflexivity | lia]. }
  destruct (len plain_text <? 32) eqn:E32;
    [apply Z.ltb_lt in E32 | apply Z.ltb_ge in E32].
  { split; [reflexivity | lia]. }
  destruct (msg_len <? 0) eqn:Eneg;
    [apply Z.ltb_lt in Eneg | apply Z.ltb_ge in Eneg].
  { split; [reflexivity | lia]. }
  destruct (len plain_text - 32 <? msg_len) eqn:Ebig;
    [apply Z.ltb_lt in Ebig | apply Z.ltb_ge in Ebig]; cbn [orb].
  { split; [reflexivity | lia]. }
  split; [lia | reflexivity].
Qed.

(** A well-formed envelope decodes; a 10-byte envelope does not. *)
Lemma decode_rejects_malformed_witness :
  let s := sender0 5 3 100 [] request0 in
  @_decode_msg loopback_crypto (repeat Byte.x00 10) s = (Raise BufferError, s) /\
  @_decode_msg loopback_crypto good_envelope s = (Ok ([Byte.x01; Byte.x02], 104, 7), s).
Proof.
  intros s. split.
  - apply (proj1 (@decode_rejects_malformed loopback_crypto (repeat Byte.x00 10) s)).
    left. vm_compute. reflexivity.
  - apply (proj2 (@decode_rejects_malformed loopback_crypto good_envelope s)).
    + vm_compute. discriminate.
    + vm_compute. discriminate.
    + vm_compute. split; discriminate.
Defined.

(** C5 (as stated) fails in its "otherwise decoding succeeds" half.  Neither
    envelope below is shorter than 24 bytes.  The first carries a msg_len of
    -1, which does not exceed the 0 bytes that remain; the second a plaintext
    of one 16-byte block, too short to hold a msg_len at all.  Both are
    rejected. *)
Lemma decode_counterexample :
  let s := sender0 5 3 100 [] request0 in
  let negative := repeat Byte.x00 24 ++ repeat Byte.x00 28 ++ repeat Byte.xff 4 in
  let short := repeat Byte.x00 24 ++ repeat Byte.x00 16 in
  (24 <= len negative /\
   from_bytes (firstn 4 (skipn 28 (skipn 24 negative))) true = -1 /\
   ~ (len (skipn 32 (skipn 24 negative)) < -1) /\
   fst (@_decode_msg loopback_crypto negative s) = Raise BufferError) /\
  (24 <= len short /\
   fst (@_decode_msg loopback_crypto short s) = Raise BufferError).
Proof.
  vm_compute. repeat split; discriminate.
Qed.

(** ** send() *)

Section Send.
Context `{Crypto} `{Clock} `{Codec}.

Lemma send_prologue (request : ref) (s : MtProtoSender) :
  send request s =
  (pending <- gets _need_confirmation ;;
   match pending with
   | [] => ret tt
   | _ :: _ =>
      msgs_ack <- new_object (MsgsAck pending) ;;
      a <- deref msgs_ack ;;
      _send_packet (body a) msgs_ack ;;
      modify (with_need_confirmation (fun _ => []))
   end ;;
   r <- deref request ;;
   _send_packet (body r) request ;;
   session_save ;;
   logger DEBUG "send() released the lock") (entered s).
Proof.
  unfold send, entered, logger, transport_cancel_receive.
  unfold bind at 1. unfold gets at 1.
  destruct (_updates_thread_receiving s); unfold when;
    do 3 (unfold bind at 1; unfold modify at 1); reflexivity.
Qed.

(** A send() that returns leaves exactly [request_sent]. *)
Lemma send_inv (request : ref) (s s' : MtProtoSender) :
  send request s = (Ok tt, s') -> s' = request_sent request s.
Proof.
  rewrite send_prologue. unfold request_sent, acknowledged.
  generalize (entered s). clear s. intros s. sender_run.
  destruct (_need_confirmation s) as [|ack acks] eqn:Epending.
  - destruct (_send_packet (body (requests s request)) request s) as [[[] | e] s2] eqn:Esend;
      intros Hrun; [| discriminate].
    apply send_packet_inv in Esend. destruct Esend as [_ ->].
    inversion Hrun. reflexivity.
  - rewrite Nat.eqb_refl.
    match goal with
    | |- context [_send_packet ?p ?r ?st] =>
        destruct (_send_packet p r st) as [[[] | e] s1] eqn:Eack
    end; [| discriminate].
    apply send_packet_inv in Eack. destruct Eack as [_ ->].
    match goal with
    | |- context [_send_packet ?p ?r ?st] =>
        destruct (_send_packet p r st) as [[[] | e] s2] eqn:Esend
    end; intros Hrun; [| discriminate].
    apply send_packet_inv in Esend. destruct Esend as [_ ->].
    inversion Hrun. reflexivity.
Qed.

(** send() returns whenever the fields of the frames it builds fit their
    widths. *)
Lemma send_returns (request : ref) (s : MtProtoSender) :
  let e := entered s in
  let allocated :=
    with_next_ref (S (next_ref e))
      (with_request (next_ref e) (fun _ => MsgsAck (_need_confirmation e)) e) in
  (_need_confirmation e = [] \/
   sendable (MsgsAck_on_send (_need_confirmation e)) (next_ref e) allocated = true) ->
  sendable (body (requests (acknowledged e) request)) request (acknowledged e) = true ->
  send request s = (Ok tt, request_sent request s).
Proof.
  intros e allocated Hack Hreq.
  rewrite send_prologue. unfold request_sent. fold e.
  unfold acknowledged in *. revert allocated Hack Hreq.
  generalize e. clear e s. intros s allocated Hack Hreq. sender_run.
  destruct (_need_confirmation s) as [|ack acks] eqn:Epending.
  - rewrite (send_packet_ok _ _ _ Hreq). reflexivity.
  - destruct Hack as [Hack | Hack]; [discriminate |].
    rewrite Nat.eqb_refl. unfold allocated in Hack.
    unfold MsgsAck at 1. sender_cbn.
    rewrite (send_packet_ok _ _ _ Hack). sender_cbn.
    rewrite (send_packet_ok _ _ _ Hreq). reflexivity.
Qed.

Lemma live_not_fresh (request : ref) (s : MtProtoSender) :
  (request < next_ref s)%nat -> Nat.eqb request (next_ref s) = false.
Proof. intros Hlive. apply Nat.eqb_neq. lia. Qed.

(** What a send() that returns has done to the wire, the buffer, the session
    and the request. *)
Lemma send_effects (request : ref) (s s' : MtProtoSender) :
  (request < next_ref s)%nat ->
  send request s = (Ok tt, s') ->
  _need_confirmation s' = [] /\
  sent (_transport s') = sent (_transport s) ++ transmitted request s /\
  msg_id (requests s' request) = request_msg_id s /\
  salt (session s') = salt (session s) /\
  last_msg_id (session s') = request_msg_id s.
Proof.
  intros Hlive Hrun. apply send_inv in Hrun. subst s'.
  pose proof (live_not_fresh request s Hlive) as Hneq.
  unfold request_sent, acknowledged, transmitted, request_msg_id.
  assert (Hentered :
    _need_confirmation (entered s) = _need_confirmation s /\
    session (entered s) = session s /\
    requests (entered s) = requests s /\
    next_ref (entered s) = next_ref s /\
    sent (_transport (entered s)) = sent (_transport s)).
  { unfold entered. destruct (_updates_thread_receiving s); repeat split. }
  destruct Hentered as (Hn & Hx & Hr & Hf & Hw).
  revert Hn Hx Hr Hf Hw. generalize (entered s). intros e Hn Hx Hr Hf Hw.
  rewrite Hn. destruct (_need_confirmation s) as [|ack acks].
  - unfold packet_sent. sender_cbn. rewrite Nat.eqb_refl, Hx, Hr, Hw, Hn.
    repeat split; reflexivity.
  - unfold packet_sent, MsgsAck. sender_cbn.
    rewrite ?Nat.eqb_refl, ?Hf, ?Hneq, ?Hx, ?Hr, ?Hw. sender_cbn.
    unfold sequence_of at 1. rewrite (Z.mul_comm (sequence (session s)) 2).
    rewrite <- app_assoc.
    repeat split; reflexivity.
Qed.

(** C3. Ack drain and ordering: when send(request) returns, the pending-acks
    buffer is empty; and if the buffer held ids at the start, the transport
    has been handed first the envelope of a msgs_ack message serialising
    exactly those ids, with the even sequence number 2n of a message that is
    not content related, then the envelope of the request, whose sequence
    number is still computed from the same n. *)
Theorem send_drains_acks (request : ref) (s s' : MtProtoSender) :
  (request < next_ref s)%nat ->
  send request s = (Ok tt, s') ->
  _need_confirmation s' = [] /\
  let x := session s in
  let r := requests s request in
  match _need_confirmation s with
  | [] =>
      sent (_transport s') =
      sent (_transport s) ++
      [envelope_of x (fresh_msg_id x) (sequence_of x (confirmed r)) (body r)]
  | ids =>
      let m1 := fresh_msg_id x in
      let m2 := fresh_msg_id (with_last_msg_id m1 x) in
      sent (_transport s') =
      sent (_transport s) ++
      [envelope_of x m1 (2 * sequence x) (MsgsAck_on_send ids);
       envelope_of x m2 (sequence_of x (confirmed r)) (body r)]
  end.
Proof.
  intros Hlive Hrun.
  destruct (send_effects request s s' Hlive Hrun) as (Hempty & Hwire & _).
  split; [exact Hempty |].
  unfold transmitted in Hwire. cbv zeta.
  destruct (_need_confirmation s); exact Hwire.
Qed.
End Send.

(** A send with two ids pending, under the concrete collaborators. *)
Lemma send_drains_acks_witness :
  let s := sender0 5 3 100 [11; 12] request0 in
  let s' := snd (@send loopback_crypto stepping_clock plain_codec 0%nat s) in
  _need_confirmation s' = [] /\
  sent (_transport s') =
    [@envelope_of loopback_crypto (session s) 104 6 (@MsgsAck_on_send plain_codec [11; 12]);
     @envelope_of loopback_crypto (session s) 108 7 []].
Proof.
  intros s s'.
  apply (@send_drains_acks loopback_crypto stepping_clock plain_codec 0%nat s s').
  - vm_compute. lia.
  - vm_compute. reflexivity.
Defined.

(** ** The handlers *)

Lemma substring_all (text : string) : substring 0 (String.length text) text = text.
Proof. induction text as [|c text IH]; cbn; [reflexivity | now rewrite IH]. Qed.

Lemma prefix_nil (text : string) : String.prefix "" text = true.
Proof. destruct text; reflexivity. Qed.

Lemma flood_wait_prefix (digits : string) :
  String.prefix "FLOOD_WAIT_" ("FLOOD_WAIT_" ++ digits) = true.
Proof. cbn. apply prefix_nil. Qed.

Lemma integer_suffix_flood_wait (digits : string) :
  integer_suffix ("FLOOD_WAIT_" ++ digits) = parse_int digits.
Proof.
  unfold integer_suffix. rewrite flood_wait_prefix.
  cbn [String.append String.length Nat.sub substring].
  rewrite Nat.sub_0_r, substring_all. reflexivity.
Qed.

Section Handlers.
Context `{Crypto} `{Clock} `{Codec} `{Taxonomy}.

(** An exception raised while the first envelope is dispatched leaves
    receive() as it is. *)
Lemma receive_raises (depth : nat) (request updates : option ref) (s : MtProtoSender)
    (envelope : bytes) (pending : list bytes) (payload : bytes)
    (remote_msg_id remote_sequence : Z) (e : exn) (s' : MtProtoSender) :
  request <> None \/ updates <> None ->
  incoming (_transport s) = envelope :: pending ->
  decoded (session s) envelope = Ok (payload, remote_msg_id, remote_sequence) ->
  _process_msg depth remote_msg_id remote_sequence (BinaryReader_of payload)
    request updates (receiving pending s) = (Raise e, s') ->
  receive depth request updates s = (Raise e, s').
Proof.
  intros Hsome Hin Hdec Hproc.
  assert (Hloop :
    (receive_loop (S (List.length (incoming (_transport s)))) depth request updates)
      (with_log (fun l => l ++ [(DEBUG, "receive() acquired the lock"%string)]) s) =
    (Raise e, s')).
  { rewrite Hin. cbn [List.length receive_loop].
    unfold bind at 1. unfold logger at 1, modify at 1.
    unfold bind at 1. unfold transport_receive at 1. sender_cbn. rewrite Hin.
    unfold bind at 1. rewrite decode_msg_decoded. sender_cbn. rewrite Hdec.
    unfold bind at 1. unfold receiving in Hproc. rewrite Hproc. reflexivity. }
  unfold receive.
  destruct request as [request |]; [| destruct updates as [updates |]].
  - unfold bind at 1, logger at 1, modify at 1. unfold bind at 1, gets at 1.
    sender_cbn. unfold bind at 1. rewrite Hloop. reflexivity.
  - unfold bind at 1, logger at 1, modify at 1. unfold bind at 1, gets at 1.
    sender_cbn. unfold bind at 1. rewrite Hloop. reflexivity.
  - destruct Hsome; congruence.
Qed.

(** The dispatcher notes the msg_id for acknowledgement and hands an
    rpc_result to its handler. *)
Lemma process_rpc_result (depth : nat) (in_msg_id in_sequence : Z) (reader : BinaryReader)
    (request updates : option ref) (s : MtProtoSender)
    (request_id inner_code : Z) (rest : bytes) :
  0 <= position reader ->
  remaining reader = rpc_result_message request_id inner_code rest ->
  fits 8 false request_id = true ->
  fits 4 false inner_code = true ->
  _process_msg (S depth) in_msg_id in_sequence reader request updates s =
  _handle_rpc_result in_msg_id in_sequence reader request
    (with_need_confirmation (fun l => l ++ [in_msg_id]) s).
Proof.
  intros Hpos Hrem _ _. unfold rpc_result_message in Hrem.
  destruct (read_int_prefix false _ reader _ Hpos Hrem eq_refl) as (R1 & _ & _).
  cbn [_process_msg]. unfold bind at 1. unfold modify at 1. unfold bind at 1.
  unfold lift at 1. rewrite R1. unfold bind at 1. unfold lift at 1.
  rewrite (seek_back reader Hpos).
  change (0xf35c6d01 =? 0xf35c6d01) with true. reflexivity.
Qed.

(** C4. Bad-salt re-drive: on a bad_server_salt message the handler
    overwrites session.salt with the new salt read from the message.  With no
    live request it then raises.  With a live request it re-invokes
    send(request) and, when that send returns, returns True; the request's next
    outbound envelope is then sealed over a plaintext that carries the new
    salt, and carries a freshly minted msg_id, which differs from the original
    one as soon as the clock hands out increasing ids and the original was
    minted by this session. *)
Theorem bad_server_salt_redrive (in_msg_id in_sequence : Z) (reader : BinaryReader)
    (bad_msg_id bad_seq error_code new_salt : Z) (rest : bytes) (s : MtProtoSender) :
  0 <= position reader ->
  remaining reader =
    bad_server_salt_message bad_msg_id bad_seq error_code new_salt rest ->
  fits 8 false bad_msg_id = true ->
  fits 4 true bad_seq = true ->
  fits 4 true error_code = true ->
  fits 8 false new_salt = true ->
  let salted :=
    with_session (with_salt new_salt)
      (with_log (fun l => l ++ [(DEBUG, "Handling bad server salt"%string)]) s) in
  let after := advance 8 (advance 4 (advance 4 (advance 8 (advance 4 reader)))) in
  _handle_bad_server_salt in_msg_id in_sequence reader None s =
    (Raise (ValueError "Tried to handle a bad server salt with no request specified"),
     salted) /\
  forall request : ref,
    _handle_bad_server_salt in_msg_id in_sequence reader (Some request) s =
      (match fst (send request salted) with
       | Ok _ => Ok (Some true, after)
       | Raise e => Raise e
       end, snd (send request salted)) /\
    forall (result : handled) (s' : MtProtoSender),
      (request < next_ref s)%nat ->
      _handle_bad_server_salt in_msg_id in_sequence reader (Some request) s =
        (Ok result, s') ->
      fst result = Some true /\
      salt (session s') = new_salt /\
      exists (earlier : list bytes) (m : Z),
        sent (_transport s') =
          sent (_transport s) ++ earlier ++
          [envelope_of (with_salt new_salt (session s)) m
             (sequence_of (session s) (confirmed (requests s request)))
             (body (requests s request))] /\
        msg_id (requests s' request) = m /\
        ((forall x : Session, last_msg_id x < fresh_msg_id x) ->
         msg_id (requests s request) <= last_msg_id (session s) ->
         m <> msg_id (requests s request)).
Proof.
  intros Hpos Hrem Hid Hseq Hcode Hsalt salted after.
  unfold bad_server_salt_message in Hrem.
  destruct (read_int_prefix false _ _ _ Hpos Hrem eq_refl) as (R1 & Hrem1 & Hpos1).
  destruct (read_long_prefix false _ _ _ Hpos1 Hrem1 Hid) as (R2 & Hrem2 & Hpos2).
  destruct (read_int_prefix true _ _ _ Hpos2 Hrem2 Hseq) as (R3 & Hrem3 & Hpos3).
  destruct (read_int_prefix true _ _ _ Hpos3 Hrem3 Hcode) as (R4 & Hrem4 & Hpos4).
  destruct (read_long_prefix false _ _ _ Hpos4 Hrem4 Hsalt) as (R5 & Hrem5 & Hpos5).
  assert (Hsome : forall request : ref,
    _handle_bad_server_salt in_msg_id in_sequence reader (Some request) s =
      (match fst (send request salted) with
       | Ok _ => Ok (Some true, after)
       | Raise e => Raise e
       end, snd (send request salted))).
  { intros request. unfold _handle_bad_server_salt. sender_run.
    rewrite R1. sender_cbn. rewrite R2. sender_cbn. rewrite R3. sender_cbn.
    rewrite R4. sender_cbn. rewrite R5. sender_cbn.
    fold salted. destruct (send request salted) as [[[] | e] s2]; reflexivity. }
  split.
  - unfold _handle_bad_server_salt. sender_run.
    rewrite R1. sender_cbn. rewrite R2. sender_cbn. rewrite R3. sender_cbn.
    rewrite R4. sender_cbn. rewrite R5. sender_cbn. reflexivity.
  - intros request. split; [apply Hsome |].
    intros result s' Hlive Hrun. rewrite Hsome in Hrun.
    destruct (send request salted) as [[[] | e] s2] eqn:Esend; [| discriminate].
    cbn [fst snd] in Hrun. inversion Hrun; subst result s'. clear Hrun.
    destruct (send_effects request salted s2 Hlive Esend)
      as (_ & Hwire & Hmid & Hslt & _).
    split; [reflexivity |]. split; [exact Hslt |].
    unfold transmitted, request_msg_id in *.
    change (_need_confirmation salted) with (_need_confirmation s) in *.
    change (sent (_transport salted)) with (sent (_transport s)) in *.
    change (session salted) with (with_salt new_salt (session s)) in *.
    change (requests salted request) with (requests s request) in *.
    destruct (_need_confirmation s) as [|ack acks].
    + exists [], (fresh_msg_id (with_salt new_salt (session s))).
      split; [exact Hwire | split; [exact Hmid |]].
      intros Hclock Hminted.
      pose proof (Hclock (with_salt new_salt (session s))) as Hfresh.
      cbn [last_msg_id with_salt] in Hfresh. lia.
    + eexists [_], _. split; [exact Hwire | split; [exact Hmid |]].
      intros Hclock Hminted.
      pose proof (Hclock (with_salt new_salt (session s))) as Hfresh1.
      pose proof (Hclock (with_last_msg_id
        (fresh_msg_id (with_salt new_salt (session s))) (with_salt new_salt (session s))))
        as Hfresh2.
      cbn [last_msg_id with_salt with_last_msg_id] in Hfresh1, Hfresh2. lia.
Qed.

(** C7. bad_msg_notification handling: with error code 16 or 17 the handler
    calls session.update_time_offset with the msg_id of the inbound message,
    persists the session with save(), and surfaces no error; with any other
    code it raises BadMessageError(code) and neither adjusts the time offset
    nor saves. *)
Theorem bad_msg_notification_handling (in_msg_id in_sequence : Z) (reader : BinaryReader)
    (bad_msg_id bad_seq error_code : Z) (rest : bytes) (s : MtProtoSender) :
  0 <= position reader ->
  remaining reader = bad_msg_notification_message bad_msg_id bad_seq error_code rest ->
  fits 8 false bad_msg_id = true ->
  fits 4 true bad_seq = true ->
  fits 4 true error_code = true ->
  let run := _handle_bad_msg_notification in_msg_id in_sequence reader s in
  let s' := snd run in
  (error_code = 16 \/ error_code = 17 ->
   fst run = Ok (None, advance 4 (advance 4 (advance 8 (advance 4 reader)))) /\
   session s' = with_time_offset (offset_for in_msg_id (session s)) (session s) /\
   saved s' = saved s ++ [session s']) /\
  (error_code <> 16 -> error_code <> 17 ->
   fst run = Raise (BadMessageError error_code) /\
   session s' = session s /\
   saved s' = saved s).
Proof.
  intros Hpos Hrem Hid Hseq Hcode.
  unfold bad_msg_notification_message in Hrem.
  destruct (read_int_prefix false _ _ _ Hpos Hrem eq_refl) as (R1 & Hrem1 & Hpos1).
  destruct (read_long_prefix false _ _ _ Hpos1 Hrem1 Hid) as (R2 & Hrem2 & Hpos2).
  destruct (read_int_prefix true _ _ _ Hpos2 Hrem2 Hseq) as (R3 & Hrem3 & Hpos3).
  destruct (read_int_prefix true _ _ _ Hpos3 Hrem3 Hcode) as (R4 & Hrem4 & Hpos4).
  unfold _handle_bad_msg_notification, update_time_offset. sender_run.
  rewrite R1. sender_cbn. rewrite R2. sender_cbn. rewrite R3. sender_cbn.
  rewrite R4. sender_cbn.
  split.
  - intros [-> | ->]; cbn [Z.eqb Pos.eqb orb]; sender_cbn; repeat split.
  - intros H16 H17.
    apply Z.eqb_neq in H16. apply Z.eqb_neq in H17. rewrite H16, H17. cbn [orb].
    repeat split.
Qed.

Ltac rpc_header Hpos Hrem Hid Hinner :=
  let R1 := fresh "R1" in let R2 := fresh "R2" in let R3 := fresh "R3" in
  let Hrem1 := fresh "Hrem1" in let Hpos1 := fresh "Hpos1" in
  let Hrem2 := fresh "Hrem2" in let Hpos2 := fresh "Hpos2" in
  let Hrem3 := fresh "Hrem3" in let Hpos3 := fresh "Hpos3" in
  unfold rpc_result_message in Hrem;
  destruct (read_int_prefix false _ _ _ Hpos Hrem eq_refl) as (R1 & Hrem1 & Hpos1);
  destruct (read_long_prefix false _ _ _ Hpos1 Hrem1 Hid) as (R2 & Hrem2 & Hpos2);
  destruct (read_int_prefix false _ _ _ Hpos2 Hrem2 Hinner) as (R3 & Hrem3 & Hpos3);
  unfold _handle_rpc_result; sender_run;
  rewrite R1; sender_cbn; rewrite R2; sender_cbn; rewrite R3; sender_cbn.

(** C6 (as amended). rpc_result confirmation: handling an rpc_result assigns
    True to request.confirm_received if and only if a request was supplied and
    the msg_id read from the message equals request.msg_id (and then, unless
    the result is an rpc_error, the attribute is True when the handler is
    done).  With a request supplied, a plain result (neither gzip nor error)
    whose id does not match is logged with a warning and discarded: the
    handler returns, on_response is not invoked and confirm_received is left
    as it was.  With no request supplied, a result that is not an rpc_error
    makes the handler raise ValueError, and nothing is logged beyond the
    entry message. *)
Theorem rpc_result_confirmation (in_msg_id in_sequence : Z) (reader : BinaryReader)
    (request_id inner_code : Z) (rest : bytes) (request : option ref) (s : MtProtoSender) :
  0 <= position reader ->
  remaining reader = rpc_result_message request_id inner_code rest ->
  fits 8 false request_id = true ->
  fits 4 false inner_code = true ->
  let run := _handle_rpc_result in_msg_id in_sequence reader request s in
  let s' := snd run in
  (exists history : list (ref * bool),
     confirm_writes s' = confirm_writes s ++ history /\
     forall l : ref,
       In (l, true) history <->
       request = Some l /\ request_id = msg_id (requests s l)) /\
  (forall l : ref,
     request = Some l -> inner_code <> 0x2144ca19 ->
     request_id = msg_id (requests s l) ->
     confirm_received (requests s' l) = true) /\
  (forall l : ref,
     request = Some l -> inner_code <> 0x2144ca19 -> inner_code <> 0x3072cfa1 ->
     request_id <> msg_id (requests s l) ->
     fst run = Ok (None, advance 8 (advance 4 reader)) /\
     responses (requests s' l) = responses (requests s l) /\
     confirm_received (requests s' l) = confirm_received (requests s l) /\
     log s' =
       log s ++
       [(DEBUG, "Handling RPC result, request is%s None"%string);
        (DEBUG, "Reading request response"%string);
        (WARNING,
         "RPC result found for unknown request (maybe from previous connection session)"%string)]) /\
  (request = None -> inner_code <> 0x2144ca19 ->
   fst run =
     Raise (ValueError
       "Cannot receive a request from inside an RPC result from the updates thread.") /\
   log s' = log s ++ [(DEBUG, "Handling RPC result, request is%s None"%string)]).
Proof.
  intros Hpos Hrem Hid Hinner.
  rpc_header Hpos Hrem Hid Hinner.
  pose proof (seek_back _ Hpos2) as Hseek.
  split; [| split; [| split]].
  - destruct request as [request |]; sender_cbn.
    + destruct (request_id =? msg_id (requests s request)) eqn:Ematch; sender_cbn;
        [apply Z.eqb_eq in Ematch | apply Z.eqb_neq in Ematch].
      * destruct (inner_code =? 0x2144ca19).
        -- destruct (read_int true _) as [[c r4] |]; sender_cbn.
           2:{ exists [(request, true)]. split; [reflexivity |].
               intros l. cbn [In]. intuition congruence. }
           destruct (tgread_string r4) as [[text r5] |]; sender_cbn.
           2:{ exists [(request, true)]. split; [reflexivity |].
               intros l. cbn [In]. intuition congruence. }
           unfold RPCError_init. cbn [must_resend message additional_data].
           destruct (must_resend_of c text); sender_cbn;
             destruct (String.prefix _ text); sender_cbn;
             try destruct (contains _ text); sender_cbn.
           all: first
             [ exists [(request, true)]; split;
               [reflexivity | intros l; cbn [In]; intuition congruence]
             | exists [(request, true); (request, false)]; split;
               [rewrite <- app_assoc; reflexivity | intros l; cbn [In]; intuition congruence] ].
        -- destruct (inner_code =? 0x3072cfa1).
           ++ destruct (tgread_bytes _) as [[packed r4] |]; sender_cbn.
              2:{ exists [(request, true)]. split; [reflexivity |].
                  intros l. cbn [In]. intuition congruence. }
              destruct (gzip_decompress packed); sender_cbn;
                exists [(request, true)]; (split;
                [reflexivity | intros l; cbn [In]; intuition congruence]).
           ++ rewrite Hseek. sender_cbn. rewrite Nat.eqb_refl. sender_cbn.
              destruct (request_id =? msg_id (requests s request)); sender_cbn;
                exists [(request, true)]; (split;
                [reflexivity | intros l; cbn [In]; intuition congruence]).
      * destruct (inner_code =? 0x2144ca19).
        -- destruct (read_int true _) as [[c r4] |]; sender_cbn.
           2:{ exists []. split; [symmetry; apply app_nil_r |].
               intros l. cbn [In]. intuition congruence. }
           destruct (tgread_string r4) as [[text r5] |]; sender_cbn.
           2:{ exists []. split; [symmetry; apply app_nil_r |].
               intros l. cbn [In]. intuition congruence. }
           unfold RPCError_init. cbn [must_resend message additional_data].
           destruct (must_resend_of c text); sender_cbn;
             destruct (String.prefix _ text); sender_cbn;
             try destruct (contains _ text); sender_cbn.
           all: first
             [ exists []; split;
               [symmetry; apply app_nil_r | intros l; cbn [In]; intuition congruence]
             | exists [(request, false)]; split;
               [reflexivity | intros l; cbn [In]; intuition congruence] ].
        -- destruct (inner_code =? 0x3072cfa1).
           ++ destruct (tgread_bytes _) as [[packed r4] |]; sender_cbn.
              2:{ exists []. split; [symmetry; apply app_nil_r |].
                  intros l. cbn [In]. intuition congruence. }
              destruct (gzip_decompress packed); sender_cbn;
                exists []; (split;
                [symmetry; apply app_nil_r | intros l; cbn [In]; intuition congruence]).
           ++ rewrite Hseek. sender_cbn.
              destruct (request_id =? msg_id (requests s request)); sender_cbn;
                exists []; (split;
                [symmetry; apply app_nil_r | intros l; cbn [In]; intuition congruence]).
    + exists []. split.
      * destruct (inner_code =? 0x2144ca19); sender_cbn.
        -- destruct (read_int true _) as [[c r4] |]; sender_cbn;
             [| symmetry; apply app_nil_r].
           destruct (tgread_string r4) as [[text r5] |]; sender_cbn;
             [| symmetry; apply app_nil_r].
           unfold RPCError_init. cbn [must_resend message additional_data].
           destruct (must_resend_of c text); sender_cbn;
             try (symmetry; apply app_nil_r);
             destruct (String.prefix _ text); sender_cbn;
             try destruct (contains _ text); sender_cbn; symmetry; apply app_nil_r.
        -- symmetry; apply app_nil_r.
      * intros l. cbn [In]. intuition congruence.
  - intros l -> Hplain Hmatch. apply Z.eqb_neq in Hplain. rewrite Hplain.
    apply Z.eqb_eq in Hmatch. sender_cbn. rewrite Hmatch. sender_cbn.
    destruct (inner_code =? 0x3072cfa1).
    + destruct (tgread_bytes _) as [[packed r4] |]; sender_cbn;
        [| rewrite Nat.eqb_refl; reflexivity].
      destruct (gzip_decompress packed); sender_cbn; rewrite Nat.eqb_refl; reflexivity.
    + rewrite Hseek. sender_cbn. rewrite Nat.eqb_refl. sender_cbn.
      rewrite Hmatch. sender_cbn. rewrite Nat.eqb_refl. reflexivity.
  - intros l -> Hplain Hgzip Hmatch.
    apply Z.eqb_neq in Hplain. apply Z.eqb_neq in Hgzip. apply Z.eqb_neq in Hmatch.
    rewrite Hplain, Hgzip. sender_cbn. rewrite Hmatch. sender_cbn.
    rewrite Hseek. sender_cbn. rewrite Hmatch. sender_cbn.
    rewrite <- !app_assoc. repeat split.
  - intros -> Hplain. apply Z.eqb_neq in Hplain. rewrite Hplain. sender_cbn.
    split; reflexivity.
Qed.

Lemma handle_flood_wait (in_msg_id in_sequence : Z) (reader : BinaryReader)
    (request_id c : Z) (digits : string) (N : Z) (rest : bytes)
    (after : BinaryReader) (request : option ref) (s : MtProtoSender) :
  0 <= position reader ->
  remaining reader = rpc_result_message request_id 0x2144ca19 (le_split 4 c ++ rest) ->
  fits 8 false request_id = true ->
  fits 4 true c = true ->
  tgread_string (advance 4 (advance 4 (advance 8 (advance 4 reader)))) =
    Ok (("FLOOD_WAIT_" ++ digits)%string, after) ->
  parse_int digits = Some N ->
  request <> None \/ must_resend_of c ("FLOOD_WAIT_" ++ digits) = false ->
  exists s' : MtProtoSender,
    _handle_rpc_result in_msg_id in_sequence reader request s =
      (Raise (FloodWaitError (Some N)), s') /\
    _updates_thread_sleep s' = Some N.
Proof.
  intros Hpos Hrem Hid Hc Htext Hparse Hlive.
  rpc_header Hpos Hrem Hid (eq_refl : fits 4 false 0x2144ca19 = true).
  destruct (read_int_prefix true _ _ _ Hpos3 Hrem3 Hc) as (R4 & Hrem4 & Hpos4).
  change (0x2144ca19 =? 0x2144ca19) with true. cbv iota.
  destruct request as [request |].
  - sender_cbn. destruct (request_id =? msg_id (requests s request)); sender_cbn;
      rewrite R4; sender_cbn; rewrite Htext; sender_cbn;
      unfold RPCError_init; cbn [must_resend message additional_data];
      rewrite flood_wait_prefix, integer_suffix_flood_wait, Hparse;
      destruct (must_resend_of c _); sender_cbn; eexists; split; reflexivity.
  - destruct Hlive as [Hlive | Hresend]; [congruence |].
    sender_cbn. rewrite R4. sender_cbn. rewrite Htext. sender_cbn.
    unfold RPCError_init. cbn [must_resend message additional_data].
    rewrite flood_wait_prefix, integer_suffix_flood_wait, Hparse, Hresend.
    sender_cbn. eexists; split; reflexivity.
Qed.

(** C8 (as amended). Flood-wait classification: for an rpc_error whose
    message is FLOOD_WAIT_ followed by the digits of N, handled with a live
    request or not declared "must resend" by the error taxonomy, the handler
    records N in _updates_thread_sleep and raises FloodWaitError(N); when the
    rpc_result is the payload of the envelope receive() takes off the
    transport, receive() raises it to its caller. *)
Theorem flood_wait_classification (request_id c : Z) (text digits : string) (N : Z)
    (rest : bytes) (request : option ref) :
  fits 8 false request_id = true ->
  fits 4 true c = true ->
  text = ("FLOOD_WAIT_" ++ digits)%string ->
  parse_int digits = Some N ->
  request <> None \/ must_resend_of c text = false ->
  let payload := rpc_result_message request_id 0x2144ca19 (le_split 4 c ++ rest) in
  (forall (in_msg_id in_sequence : Z) (reader after : BinaryReader) (s : MtProtoSender),
     0 <= position reader ->
     remaining reader = payload ->
     tgread_string (advance 4 (advance 4 (advance 8 (advance 4 reader)))) =
       Ok (text, after) ->
     let run := _handle_rpc_result in_msg_id in_sequence reader request s in
     fst run = Raise (FloodWaitError (Some N)) /\
     _updates_thread_sleep (snd run) = Some N) /\
  (forall (depth : nat) (updates : option ref) (envelope : bytes) (pending : list bytes)
          (remote_msg_id remote_sequence : Z) (after : BinaryReader) (s : MtProtoSender),
     request <> None \/ updates <> None ->
     incoming (_transport s) = envelope :: pending ->
     decoded (session s) envelope = Ok (payload, remote_msg_id, remote_sequence) ->
     tgread_string
       (advance 4 (advance 4 (advance 8 (advance 4 (BinaryReader_of payload))))) =
       Ok (text, after) ->
     let run := receive (S depth) request updates s in
     fst run = Raise (FloodWaitError (Some N)) /\
     _updates_thread_sleep (snd run) = Some N).
Proof.
  intros Hid Hc -> Hparse Hlive payload. split.
  - intros in_msg_id in_sequence reader after s Hpos Hrem Htext.
    destruct (handle_flood_wait in_msg_id in_sequence reader request_id c digits N rest
                after request s Hpos Hrem Hid Hc Htext Hparse Hlive) as (s' & Hrun & Hsleep).
    cbv zeta. rewrite Hrun. split; [reflexivity | exact Hsleep].
  - intros depth updates envelope pending remote_msg_id remote_sequence after s
      Hsome Hin Hdec Htext.
    destruct (handle_flood_wait remote_msg_id remote_sequence (BinaryReader_of payload)
                request_id c digits N rest after request
                (with_need_confirmation (fun l => l ++ [remote_msg_id]) (receiving pending s))
                (Z.le_refl 0) eq_refl Hid Hc Htext Hparse Hlive) as (s' & Hrun & Hsleep).
    cbv zeta.
    rewrite (receive_raises (S depth) request updates s envelope pending payload
               remote_msg_id remote_sequence (FloodWaitError (Some N)) s' Hsome Hin Hdec).
    + split; [reflexivity | exact Hsleep].
    + rewrite (process_rpc_result depth remote_msg_id remote_sequence
                 (BinaryReader_of payload) request updates _ request_id 0x2144ca19
                 (le_split 4 c ++ rest) (Z.le_refl 0) eq_refl Hid eq_refl).
      exact Hrun.
Qed.

(** C9. In the rpc_result handler a gzip_packed result is handed to
    request.on_response once decompressed, whatever msg_id the rpc_result
    bears: the ids are compared nowhere on this path.  In particular a stale
    result, whose id differs from request.msg_id, is delivered to the current
    request, although it does not confirm it. *)
Theorem gzip_result_delivered_unchecked (in_msg_id in_sequence : Z) (reader : BinaryReader)
    (request_id : Z) (rest packed_data unpacked_data : bytes) (after : BinaryReader)
    (request : ref) (s : MtProtoSender) :
  0 <= position reader ->
  remaining reader = rpc_result_message request_id 0x3072cfa1 rest ->
  fits 8 false request_id = true ->
  tgread_bytes (advance 4 (advance 8 (advance 4 reader))) = Ok (packed_data, after) ->
  gzip_decompress packed_data = Ok unpacked_data ->
  let run := _handle_rpc_result in_msg_id in_sequence reader (Some request) s in
  let s' := snd run in
  fst run = Ok (None, after) /\
  responses (requests s' request) = responses (requests s request) ++ [unpacked_data] /\
  (request_id <> msg_id (requests s request) ->
   confirm_received (requests s' request) = confirm_received (requests s request) /\
   confirm_writes s' = confirm_writes s).
Proof.
  intros Hpos Hrem Hid Hbytes Hgzip.
  rpc_header Hpos Hrem Hid (eq_refl : fits 4 false 0x3072cfa1 = true).
  change (0x3072cfa1 =? 0x2144ca19) with false.
  change (0x3072cfa1 =? 0x3072cfa1) with true. cbv iota.
  destruct (request_id =? msg_id (requests s request)) eqn:Ematch; sender_cbn;
    rewrite Hbytes; sender_cbn; rewrite Hgzip; sender_cbn;
    rewrite ?Nat.eqb_refl; sender_cbn; unfold remaining, BinaryReader_of; cbn [position stream Z.to_nat skipn].
  - apply Z.eqb_eq in Ematch. repeat split; contradiction.
  - repeat split.
Qed.

Lemma handle_pong_without_request (in_msg_id in_sequence ping_msg_id : Z)
    (reader : BinaryReader) (rest : bytes) (s : MtProtoSender) :
  0 <= position reader ->
  remaining reader = pong_message ping_msg_id rest ->
  fits 8 false ping_msg_id = true ->
  fst (_handle_pong in_msg_id in_sequence reader None s) = Raise (AttributeError "msg_id").
Proof.
  intros Hpos Hrem Hfit. unfold pong_message in Hrem.
  destruct (read_int_prefix false _ reader _ Hpos Hrem eq_refl) as (R1 & Hrem1 & Hpos1).
  destruct (read_long_prefix false _ _ _ Hpos1 Hrem1 Hfit) as (R2 & Hrem2 & Hpos2).
  unfold _handle_pong. sender_run. rewrite R1. sender_cbn. rewrite R2. reflexivity.
Qed.

Lemma process_pong_without_request (depth : nat) (in_msg_id in_sequence ping_msg_id : Z)
    (reader : BinaryReader) (rest : bytes) (updates : option ref) (s : MtProtoSender) :
  0 <= position reader ->
  remaining reader = pong_message ping_msg_id rest ->
  fits 8 false ping_msg_id = true ->
  fst (_process_msg (S depth) in_msg_id in_sequence reader None updates s) =
    Raise (AttributeError "msg_id").
Proof.
  intros Hpos Hrem Hfit.
  destruct (read_int_prefix false _ reader _ Hpos Hrem eq_refl) as (R1 & _ & _).
  cbn [_process_msg]. unfold bind at 1. unfold modify at 1. unfold bind at 1.
  unfold lift at 1. rewrite R1. unfold bind at 1. unfold lift at 1.
  rewrite (seek_back reader Hpos).
  change (0x347773c5 =? 0xf35c6d01) with false.
  change (0x347773c5 =? 0x347773c5) with true. cbv iota.
  apply handle_pong_without_request with (ping_msg_id := ping_msg_id) (rest := rest); assumption.
Qed.

(** C10. The pong handler reads request.msg_id unconditionally: a pong
    dispatched with request = None raises AttributeError, from [_process_msg]
    and hence from a receive() called with no request and from
    receive_update(), instead of returning False and letting the receive loop
    go on. *)
Theorem pong_without_request (depth : nat) (ping_msg_id : Z) (rest : bytes) :
  fits 8 false ping_msg_id = true ->
  (forall (in_msg_id in_sequence : Z) (reader : BinaryReader) (updates : option ref)
          (s : MtProtoSender),
     0 <= position reader ->
     remaining reader = pong_message ping_msg_id rest ->
     fst (_process_msg (S depth) in_msg_id in_sequence reader None updates s) =
       Raise (AttributeError "msg_id")) /\
  (forall (envelope : bytes) (pending : list bytes) (remote_msg_id remote_sequence : Z)
          (updates : ref) (s : MtProtoSender),
     incoming (_transport s) = envelope :: pending ->
     decoded (session s) envelope =
       Ok (pong_message ping_msg_id rest, remote_msg_id, remote_sequence) ->
     fst (receive (S depth) None (Some updates) s) = Raise (AttributeError "msg_id") /\
     fst (receive_update (S depth) updates s) = Raise (AttributeError "msg_id")).
Proof.
  intros Hfit.
  assert (Hreceive :
    forall (envelope : bytes) (pending : list bytes) (remote_msg_id remote_sequence : Z)
           (updates : ref) (s : MtProtoSender),
      incoming (_transport s) = envelope :: pending ->
      decoded (session s) envelope =
        Ok (pong_message ping_msg_id rest, remote_msg_id, remote_sequence) ->
      fst (receive (S depth) None (Some updates) s) = Raise (AttributeError "msg_id")).
  { intros envelope pending remote_msg_id remote_sequence updates s Hin Hdec.
    pose proof (process_pong_without_request depth remote_msg_id remote_sequence
                  ping_msg_id (BinaryReader_of (pong_message ping_msg_id rest)) rest
                  (Some updates) (receiving pending s) (Z.le_refl 0) eq_refl Hfit) as Hpong.
    destruct (_process_msg (S depth) remote_msg_id remote_sequence
                (BinaryReader_of (pong_message ping_msg_id rest)) None (Some updates)
                (receiving pending s)) as [[res | e] s'] eqn:Hproc;
      cbn [fst] in Hpong; [discriminate |].
    assert (Hsome : @None ref <> None \/ Some updates <> None)
      by (right; discriminate).
    rewrite (receive_raises (S depth) None (Some updates) s envelope pending
               (pong_message ping_msg_id rest) remote_msg_id remote_sequence e s'
               Hsome Hin Hdec Hproc).
    inversion Hpong. reflexivity. }
  split.
  - intros in_msg_id in_sequence reader updates s Hpos Hrem.
    apply process_pong_without_request with (ping_msg_id := ping_msg_id) (rest := rest);
      assumption.
  - intros envelope pending remote_msg_id remote_sequence updates s Hin Hdec.
    split; [apply (Hreceive envelope pending remote_msg_id remote_sequence); assumption |].
    unfold receive_update. unfold bind at 1, modify at 1. unfold bind at 1.
    pose proof (Hreceive envelope pending remote_msg_id remote_sequence updates
                  (with_sink updates (fun _ => []) s) Hin Hdec) as Hfails.
    destruct (receive (S depth) None (Some updates) (with_sink updates (fun _ => []) s))
      as [[[] | e] s']; cbn [fst] in Hfails; [discriminate |].
    inversion Hfails. reflexivity.
Qed.
End Handlers.

(** ** The handlers at work, under the concrete collaborators *)

(** A bad_server_salt carrying the salt 77 while the id 55 waits to be
    acknowledged: the request first sent as 100 goes out again as 108, after
    the msgs_ack. *)
Lemma bad_server_salt_redrive_witness :
  let s := sender0 5 3 100 [55] request100 in
  let reader := BinaryReader_of (bad_server_salt_message 100 7 48 77 []) in
  let run :=
    @_handle_bad_server_salt loopback_crypto stepping_clock plain_codec 55 0 reader
      (Some 0%nat) s in
  fst run =
    Ok (Some true, advance 8 (advance 4 (advance 4 (advance 8 (advance 4 reader))))) /\
  salt (session (snd run)) = 77 /\
  last (sent (_transport (snd run))) [] =
    @envelope_of loopback_crypto (with_salt 77 (session s)) 108 7 [Byte.x01] /\
  msg_id (requests (snd run) 0%nat) = 108 /\
  msg_id (requests (snd run) 0%nat) <> msg_id (requests s 0%nat).
Proof.
  intros s reader run.
  assert (Hrun : run =
    (Ok (Some true, advance 8 (advance 4 (advance 4 (advance 8 (advance 4 reader))))),
     snd run)) by (vm_compute; reflexivity).
  destruct (proj2 (proj2
    (@bad_server_salt_redrive loopback_crypto stepping_clock plain_codec 55 0 reader
       100 7 48 77 [] s
       ltac:(vm_compute; discriminate) eq_refl eq_refl eq_refl eq_refl eq_refl) 0%nat)
    _ (snd run) ltac:(vm_compute; lia) Hrun)
    as (_ & Hsalt & earlier & m & Hwire & Hmid & Hfresh).
  split; [rewrite Hrun; reflexivity |].
  split; [exact Hsalt |].
  split; [vm_compute; reflexivity |].
  split; [vm_compute; reflexivity |].
  rewrite Hmid. apply Hfresh.
  - intros x. cbn. lia.
  - vm_compute. discriminate.
Defined.

(** A bad_msg_notification with code 16 on the inbound message 204. *)
Lemma bad_msg_notification_handling_witness :
  let s := sender0 5 3 100 [] request100 in
  let reader := BinaryReader_of (bad_msg_notification_message 100 7 16 []) in
  let run := @_handle_bad_msg_notification stepping_clock 204 0 reader s in
  fst run = Ok (None, advance 4 (advance 4 (advance 8 (advance 4 reader)))) /\
  session (snd run) = with_time_offset (Z.shiftr 204 32) (session s) /\
  saved (snd run) = saved s ++ [session (snd run)].
Proof.
  intros s reader run.
  refine (proj1
    (@bad_msg_notification_handling stepping_clock 204 0 reader 100 7 16 [] s _ _ _ _ _) _).
  - vm_compute. discriminate.
  - reflexivity.
  - reflexivity.
  - reflexivity.
  - reflexivity.
  - left. reflexivity.
Defined.

(** A plain result for the id 999 while the request 100 is outstanding. *)
Lemma rpc_result_confirmation_witness :
  let s := sender0 5 3 100 [] request100 in
  let reader := BinaryReader_of (rpc_result_message 999 0x997275b5 []) in
  let run := @_handle_rpc_result plain_codec see_other 204 0 reader (Some 0%nat) s in
  fst run = Ok (None, advance 8 (advance 4 reader)) /\
  responses (requests (snd run) 0%nat) = responses (requests s 0%nat) /\
  confirm_received (requests (snd run) 0%nat) = confirm_received (requests s 0%nat) /\
  log (snd run) =
    log s ++
    [(DEBUG, "Handling RPC result, request is%s None"%string);
     (DEBUG, "Reading request response"%string);
     (WARNING,
      "RPC result found for unknown request (maybe from previous connection session)"%string)].
Proof.
  intros s reader run.
  refine (proj1 (proj2 (proj2
    (@rpc_result_confirmation plain_codec see_other 204 0 reader 999 0x997275b5 []
       (Some 0%nat) s _ _ _ _))) 0%nat eq_refl _ _ _).
  - vm_compute. discriminate.
  - reflexivity.
  - reflexivity.
  - reflexivity.
  - discriminate.
  - discriminate.
  - vm_compute. discriminate.
Defined.

(** C6 (as stated) fails in its second half: the same plain result, whose id
    matches no request, dispatched with no request supplied (the updates-only
    receive).  It is not logged and discarded: the handler raises ValueError,
    and the warning is not among the log entries. *)
Lemma rpc_result_counterexample :
  let s := sender0 5 3 100 [] request100 in
  let reader := BinaryReader_of (rpc_result_message 999 0x997275b5 []) in
  let run := @_handle_rpc_result plain_codec see_other 204 0 reader None s in
  fst run =
    Raise (ValueError
      "Cannot receive a request from inside an RPC result from the updates thread.") /\
  fst run <> Ok (None, advance 8 (advance 4 reader)) /\
  log (snd run) = [(DEBUG, "Handling RPC result, request is%s None"%string)].
Proof.
  vm_compute. repeat split; discriminate.
Qed.

(** Scenario S5 of the spec: rpc_error(code=420, message=FLOOD_WAIT_7), handled
    and received for the request 100. *)
Lemma flood_wait_classification_witness :
  let s := sender0 5 3 100 [] request100 in
  let reader := BinaryReader_of (flood_wait_message 420) in
  let waiting :=
    with_transport
      (fun t => mkTransport (sent t) [inbound_envelope 204 8 (flood_wait_message 420)]
                  (cancelled t)) s in
  let handled := @_handle_rpc_result plain_codec see_other 204 8 reader (Some 0%nat) s in
  let received :=
    @receive loopback_crypto stepping_clock plain_codec see_other 1 (Some 0%nat) None
      waiting in
  (fst handled = Raise (FloodWaitError (Some 7)) /\
   _updates_thread_sleep (snd handled) = Some 7) /\
  (fst received = Raise (FloodWaitError (Some 7)) /\
   _updates_thread_sleep (snd received) = Some 7).
Proof.
  intros s reader waiting handled received.
  assert (Hlive : Some 0%nat <> None \/
                  @must_resend_of see_other 420 "FLOOD_WAIT_7" = false)
    by (left; discriminate).
  assert (H8 : fits 8 false 100 = true) by (vm_compute; reflexivity).
  assert (H4 : fits 4 true 420 = true) by (vm_compute; reflexivity).
  pose proof (@flood_wait_classification loopback_crypto stepping_clock plain_codec see_other
              100 420 "FLOOD_WAIT_7"%string "7"%string 7 (short_string "FLOOD_WAIT_7")
              (Some 0%nat) H8 H4 eq_refl eq_refl Hlive) as Hthm.
  destruct Hthm as [Hhandle Hreceive].
  split.
  - apply (Hhandle 204 8 reader
             (advance 13 (advance 4 (advance 4 (advance 8 (advance 4 reader))))) s).
    + vm_compute; discriminate.
    + reflexivity.
    + vm_compute; reflexivity.
  - apply (Hreceive 0%nat None (inbound_envelope 204 8 (flood_wait_message 420)) [] 204 8
             (advance 13 (advance 4 (advance 4 (advance 8 (advance 4 reader))))) waiting).
    + left. discriminate.
    + reflexivity.
    + vm_compute; reflexivity.
    + vm_compute; reflexivity.
Defined.

(** C8 (as stated) fails: the same flood-wait message under error code 303,
    which the taxonomy declares "must resend", handled with no live request
    (the updates-only receive).  The handler raises the ValueError of the
    must-resend guard before it classifies the message: no FloodWaitError is
    raised and nothing is recorded in _updates_thread_sleep. *)
Lemma flood_wait_counterexample :
  let s := sender0 5 3 100 [] request100 in
  let text := "FLOOD_WAIT_7"%string in
  let reader := BinaryReader_of (flood_wait_message 303) in
  let run := @_handle_rpc_result plain_codec see_other 204 0 reader None s in
  String.prefix "FLOOD_WAIT_" text = true /\
  integer_suffix text = Some 7 /\
  fst run =
    Raise (ValueError
      "The previously sent request must be resent. However, no request was previously sent (called from updates thread).") /\
  fst run <> Raise (FloodWaitError (Some 7)) /\
  _updates_thread_sleep (snd run) = None.
Proof.
  vm_compute. repeat split; discriminate.
Qed.

(** A gzipped result bearing the id 999 is delivered to the request 100. *)
Lemma gzip_result_delivered_unchecked_witness :
  let s := sender0 5 3 100 [] request100 in
  let payload := [Byte.x0a; Byte.x0b; Byte.x0c] in
  let reader :=
    BinaryReader_of (rpc_result_message 999 0x3072cfa1 (Byte.x03 :: payload)) in
  let run := @_handle_rpc_result plain_codec see_other 204 0 reader (Some 0%nat) s in
  999 <> msg_id (requests s 0%nat) /\
  responses (requests (snd run) 0%nat) = responses (requests s 0%nat) ++ [payload] /\
  confirm_received (requests (snd run) 0%nat) = false.
Proof.
  intros s payload reader run.
  assert (Hstale : 999 <> msg_id (requests s 0%nat)) by (vm_compute; discriminate).
  destruct (@gzip_result_delivered_unchecked plain_codec see_other 204 0 reader 999
              (Byte.x03 :: payload) payload payload
              (advance 4 (advance 4 (advance 8 (advance 4 reader)))) 0%nat s)
    as (_ & Hresp & Hconf).
  - vm_compute. discriminate.
  - reflexivity.
  - reflexivity.
  - vm_compute. reflexivity.
  - reflexivity.
  - split; [exact Hstale | split; [exact Hresp |]].
    destruct (Hconf Hstale) as [Hsame _]. exact Hsame.
Defined.

(** A pong for ping 100, dispatched and received with no request. *)
Lemma pong_without_request_witness :
  let s := sender0 5 3 100 [] request100 in
  let reader := BinaryReader_of (pong_message 100 (le_split 8 1)) in
  let waiting :=
    with_transport (fun t => mkTransport (sent t) [pong_envelope] (cancelled t)) s in
  fst (@_process_msg loopback_crypto stepping_clock plain_codec see_other 1 204 8 reader
         None (Some 1%nat) s) = Raise (AttributeError "msg_id") /\
  fst (@receive loopback_crypto stepping_clock plain_codec see_other 1 None (Some 1%nat)
         waiting) = Raise (AttributeError "msg_id") /\
  fst (@receive_update loopback_crypto stepping_clock plain_codec see_other 1 1%nat
         waiting) = Raise (AttributeError "msg_id").
Proof.
  intros s reader waiting.
  assert (H8 : fits 8 false 100 = true) by (vm_compute; reflexivity).
  destruct (@pong_without_request loopback_crypto stepping_clock plain_codec see_other
              0%nat 100 (le_split 8 1) H8) as [Hdispatch Hreceive].
  split.
  - apply Hdispatch; [vm_compute; discriminate | reflexivity].
  - apply (Hreceive pong_envelope [] 204 8); [reflexivity | vm_compute; reflexivity].
Defined.

(** * Properties of the rest of the sender *)

(** ** Relations kept by every call *)

Section Keeps.
Context `{Crypto} `{Clock} `{Codec} `{Taxonomy}.
Context (R : MtProtoSender -> MtProtoSender -> Prop) `{!Stable R}.

Lemma keeps_ret {A : Type} (a : A) : keeps R (ret a).
Proof. intros s. apply stable_refl. Qed.

Lemma keeps_raise {A : Type} (e : exn) : keeps R (@raise A e).
Proof. intros s. apply stable_refl. Qed.

Lemma keeps_lift {A : Type} (o : outcome A) : keeps R (lift o).
Proof. intros s. apply stable_refl. Qed.

Lemma keeps_gets {A : Type} (f : MtProtoSender -> A) : keeps R (gets f).
Proof. intros s. apply stable_refl. Qed.

Lemma keeps_bind {A B : Type} (m : M A) (k : A -> M B) :
  keeps R m -> (forall a, keeps R (k a)) -> keeps R (bind m k).
Proof.
  intros Hm Hk s. unfold bind. specialize (Hm s).
  destruct (m s) as [[a | e] s1]; cbn [snd] in *.
  - apply stable_trans with s1; [exact Hm | apply Hk].
  - exact Hm.
Qed.

Ltac keeps_step :=
  first
    [ apply keeps_ret | apply keeps_raise | apply keeps_lift | apply keeps_gets
    | apply stable_logger | apply stable_transport_send | apply stable_cancel_receive
    | apply stable_save | apply stable_set_msg_id | apply stable_set_confirm_received
    | apply stable_on_response | apply stable_updates_append | apply stable_new_object
    | apply stable_get_new_msg_id | apply stable_update_time_offset
    | apply stable_generate_sequence | apply stable_waiting_receive
    | apply stable_need_confirmation | apply stable_updates_thread_sleep
    | apply stable_salt
    | assumption
    | apply keeps_bind; [| intros ?]
    | match goal with
      | |- keeps _ (when ?c _) => unfold when
      | |- keeps _ (let _ := _ in _) => cbv zeta
      | |- keeps _ (deref _) => unfold deref
      | |- keeps _ (match ?x with _ => _ end) => destruct x
      | |- keeps _ (if ?c then _ else _) => destruct c
      end ].

Ltac keeps_tac := repeat keeps_step.

Lemma send_packet_keeps (packet : bytes) (request : ref) :
  keeps R (_send_packet packet request).
Proof. unfold _send_packet. keeps_tac. Qed.

Lemma decode_msg_keeps (envelope : bytes) : keeps R (_decode_msg envelope).
Proof. intros s. rewrite decode_msg_decoded. apply stable_refl. Qed.

Context `{!StableEntry R}.

Lemma send_keeps (request : ref) : keeps R (send request).
Proof. unfold send. keeps_tac. Qed.

Lemma handle_pong_keeps (a b : Z) (reader : BinaryReader) (request : option ref) :
  keeps R (_handle_pong a b reader request).
Proof. unfold _handle_pong. keeps_tac. Qed.

Lemma handle_bad_server_salt_keeps (a b : Z) (reader : BinaryReader)
    (request : option ref) :
  keeps R (_handle_bad_server_salt a b reader request).
Proof. unfold _handle_bad_server_salt. keeps_tac. Qed.

Lemma handle_bad_msg_notification_keeps (a b : Z) (reader : BinaryReader) :
  keeps R (_handle_bad_msg_notification a b reader).
Proof. unfold _handle_bad_msg_notification. keeps_tac. Qed.

Lemma handle_rpc_result_keeps (a b : Z) (reader : BinaryReader) (request : option ref) :
  keeps R (_handle_rpc_result a b reader request).
Proof. unfold _handle_rpc_result. keeps_tac. Qed.

Lemma container_loop_keeps (process : dispatcher) :
  (forall a b reader request updates, keeps R (process a b reader request updates)) ->
  forall (count : nat) (b : Z) (reader : BinaryReader) (request updates : option ref),
    keeps R (container_loop process count b reader request updates).
Proof.
  intros Hprocess count. induction count as [|count IH]; intros b reader request updates.
  - cbn [container_loop]. keeps_tac.
  - cbn [container_loop]. keeps_tac; try apply Hprocess. apply IH.
Qed.

Lemma process_msg_keeps (depth : nat) :
  forall (a b : Z) (reader : BinaryReader) (request updates : option ref),
    keeps R (_process_msg depth a b reader request updates).
Proof.
  induction depth as [|depth IH]; intros a b reader request updates.
  - cbn [_process_msg]. keeps_tac.
  - cbn [_process_msg]. keeps_tac.
    all: try apply handle_rpc_result_keeps.
    all: try apply handle_pong_keeps.
    all: try apply handle_bad_server_salt_keeps.
    all: try apply handle_bad_msg_notification_keeps.
    all: try (apply container_loop_keeps; exact IH).
    all: try apply IH.
Qed.

Lemma receive_loop_keeps (depth : nat) (request updates : option ref) :
  keeps R transport_receive ->
  forall turns : nat, keeps R (receive_loop turns depth request updates).
Proof.
  intros Hreceive turns. induction turns as [|turns IH].
  - cbn [receive_loop]. keeps_tac.
  - cbn [receive_loop]. keeps_tac; try apply decode_msg_keeps; try apply process_msg_keeps.
Qed.

Lemma receive_keeps (depth : nat) (request updates : option ref) :
  keeps R transport_receive ->
  keeps R (modify (with_waiting_receive false)) ->
  keeps R (receive depth request updates).
Proof.
  intros Hreceive Hclear. unfold receive.
  destruct request, updates; keeps_tac.
  all: try apply decode_msg_keeps.
  all: try apply process_msg_keeps.
  all: try (apply receive_loop_keeps; assumption).
Qed.

End Keeps.

Ltac keeps_step :=
  first
    [ match goal with
      | |- Stable _ => assumption
      | |- StableEntry _ => assumption
      end
    | apply keeps_ret | apply keeps_raise | apply keeps_lift | apply keeps_gets
    | apply stable_logger | apply stable_transport_send | apply stable_cancel_receive
    | apply stable_save | apply stable_set_msg_id | apply stable_set_confirm_received
    | apply stable_on_response | apply stable_updates_append | apply stable_new_object
    | apply stable_get_new_msg_id | apply stable_update_time_offset
    | apply stable_generate_sequence | apply stable_waiting_receive
    | apply stable_need_confirmation | apply stable_updates_thread_sleep
    | apply stable_salt
    | assumption
    | apply keeps_bind; [idtac .. | intros ?]
    | match goal with
      | |- keeps _ (when ?c _) => unfold when
      | |- keeps _ (let _ := _ in _) => cbv zeta
      | |- keeps _ (deref _) => unfold deref
      | |- keeps _ (match ?x with _ => _ end) => destruct x
      | |- keeps _ (if ?c then _ else _) => destruct c
      end ].

Ltac keeps_tac := repeat keeps_step.

(** ** The relations of interest are stable *)

Ltac primitive_run :=
  intros; intros ?s;
  try (unfold get_new_msg_id, update_time_offset, _generate_sequence);
  repeat match goal with |- context [if ?c then _ else _] => destruct c end;
  sender_run.

Lemma identity_kept_stable `{Clock} : Stable identity_kept.
Proof.
  split.
  1: intros s; split; reflexivity.
  1: { intros s1 s2 s3 [] []. split; congruence. }
  all: primitive_run; split; reflexivity.
Qed.

Lemma inbound_kept_stable `{Clock} : Stable inbound_kept.
Proof.
  unfold inbound_kept. split.
  1: reflexivity.
  1: { intros s1 s2 s3 H12 H23. congruence. }
  all: primitive_run; reflexivity.
Qed.

Lemma grows_refl (s : MtProtoSender) : grows s s.
Proof.
  split; try lia.
  - exists []. symmetry. apply app_nil_r.
  - exists []. symmetry. apply app_nil_r.
  - exists []. reflexivity.
Qed.

Lemma grows_trans (s1 s2 s3 : MtProtoSender) : grows s1 s2 -> grows s2 s3 -> grows s1 s3.
Proof.
  intros [Hq [a Ha] [b Hb] Hc [t Ht]] [Hq' [a' Ha'] [b' Hb'] Hc' [t' Ht']].
  split; try lia.
  - exists (a ++ a'). rewrite Ha', Ha. symmetry. apply app_assoc.
  - exists (b ++ b'). rewrite Hb', Hb. symmetry. apply app_assoc.
  - exists (t ++ t'). rewrite Ht, Ht'. apply app_assoc.
Qed.

Lemma grows_stable `{Clock} : Stable grows.
Proof.
  split.
  1: exact grows_refl.
  1: exact grows_trans.
  all: primitive_run.
  all: split; sender_cbn; try lia.
  all: try (eexists; symmetry; apply app_nil_r).
  all: try (eexists; reflexivity).
  all: try (exists []; reflexivity).
Qed.

Lemma identity_kept_entry : StableEntry identity_kept.
Proof. split; primitive_run; split; reflexivity. Qed.

Lemma inbound_kept_entry : StableEntry inbound_kept.
Proof. split; primitive_run; reflexivity. Qed.

Lemma grows_entry : StableEntry grows.
Proof.
  split; primitive_run.
  all: split; sender_cbn; try lia.
  all: try (eexists; symmetry; apply app_nil_r).
  all: exists []; reflexivity.
Qed.

Lemma grows_waiting_receive (b : bool) : keeps grows (modify (with_waiting_receive b)).
Proof.
  primitive_run. split; sender_cbn; try lia.
  all: try (eexists; symmetry; apply app_nil_r).
  all: exists []; reflexivity.
Qed.

Lemma ids_increase_entry : StableEntry ids_increase.
Proof. unfold ids_increase. split; primitive_run; lia. Qed.

Lemma entry_kept_stable `{Clock} : Stable entry_kept.
Proof.
  unfold entry_kept. split.
  1: intros; split; reflexivity.
  1: { intros s1 s2 s3 [] []. split; congruence. }
  all: primitive_run; split; reflexivity.
Qed.

Lemma still_waiting_stable `{Clock} : Stable still_waiting.
Proof.
  unfold still_waiting. split.
  1: intros s Hs; exact Hs.
  1: { intros s1 s2 s3 H12 H23 Hs. auto. }
  all: primitive_run; intros Hs; exact Hs.
Qed.

Lemma still_waiting_entry : StableEntry still_waiting.
Proof. unfold still_waiting. split; primitive_run; intros Hs; sender_cbn; auto. Qed.

Lemma still_waiting_transport_receive : keeps still_waiting transport_receive.
Proof.
  intros s. unfold still_waiting, transport_receive.
  destruct (incoming (_transport s)); cbn [snd]; sender_cbn; auto.
Qed.

Lemma grows_transport_receive : keeps grows transport_receive.
Proof.
  intros s. unfold transport_receive.
  destruct (incoming (_transport s)) as [|envelope pending] eqn:Hin; cbn [snd].
  - apply grows_refl.
  - split; sender_cbn; try lia.
    + exists []. symmetry. apply app_nil_r.
    + exists []. symmetry. apply app_nil_r.
    + exists [envelope]. exact Hin.
Qed.

Lemma identity_kept_transport_receive : keeps identity_kept transport_receive.
Proof.
  intros s. unfold transport_receive.
  destruct (incoming (_transport s)); cbn [snd]; split; reflexivity.
Qed.

Section Ids.
Context `{Clock}.
Hypothesis clock_goes_on : forall x : Session, last_msg_id x < fresh_msg_id x.

Lemma ids_increase_stable : Stable ids_increase.
Proof.
  unfold ids_increase. split.
  1: intros; lia.
  1: intros; lia.
  all: primitive_run; try lia.
  specialize (clock_goes_on (session s)). lia.
Qed.

Lemma ids_increase_transport_receive : keeps ids_increase transport_receive.
Proof.
  intros s. unfold ids_increase, transport_receive.
  destruct (incoming (_transport s)); cbn [snd]; sender_cbn; lia.
Qed.

End Ids.

(** ** What sending, dispatching and receiving never do *)

Section Frames.
Context `{Crypto} `{Clock} `{Codec} `{Taxonomy}.

(** X1. Whatever they are given and whether they return or raise, [send],
    [_process_msg] and [receive] leave the session id, the auth key, the
    logging_out flag and the _updates_thread_receiving flag as they found
    them. *)
Theorem identity_never_changes (depth : nat) (in_msg_id in_sequence : Z)
    (reader : BinaryReader) (target : ref) (request updates : option ref)
    (s : MtProtoSender) :
  identity_kept s (snd (send target s)) /\
  identity_kept s (snd (_process_msg depth in_msg_id in_sequence reader request updates s)) /\
  identity_kept s (snd (receive depth request updates s)).
Proof.
  split; [| split].
  - apply (send_keeps identity_kept (Stable0 := identity_kept_stable)
            (StableEntry0 := identity_kept_entry)).
  - apply (process_msg_keeps identity_kept (Stable0 := identity_kept_stable)
            (StableEntry0 := identity_kept_entry)).
  - apply (receive_keeps identity_kept (Stable0 := identity_kept_stable)
            (StableEntry0 := identity_kept_entry)).
    + exact identity_kept_transport_receive.
    + intros t. split; reflexivity.
Qed.

(** X2. [send], [_process_msg] and [receive], returning or raising, never
    lower the content counter of the session, only append to what was
    transmitted and to the saved sessions, and never put an envelope back:
    the inbound queue afterwards is the one before less some envelopes at its
    head.  [send] and [_process_msg] take none. *)
Theorem history_only_grows (depth : nat) (in_msg_id in_sequence : Z)
    (reader : BinaryReader) (target : ref) (request updates : option ref)
    (s : MtProtoSender) :
  (grows s (snd (send target s)) /\
   incoming (_transport (snd (send target s))) = incoming (_transport s)) /\
  (grows s (snd (_process_msg depth in_msg_id in_sequence reader request updates s)) /\
   incoming
     (_transport (snd (_process_msg depth in_msg_id in_sequence reader request updates s))) =
   incoming (_transport s)) /\
  grows s (snd (receive depth request updates s)).
Proof.
  split; [split | split; [split |]].
  - apply (send_keeps grows (Stable0 := grows_stable) (StableEntry0 := grows_entry)).
  - apply (send_keeps inbound_kept (Stable0 := inbound_kept_stable)
            (StableEntry0 := inbound_kept_entry)).
  - apply (process_msg_keeps grows (Stable0 := grows_stable) (StableEntry0 := grows_entry)).
  - apply (process_msg_keeps inbound_kept (Stable0 := inbound_kept_stable)
            (StableEntry0 := inbound_kept_entry)).
  - apply (receive_keeps grows (Stable0 := grows_stable) (StableEntry0 := grows_entry)).
    + exact grows_transport_receive.
    + apply grows_waiting_receive.
Qed.

(** X3. With a clock that always hands out an id above the last one: a send
    that returns leaves the request with an id above every id handed out
    before, which is the new last id; of two sends in a row the second
    request gets the larger id, whatever was dispatched in between; and no
    dispatch or receive ever lowers the last id. *)
Theorem msg_ids_increase (depth : nat) (in_msg_id in_sequence : Z)
    (reader : BinaryReader) (first second : ref) (request updates : option ref)
    (s s1 s2 : MtProtoSender) :
  let between :=
    snd (_process_msg depth in_msg_id in_sequence reader request updates s1) in
  (forall x : Session, last_msg_id x < fresh_msg_id x) ->
  (first < next_ref s)%nat ->
  send first s = (Ok tt, s1) ->
  (second < next_ref between)%nat ->
  send second between = (Ok tt, s2) ->
  last_msg_id (session s) < msg_id (requests s1 first) /\
  msg_id (requests s1 first) = last_msg_id (session s1) /\
  msg_id (requests s1 first) < msg_id (requests s2 second) /\
  last_msg_id (session s) <= last_msg_id (session (snd (receive depth request updates s))).
Proof.
  intros between Hclock Hfirst Hsend1 Hsecond Hsend2. subst between.
  assert (Hid : forall r t t', (r < next_ref t)%nat -> send r t = (Ok tt, t') ->
            last_msg_id (session t) < msg_id (requests t' r) /\
            msg_id (requests t' r) = last_msg_id (session t')).
  { intros r t t' Hr Hs.
    destruct (send_effects r t t' Hr Hs) as (_ & _ & Hm & _ & Hl).
    rewrite Hm, Hl. split; [| reflexivity].
    unfold request_msg_id. destruct (_need_confirmation t).
    - apply Hclock.
    - pose proof (Hclock (session t)) as Hx1.
      pose proof (Hclock (with_last_msg_id (fresh_msg_id (session t)) (session t))) as Hx2.
      cbn [last_msg_id with_last_msg_id] in Hx2. lia. }
  destruct (Hid _ _ _ Hfirst Hsend1) as [Ha Hb].
  destruct (Hid _ _ _ Hsecond Hsend2) as [Hc _].
  pose proof (process_msg_keeps ids_increase (Stable0 := ids_increase_stable Hclock)
                (StableEntry0 := ids_increase_entry) depth in_msg_id in_sequence reader
                request updates s1) as Hd.
  pose proof (receive_keeps ids_increase (Stable0 := ids_increase_stable Hclock)
                (StableEntry0 := ids_increase_entry) depth request updates
                ids_increase_transport_receive (fun t => Z.le_refl _) s) as He.
  unfold ids_increase in Hd, He.
  repeat split; try assumption; lia.
Qed.

End Frames.

(** ** What the decoder does not look at *)

Lemma skipn_past {A : Type} (n k : nat) (h t : list A) :
  List.length h = n -> skipn (n + k) (h ++ t) = skipn k t.
Proof.
  intros Hn. rewrite skipn_app, skipn_all2 by lia.
  replace (n + k - List.length h)%nat with k by lia. reflexivity.
Qed.

Section Decoder.
Context `{Crypto} `{Clock} `{Codec} `{Taxonomy}.

Lemma decoded_plain (x : Session) (envelope : bytes) :
  decoded x envelope =
  if len envelope <? 24 then Raise BufferError
  else
    let plain_text := received_plain_text x envelope in
    if len plain_text <? 32 then Raise BufferError
    else
      let msg_len := from_bytes (firstn 4 (skipn 28 plain_text)) true in
      if (msg_len <? 0) || (len plain_text - 32 <? msg_len) then Raise BufferError
      else
        Ok (firstn (Z.to_nat msg_len) (skipn 32 plain_text),
            from_bytes (firstn 8 (skipn 16 plain_text)) true,
            from_bytes (firstn 4 (skipn 24 plain_text)) true).
Proof. reflexivity. Qed.

(** X4. The first eight bytes of an envelope, the auth_key_id, are read and
    dropped: two envelopes that differ only there decode alike, under any two
    sessions with the same key; and decoding changes nothing in the sender. *)
Theorem decode_ignores_auth_key_id (key_id1 key_id2 rest : bytes) (s1 s2 : MtProtoSender) :
  List.length key_id1 = 8%nat ->
  List.length key_id2 = 8%nat ->
  key (auth_key (session s1)) = key (auth_key (session s2)) ->
  fst (_decode_msg (key_id1 ++ rest) s1) = fst (_decode_msg (key_id2 ++ rest) s2) /\
  snd (_decode_msg (key_id1 ++ rest) s1) = s1.
Proof.
  intros H1' H2' Hkey. rewrite !decode_msg_decoded. cbn [fst snd]. split; [| reflexivity].
  assert (Hl1 : len key_id1 = 8) by (unfold len; rewrite H1'; reflexivity).
  assert (Hl2 : len key_id2 = 8) by (unfold len; rewrite H2'; reflexivity).
  assert (Hs : forall k, skipn (8 + k) (key_id1 ++ rest) = skipn (8 + k) (key_id2 ++ rest)).
  { intros k. rewrite !skipn_past by assumption. reflexivity. }
  unfold decoded. rewrite !len_app, Hl1, Hl2, Hkey.
  pose proof (Hs 0%nat) as Ha. pose proof (Hs 16%nat) as Hb.
  cbn [Nat.add] in Ha, Hb. rewrite Ha, Hb. reflexivity.
Qed.

(** X5. Of the plaintext the decoder uses nothing before byte 16: the salt
    and the session id the peer wrote are read and dropped.  Two envelopes
    whose plaintexts agree from byte 16 on decode alike, whatever salt and
    session id they carry and whatever those of the receiving session are. *)
Theorem decode_ignores_salt_and_session (envelope1 envelope2 head1 head2 tail : bytes)
    (s1 s2 : MtProtoSender) :
  24 <= len envelope1 ->
  24 <= len envelope2 ->
  received_plain_text (session s1) envelope1 = head1 ++ tail ->
  received_plain_text (session s2) envelope2 = head2 ++ tail ->
  List.length head1 = 16%nat ->
  List.length head2 = 16%nat ->
  fst (_decode_msg envelope1 s1) = fst (_decode_msg envelope2 s2).
Proof.
  intros Hl1 Hl2 Hp1 Hp2 Hh1 Hh2. rewrite !decode_msg_decoded. cbn [fst].
  rewrite !decoded_plain. cbv zeta.
  destruct (Z.ltb_spec (len envelope1) 24) as [|_]; [lia|].
  destruct (Z.ltb_spec (len envelope2) 24) as [|_]; [lia|].
  assert (Hn1 : len head1 = 16) by (unfold len; rewrite Hh1; reflexivity).
  assert (Hn2 : len head2 = 16) by (unfold len; rewrite Hh2; reflexivity).
  assert (Hs : forall k, skipn (16 + k) (head1 ++ tail) = skipn (16 + k) (head2 ++ tail)).
  { intros k. rewrite !skipn_past by assumption. reflexivity. }
  rewrite Hp1, Hp2, !len_app, Hn1, Hn2.
  pose proof (Hs 12%nat) as Ha. pose proof (Hs 16%nat) as Hb.
  pose proof (Hs 0%nat) as Hc. pose proof (Hs 8%nat) as Hd.
  cbn [Nat.add] in Ha, Hb, Hc, Hd. rewrite Ha, Hb, Hc, Hd. reflexivity.
Qed.

End Decoder.

(** ** Sending *)

Section Sending.
Context `{Crypto} `{Clock} `{Codec} `{Taxonomy}.



(** X7. However it ends, send() has set _waiting_receive, and has cancelled
    the receive in progress exactly once if _updates_thread_receiving was set
    and not at all otherwise. *)
Theorem send_pauses_updates_thread (request : ref) (s : MtProtoSender) :
  let s' := snd (send request s) in
  _waiting_receive s' = true /\
  cancelled (_transport s') =
    if _updates_thread_receiving s then S (cancelled (_transport s))
    else cancelled (_transport s).
Proof.
  cbv zeta. rewrite send_prologue.
  pose proof entry_kept_stable as Hstable.
  match goal with
  | |- context [snd (?m (entered s))] =>
      assert (Hkept : keeps entry_kept m) by keeps_tac;
      destruct (Hkept (entered s)) as [Hc Hw]
  end.
  rewrite Hw, Hc. unfold entered.
  destruct (_updates_thread_receiving s); split; reflexivity.
Qed.

(** X8. A send() of a live request that returns has advanced the content
    counter by one if the request is content related and not at all
    otherwise, has saved the session as it is at the end, and has changed
    nothing of the request but its msg_id. *)
Theorem send_counts_and_saves (request : ref) (s s' : MtProtoSender) :
  (request < next_ref s)%nat ->
  send request s = (Ok tt, s') ->
  sequence (session s') =
    (if confirmed (requests s request) then sequence (session s) + 1
     else sequence (session s)) /\
  saved s' = saved s ++ [session s'] /\
  requests s' request = with_msg_id (request_msg_id s) (requests s request).
Proof.
  intros Hlive Hrun. apply send_inv in Hrun. subst s'.
  pose proof (live_not_fresh request s Hlive) as Hneq.
  unfold request_sent, acknowledged, request_msg_id.
  assert (Hentered :
    _need_confirmation (entered s) = _need_confirmation s /\
    session (entered s) = session s /\
    requests (entered s) = requests s /\
    next_ref (entered s) = next_ref s /\
    saved (entered s) = saved s).
  { unfold entered. destruct (_updates_thread_receiving s); repeat split. }
  destruct Hentered as (Hn & Hx & Hr & Hf & Hw).
  revert Hn Hx Hr Hf Hw. generalize (entered s). intros e Hn Hx Hr Hf Hw.
  rewrite Hn. destruct (_need_confirmation s) as [|ack acks].
  - unfold packet_sent. sender_cbn. rewrite Nat.eqb_refl, Hx, Hr, Hw.
    destruct (confirmed (requests s request)); repeat split; reflexivity.
  - unfold packet_sent, MsgsAck. sender_cbn.
    rewrite ?Nat.eqb_refl, ?Hf, ?Hneq, ?Hx, ?Hr, ?Hw. sender_cbn.
    destruct (confirmed (requests s request)); repeat split; reflexivity.
Qed.

End Sending.

Section SendingFails.
Context `{Crypto} `{Clock} `{Codec} `{Taxonomy}.


End SendingFails.

(** ** The dispatcher *)

(** [_process_msg] up to the point where it compares the code it read. *)
Ltac dispatch_on R1 Hpos reader :=
  cbn [_process_msg]; unfold bind at 1; unfold modify at 1; unfold bind at 1;
  unfold lift at 1; rewrite R1; unfold bind at 1; unfold lift at 1;
  rewrite (seek_back reader Hpos).

Lemma not_manual (tag : Z) :
  ~ In tag manual_tags ->
  (tag =? 0xf35c6d01) = false /\ (tag =? 0x347773c5) = false /\
  (tag =? 0x73f1f8dc) = false /\ (tag =? 0x3072cfa1) = false /\
  (tag =? 0xedab447b) = false /\ (tag =? 0xa7eff811) = false /\
  (tag =? 0x62d6b459) = false.
Proof.
  unfold manual_tags. intros Hout.
  repeat split; apply Z.eqb_neq; intros ->; apply Hout; cbn [In]; tauto.
Qed.

Section Dispatcher.
Context `{Crypto} `{Clock} `{Codec} `{Taxonomy}.

(** A message whose code is not parsed by hand goes to the catalog. *)
Lemma process_unlisted (depth : nat) (in_msg_id in_sequence : Z) (reader : BinaryReader)
    (request updates : option ref) (s : MtProtoSender) (tag : Z) (rest : bytes) :
  0 <= position reader ->
  remaining reader = tagged tag rest ->
  fits 4 false tag = true ->
  ~ In tag manual_tags ->
  _process_msg (S depth) in_msg_id in_sequence reader request updates s =
  (if tlobjects tag then
     '(result, reader) <- lift (tgread_object reader) ;;
     match updates with
     | None => logger DEBUG "Ignored update for %s"
     | Some updates =>
         logger DEBUG "Read update for %s" ;;
         updates_append updates result
     end ;;
     ret (Some false, reader)
   else
     logger STDOUT "Unknown message: {}" ;;
     ret (Some false, reader))%sender
    (with_need_confirmation (fun l => l ++ [in_msg_id]) s).
Proof.
  intros Hpos Hrem Hfit Hout. unfold tagged in Hrem.
  destruct (read_int_prefix false _ reader _ Hpos Hrem Hfit) as (R1 & _ & _).
  destruct (not_manual tag Hout) as (E1 & E2 & E3 & E4 & E5 & E6 & E7).
  dispatch_on R1 Hpos reader.
  rewrite E1, E2, E3, E4, E5, E6, E7. reflexivity.
Qed.

(** X10. A message whose code is neither parsed by hand nor in the catalog
    is noted for acknowledgement, reported and dropped, with the reader left
    at its start.  One whose code is in the catalog is read as an object and
    appended to the updates list if there is one, ignored if there is none;
    in both cases nothing else changes and the dispatcher returns False,
    whether a request is awaited or not. *)
Theorem unlisted_message (depth : nat) (in_msg_id in_sequence : Z) (reader : BinaryReader)
    (request : option ref) (s : MtProtoSender) (tag : Z) (rest : bytes) :
  0 <= position reader ->
  remaining reader = tagged tag rest ->
  fits 4 false tag = true ->
  ~ In tag manual_tags ->
  (tlobjects tag = false ->
   forall updates : option ref,
     _process_msg (S depth) in_msg_id in_sequence reader request updates s =
     (Ok (Some false, reader), dropped in_msg_id s)) /\
  (tlobjects tag = true ->
   forall (result : TLObject) (after : BinaryReader),
     tgread_object reader = Ok (result, after) ->
     (forall updates : ref,
        _process_msg (S depth) in_msg_id in_sequence reader request (Some updates) s =
        (Ok (Some false, after),
         with_sink updates (fun l => l ++ [result])
           (logged DEBUG "Read update for %s" (noted in_msg_id s)))) /\
     _process_msg (S depth) in_msg_id in_sequence reader request None s =
     (Ok (Some false, after), logged DEBUG "Ignored update for %s" (noted in_msg_id s))).
Proof.
  intros Hpos Hrem Hfit Hout. split.
  - intros Hcat updates.
    rewrite (process_unlisted depth in_msg_id in_sequence reader request updates s tag rest)
      by assumption.
    rewrite Hcat. reflexivity.
  - intros Hcat result after Hread. split; [intros updates |].
    + rewrite (process_unlisted depth in_msg_id in_sequence reader request (Some updates)
                 s tag rest) by assumption.
      rewrite Hcat. sender_run. rewrite Hread. reflexivity.
    + rewrite (process_unlisted depth in_msg_id in_sequence reader request None s tag rest)
        by assumption.
      rewrite Hcat. sender_run. rewrite Hread. reflexivity.
Qed.

(** The dispatcher hands a pong to its handler. *)
Lemma process_pong (depth : nat) (in_msg_id in_sequence : Z) (reader : BinaryReader)
    (request updates : option ref) (s : MtProtoSender) (ping_msg_id : Z) (rest : bytes) :
  0 <= position reader ->
  remaining reader = pong_message ping_msg_id rest ->
  _process_msg (S depth) in_msg_id in_sequence reader request updates s =
  _handle_pong in_msg_id in_sequence reader request (noted in_msg_id s).
Proof.
  intros Hpos Hrem. unfold pong_message in Hrem.
  destruct (read_int_prefix false _ reader _ Hpos Hrem eq_refl) as (R1 & _ & _).
  dispatch_on R1 Hpos reader.
  change (0x347773c5 =? 0xf35c6d01) with false.
  change (0x347773c5 =? 0x347773c5) with true. reflexivity.
Qed.

(** What a pong does to the request it is dispatched with. *)
Lemma process_pong_live (depth : nat) (in_msg_id in_sequence : Z) (reader : BinaryReader)
    (request : ref) (updates : option ref) (s : MtProtoSender) (ping_msg_id : Z)
    (rest : bytes) :
  0 <= position reader ->
  remaining reader = pong_message ping_msg_id rest ->
  fits 8 false ping_msg_id = true ->
  let run := _process_msg (S depth) in_msg_id in_sequence reader (Some request) updates s in
  fst run = Ok (Some false, advance 8 (advance 4 reader)) /\
  confirm_received (requests (snd run) request) =
    (ping_msg_id =? msg_id (requests s request)) || confirm_received (requests s request) /\
  (forall other : ref, other <> request -> requests (snd run) other = requests s other) /\
  msg_id (requests (snd run) request) = msg_id (requests s request) /\
  responses (requests (snd run) request) = responses (requests s request) /\
  _need_confirmation (snd run) = _need_confirmation s ++ [in_msg_id] /\
  session (snd run) = session s /\
  _transport (snd run) = _transport s /\
  sinks (snd run) = sinks s.
Proof.
  intros Hpos Hrem Hfit. cbv zeta.
  rewrite (process_pong depth in_msg_id in_sequence reader (Some request) updates s
             ping_msg_id rest Hpos Hrem).
  unfold pong_message in Hrem.
  destruct (read_int_prefix false _ reader _ Hpos Hrem eq_refl) as (R1 & Hrem1 & Hpos1).
  destruct (read_long_prefix false _ _ _ Hpos1 Hrem1 Hfit) as (R2 & Hrem2 & Hpos2).
  unfold _handle_pong, noted. sender_run. rewrite R1. sender_cbn. rewrite R2. sender_cbn.
  destruct (ping_msg_id =? msg_id (requests s request)); sender_run.
  - rewrite Nat.eqb_refl. repeat split.
    intros other Hother. apply Nat.eqb_neq in Hother. rewrite Hother. reflexivity.
  - repeat split.
Qed.

(** X11. A pong dispatched with a request confirms it exactly when the id it
    echoes is the msg_id of the request: confirm_received becomes True then
    and keeps its value otherwise.  The dispatcher returns False up to the
    echoed id, notes the msg_id of the pong for acknowledgement and changes
    nothing else of the request, of other requests, of the session or of the
    transport. *)
Theorem pong_confirms_its_ping (depth : nat) (in_msg_id in_sequence : Z)
    (reader : BinaryReader) (request : ref) (updates : option ref) (s : MtProtoSender)
    (ping_msg_id : Z) (rest : bytes) :
  0 <= position reader ->
  remaining reader = pong_message ping_msg_id rest ->
  fits 8 false ping_msg_id = true ->
  let run := _process_msg (S depth) in_msg_id in_sequence reader (Some request) updates s in
  fst run = Ok (Some false, advance 8 (advance 4 reader)) /\
  confirm_received (requests (snd run) request) =
    (ping_msg_id =? msg_id (requests s request)) || confirm_received (requests s request) /\
  (forall other : ref, other <> request -> requests (snd run) other = requests s other) /\
  msg_id (requests (snd run) request) = msg_id (requests s request) /\
  responses (requests (snd run) request) = responses (requests s request) /\
  _need_confirmation (snd run) = _need_confirmation s ++ [in_msg_id] /\
  session (snd run) = session s /\
  _transport (snd run) = _transport s /\
  sinks (snd run) = sinks s.
Proof. apply process_pong_live. Qed.

End Dispatcher.

Section Acknowledgements.
Context `{Crypto} `{Clock} `{Codec} `{Taxonomy}.

(** The dispatcher reads a msgs_ack itself. *)
Lemma process_msgs_ack (depth : nat) (in_msg_id in_sequence : Z) (reader : BinaryReader)
    (request updates : option ref) (s : MtProtoSender) (rest : bytes) :
  0 <= position reader ->
  remaining reader = tagged 0x62d6b459 rest ->
  _process_msg (S depth) in_msg_id in_sequence reader request updates s =
  ('(ack, reader) <- lift (tgread_object reader) ;;
   match request with
   | None => ret tt
   | Some request =>
       r <- deref request ;;
       match ack with
       | MsgsAckObject msg_ids =>
           when (existsb (Z.eqb (msg_id r)) msg_ids)
             (logger WARNING "Ack found for the current request ID" ;;
              out <- gets logging_out ;;
              when out
                (logger INFO "Message ack confirmed the logout request" ;;
                 set_confirm_received request true))
       | UpdateObject _ _ => raise (AttributeError "msg_ids")
       end
   end ;;
   ret (Some false, reader))%sender (noted in_msg_id s).
Proof.
  intros Hpos Hrem. unfold tagged in Hrem.
  destruct (read_int_prefix false _ reader _ Hpos Hrem eq_refl) as (R1 & _ & _).
  dispatch_on R1 Hpos reader.
  change (0x62d6b459 =? 0xf35c6d01) with false.
  change (0x62d6b459 =? 0x347773c5) with false.
  change (0x62d6b459 =? 0x73f1f8dc) with false.
  change (0x62d6b459 =? 0x3072cfa1) with false.
  change (0x62d6b459 =? 0xedab447b) with false.
  change (0x62d6b459 =? 0xa7eff811) with false.
  change (0x62d6b459 =? 0x62d6b459) with true. reflexivity.
Qed.

(** X12. A msgs_ack dispatched with a request confirms it only while
    logging out: confirm_received becomes True exactly when the msg_id of the
    request is among the acknowledged ids and logging_out is set, and keeps
    its value otherwise.  The dispatcher returns False, with the reader where
    the object ended. *)
Theorem msgs_ack_confirms_logout (depth : nat) (in_msg_id in_sequence : Z)
    (reader after : BinaryReader) (request : ref) (updates : option ref)
    (s : MtProtoSender) (msg_ids : list Z) (rest : bytes) :
  0 <= position reader ->
  remaining reader = tagged 0x62d6b459 rest ->
  tgread_object reader = Ok (MsgsAckObject msg_ids, after) ->
  let run := _process_msg (S depth) in_msg_id in_sequence reader (Some request) updates s in
  fst run = Ok (Some false, after) /\
  confirm_received (requests (snd run) request) =
    (existsb (Z.eqb (msg_id (requests s request))) msg_ids && logging_out s) ||
    confirm_received (requests s request) /\
  _need_confirmation (snd run) = _need_confirmation s ++ [in_msg_id] /\
  responses (requests (snd run) request) = responses (requests s request).
Proof.
  intros Hpos Hrem Hread. cbv zeta.
  rewrite (process_msgs_ack depth in_msg_id in_sequence reader (Some request) updates s rest
             Hpos Hrem).
  unfold noted. sender_run. rewrite Hread. sender_cbn.
  destruct (existsb (Z.eqb (msg_id (requests s request))) msg_ids); sender_run;
    [destruct (logging_out s); sender_run |].
  all: rewrite ?Nat.eqb_refl; repeat split.
Qed.

(** X13. A gzip_packed message is dispatched as its inflated content, one
    frame deeper and under the same msg_id, which is thus noted for
    acknowledgement once for the wrapper and again by the inner dispatch; the
    result is that of the inner dispatch, with the reader of the wrapper left
    after the packed bytes.  With no frame left the dispatch raises. *)
Theorem gzip_packed_unwraps (depth : nat) (in_msg_id in_sequence : Z)
    (reader after : BinaryReader) (request updates : option ref) (s : MtProtoSender)
    (packed_data unpacked_data : bytes) (rest : bytes) :
  0 <= position reader ->
  remaining reader = tagged 0x3072cfa1 rest ->
  tgread_bytes (advance 4 reader) = Ok (packed_data, after) ->
  gzip_decompress packed_data = Ok unpacked_data ->
  let inner :=
    _process_msg depth in_msg_id in_sequence (BinaryReader_of unpacked_data) request updates
      (logged DEBUG "Handling gzip packed data" (noted in_msg_id s)) in
  _process_msg (S depth) in_msg_id in_sequence reader request updates s =
    (match fst inner with
     | Ok (result, _) => Ok (result, after)
     | Raise e => Raise e
     end, snd inner) /\
  (depth = 0%nat ->
   fst (_process_msg (S depth) in_msg_id in_sequence reader request updates s) =
     Raise RecursionError).
Proof.
  intros Hpos Hrem Hbytes Hgzip. cbv zeta. unfold tagged in Hrem.
  destruct (read_int_prefix false _ reader _ Hpos Hrem eq_refl) as (R1 & _ & _).
  assert (Hrun :
    _process_msg (S depth) in_msg_id in_sequence reader request updates s =
    (match fst (_process_msg depth in_msg_id in_sequence (BinaryReader_of unpacked_data)
                  request updates
                  (logged DEBUG "Handling gzip packed data" (noted in_msg_id s))) with
     | Ok (result, _) => Ok (result, after)
     | Raise e => Raise e
     end,
     snd (_process_msg depth in_msg_id in_sequence (BinaryReader_of unpacked_data)
            request updates
            (logged DEBUG "Handling gzip packed data" (noted in_msg_id s))))).
  { dispatch_on R1 Hpos reader.
    change (0x3072cfa1 =? 0xf35c6d01) with false.
    change (0x3072cfa1 =? 0x347773c5) with false.
    change (0x3072cfa1 =? 0x73f1f8dc) with false.
    change (0x3072cfa1 =? 0x3072cfa1) with true. cbv iota.
    unfold _handle_gzip_packed, logged, noted. sender_run.
    rewrite R1. sender_cbn. rewrite Hbytes. sender_cbn. rewrite Hgzip. sender_cbn.
    match goal with
    | |- context [_process_msg depth ?a ?b ?r ?q ?u ?st] =>
        destruct (_process_msg depth a b r q u st) as [[[result left] | e] s']
    end; reflexivity. }
  split; [exact Hrun |].
  intros ->. rewrite Hrun. reflexivity.
Qed.

End Acknowledgements.

(** The three fields every rpc_result starts with. *)
Ltac rpc_fields Hpos Hrem Hid Hinner :=
  let R1 := fresh "R1" in let R2 := fresh "R2" in let R3 := fresh "R3" in
  let Hrem1 := fresh "Hrem1" in let Hpos1 := fresh "Hpos1" in
  let Hrem2 := fresh "Hrem2" in let Hpos2 := fresh "Hpos2" in
  let Hrem3 := fresh "Hrem3" in let Hpos3 := fresh "Hpos3" in
  unfold rpc_result_message in Hrem;
  destruct (read_int_prefix false _ _ _ Hpos Hrem eq_refl) as (R1 & Hrem1 & Hpos1);
  destruct (read_long_prefix false _ _ _ Hpos1 Hrem1 Hid) as (R2 & Hrem2 & Hpos2);
  destruct (read_int_prefix false _ _ _ Hpos2 Hrem2 Hinner) as (R3 & Hrem3 & Hpos3);
  unfold _handle_rpc_result; sender_run;
  rewrite R1; sender_cbn; rewrite R2; sender_cbn; rewrite R3; sender_cbn.

Section RpcErrors.
Context `{Crypto} `{Clock} `{Codec} `{Taxonomy}.


End RpcErrors.

(** ** Containers *)

Lemma advance_advance (n m : Z) (reader : BinaryReader) :
  advance m (advance n reader) = advance (n + m) reader.
Proof. unfold advance. cbn [stream position]. f_equal. lia. Qed.

Section Containers.
Context `{Crypto} `{Clock} `{Codec} `{Taxonomy}.

(** A plain result that answers another msg_id than the request's is logged
    and left alone; the reader stops after the id it answers. *)
Lemma process_stale_result (depth : nat) (in_msg_id in_sequence : Z) (reader : BinaryReader)
    (request : ref) (updates : option ref) (s : MtProtoSender)
    (request_id code : Z) (rest : bytes) :
  0 <= position reader ->
  remaining reader = rpc_result_message request_id code rest ->
  fits 8 false request_id = true ->
  fits 4 false code = true ->
  request_id <> msg_id (requests s request) ->
  code <> 0x2144ca19 ->
  code <> 0x3072cfa1 ->
  _process_msg (S depth) in_msg_id in_sequence reader (Some request) updates s =
  (Ok (None, advance 8 (advance 4 reader)), stale_skipped in_msg_id s).
Proof.
  intros Hpos Hrem Hid Hcode Hother Herr Hgzip.
  rewrite (process_rpc_result depth in_msg_id in_sequence reader (Some request) updates s
             request_id code rest Hpos Hrem Hid Hcode).
  apply Z.eqb_neq in Hother, Herr, Hgzip.
  rpc_fields Hpos Hrem Hid Hcode.
  rewrite Hother, Herr, Hgzip. sender_cbn.
  rewrite (seek_back _ Hpos2). sender_cbn. rewrite Hother. reflexivity.
Qed.

Lemma stale_fields (own_msg_id : Z) (x : InnerResult) :
  stale own_msg_id x = true ->
  fits 8 false (inner_msg_id x) = true /\ fits 4 true (inner_sequence x) = true /\
  fits 4 true (len (rpc_result_message (answered_id x) (inner_code x) (inner_rest x))) = true /\
  fits 8 false (answered_id x) = true /\ fits 4 false (inner_code x) = true /\
  answered_id x <> own_msg_id /\ inner_code x <> 0x2144ca19 /\ inner_code x <> 0x3072cfa1.
Proof.
  unfold stale. intros Hs.
  do 7 (apply andb_prop in Hs; destruct Hs as [Hs ?]).
  repeat match goal with
         | Hn : negb _ = true |- _ => apply negb_true_iff in Hn; apply Z.eqb_neq in Hn
         end.
  repeat split; assumption.
Qed.

Lemma container_loop_stale (depth : nat) (in_sequence : Z) (request : ref)
    (updates : option ref) (records : list InnerResult) :
  forall (reader : BinaryReader) (s : MtProtoSender) (rest : bytes),
    0 <= position reader ->
    remaining reader = flat_map result_record records ++ rest ->
    forallb (stale (msg_id (requests s request))) records = true ->
    container_loop (_process_msg (S depth)) (List.length records) in_sequence reader
      (Some request) updates s =
    (Ok (advance (len (flat_map result_record records)) reader), all_skipped records s).
Proof.
  induction records as [|x records IH]; intros reader s rest Hpos Hrem Hall.
  - cbn [List.length container_loop flat_map all_skipped fold_left]. unfold ret.
    do 2 f_equal. unfold advance. destruct reader as [data p]. cbn. f_equal. lia.
  - cbn [forallb] in Hall. apply andb_prop in Hall. destruct Hall as [Hx Hall].
    destruct (stale_fields _ _ Hx) as (F1 & F2 & F3 & F4 & F5 & N1 & N2 & N3).
    cbn [flat_map] in Hrem. unfold result_record at 1 in Hrem. unfold inner_record in Hrem.
    rewrite <- !app_assoc in Hrem.
    destruct (read_long_prefix false _ _ _ Hpos Hrem F1) as (R1 & Hrem1 & Hpos1).
    destruct (read_int_prefix true _ _ _ Hpos1 Hrem1 F2) as (R2 & Hrem2 & Hpos2).
    destruct (read_int_prefix true _ _ _ Hpos2 Hrem2 F3) as (R3 & Hrem3 & Hpos3).
    set (body := rpc_result_message (answered_id x) (inner_code x) (inner_rest x)) in *.
    assert (Hbody : remaining (advance 4 (advance 4 (advance 8 reader))) =
                    rpc_result_message (answered_id x) (inner_code x)
                      (inner_rest x ++ flat_map result_record records ++ rest)).
    { rewrite Hrem3. unfold body, rpc_result_message. rewrite <- !app_assoc. reflexivity. }
    destruct (read_prefix (len body) _ _ _ Hpos3 Hrem3 eq_refl) as (_ & Hrem4 & Hpos4).
    cbn [List.length container_loop]. sender_run.
    rewrite R1. sender_cbn. rewrite R2. sender_cbn. rewrite R3. sender_cbn.
    rewrite (process_stale_result depth (inner_msg_id x) in_sequence _ request updates s
               (answered_id x) (inner_code x) _ Hpos3 Hbody F4 F5 N1 N2 N3).
    cbn [truthy]. unfold set_position, tell_position.
    destruct (position (advance 4 (advance 4 (advance 8 reader))) + len body <? 0) eqn:E.
    { apply Z.ltb_lt in E. cbn [position advance] in E, Hpos4. lia. }
    sender_cbn.
    change (mkReader (stream (advance 8 (advance 4 (advance 4 (advance 4 (advance 8 reader))))))
              (position (advance 4 (advance 4 (advance 8 reader))) + len body))
      with (advance (len body) (advance 4 (advance 4 (advance 8 reader)))).
    rewrite (IH _ (stale_skipped (inner_msg_id x) s) rest Hpos4 Hrem4 Hall).
    cbn [all_skipped fold_left flat_map]. f_equal. f_equal.
    rewrite !advance_advance. f_equal.
    unfold result_record at 2. unfold inner_record. fold body.
    rewrite !len_app, !len_le_split. lia.
Qed.

(** The dispatcher hands a container to its handler, one frame deeper. *)
Lemma process_container (depth : nat) (in_msg_id in_sequence : Z) (reader : BinaryReader)
    (request updates : option ref) (s : MtProtoSender) (rest : bytes) :
  0 <= position reader ->
  remaining reader = tagged 0x73f1f8dc rest ->
  _process_msg (S depth) in_msg_id in_sequence reader request updates s =
  _handle_container (_process_msg depth) in_msg_id in_sequence reader request updates
    (noted in_msg_id s).
Proof.
  intros Hpos Hrem. unfold tagged in Hrem.
  destruct (read_int_prefix false _ reader _ Hpos Hrem eq_refl) as (R1 & _ & _).
  dispatch_on R1 Hpos reader.
  change (0x73f1f8dc =? 0xf35c6d01) with false.
  change (0x73f1f8dc =? 0x347773c5) with false.
  change (0x73f1f8dc =? 0x73f1f8dc) with true. reflexivity.
Qed.

Lemma all_skipped_effects (records : list InnerResult) :
  forall s : MtProtoSender,
    _need_confirmation (all_skipped records s) =
      _need_confirmation s ++ map inner_msg_id records /\
    requests (all_skipped records s) = requests s /\
    _transport (all_skipped records s) = _transport s /\
    session (all_skipped records s) = session s /\
    sinks (all_skipped records s) = sinks s /\
    confirm_writes (all_skipped records s) = confirm_writes s.
Proof.
  induction records as [|x records IH]; intros s.
  - cbn [all_skipped fold_left map]. rewrite app_nil_r. repeat split.
  - cbn [all_skipped fold_left map].
    destruct (IH (stale_skipped (inner_msg_id x) s)) as (H1' & H2' & H3' & H4' & H5' & H6').
    unfold all_skipped in *. rewrite H1', H2', H3', H4', H5', H6'.
    unfold stale_skipped, logged, noted. sender_cbn.
    rewrite <- app_assoc. repeat split.
Qed.

(** X15. A container whose records are all plain results that answer other
    msg_ids than the request's is read to its end: the dispatcher returns
    False with the reader after the last record, the msg_id of the container
    and of every record, in order, are noted for acknowledgement, and neither
    the request (it is not confirmed, it gets no response) nor the session,
    the transport or the updates change. *)
Theorem container_skips_stale_results (depth : nat) (in_msg_id in_sequence : Z)
    (reader : BinaryReader) (request : ref) (updates : option ref) (s : MtProtoSender)
    (records : list InnerResult) (rest : bytes) :
  0 <= position reader ->
  remaining reader =
    container_message (len records) (flat_map result_record records ++ rest) ->
  fits 4 true (len records) = true ->
  forallb (stale (msg_id (requests s request))) records = true ->
  let run :=
    _process_msg (S (S depth)) in_msg_id in_sequence reader (Some request) updates s in
  run =
    (Ok (Some false, advance (8 + len (flat_map result_record records)) reader),
     all_skipped records (logged DEBUG "Handling container" (noted in_msg_id s))) /\
  _need_confirmation (snd run) =
    _need_confirmation s ++ in_msg_id :: map inner_msg_id records /\
  requests (snd run) = requests s /\
  _transport (snd run) = _transport s /\
  session (snd run) = session s /\
  sinks (snd run) = sinks s /\
  confirm_writes (snd run) = confirm_writes s.
Proof.
  intros Hpos Hrem Hsize Hall. cbv zeta.
  assert (Hrun :
    _process_msg (S (S depth)) in_msg_id in_sequence reader (Some request) updates s =
    (Ok (Some false, advance (8 + len (flat_map result_record records)) reader),
     all_skipped records (logged DEBUG "Handling container" (noted in_msg_id s)))).
  { unfold container_message in Hrem.
    destruct (read_int_prefix false _ reader _ Hpos Hrem eq_refl) as (R1 & Hrem1 & Hpos1).
    destruct (read_int_prefix true _ _ _ Hpos1 Hrem1 Hsize) as (R2 & Hrem2 & Hpos2).
    rewrite (process_container (S depth) in_msg_id in_sequence reader (Some request) updates s
               _ Hpos Hrem).
    unfold _handle_container, noted. sender_run. rewrite R1. sender_cbn. rewrite R2. sender_cbn.
    replace (Z.to_nat (len records)) with (List.length records) by (unfold len; lia).
    match goal with
    | |- context [container_loop _ _ _ ?r _ _ ?st] =>
        rewrite (container_loop_stale depth in_sequence request updates records r st rest
                   Hpos2 Hrem2 Hall)
    end.
    rewrite !advance_advance.
    replace (4 + (4 + len (flat_map result_record records)))
      with (8 + len (flat_map result_record records)) by lia.
    reflexivity. }
  rewrite Hrun. split; [reflexivity |]. cbn [snd].
  destruct (all_skipped_effects records
              (logged DEBUG "Handling container" (noted in_msg_id s)))
    as (E1 & E2 & E3 & E4 & E5 & E6).
  rewrite E1, E2, E3, E4, E5, E6. unfold logged, noted. sender_cbn.
  rewrite <- app_assoc. repeat split.
Qed.

End Containers.

(** ** Receiving *)

Section Receiving.
Context `{Crypto} `{Clock} `{Codec} `{Taxonomy}.

(** One turn of the loop, by cases on the transport and on the envelope. *)
Lemma receive_loop_timeout (turns depth : nat) (request updates : option ref)
    (s : MtProtoSender) :
  incoming (_transport s) = [] ->
  receive_loop (S turns) depth request updates s =
  (Raise TimeoutError, logged INFO "Trying to .receive() the request result..." s).
Proof.
  intros Hin. cbn [receive_loop]. unfold transport_receive, logged. sender_run.
  rewrite Hin. reflexivity.
Qed.

Lemma receive_loop_undecoded (turns depth : nat) (request updates : option ref)
    (s : MtProtoSender) (envelope : bytes) (pending : list bytes) (e : exn) :
  incoming (_transport s) = envelope :: pending ->
  decoded (session s) envelope = Raise e ->
  receive_loop (S turns) depth request updates s = (Raise e, taken pending s).
Proof.
  intros Hin Hdec. cbn [receive_loop]. unfold transport_receive, taken, logged. sender_run.
  rewrite Hin. sender_cbn. rewrite decode_msg_decoded. sender_cbn. rewrite Hdec. reflexivity.
Qed.

Lemma receive_loop_step (turns depth : nat) (request updates : option ref)
    (s : MtProtoSender) (envelope : bytes) (pending : list bytes)
    (payload : bytes) (remote_msg_id remote_sequence : Z) :
  incoming (_transport s) = envelope :: pending ->
  decoded (session s) envelope = Ok (payload, remote_msg_id, remote_sequence) ->
  receive_loop (S turns) depth request updates s =
  match _process_msg depth remote_msg_id remote_sequence (BinaryReader_of payload)
          request updates (taken pending s) with
  | (Ok _, s1) =>
      if done_with request updates s1 then (Ok tt, s1)
      else receive_loop turns depth request updates s1
  | (Raise e, s1) => (Raise e, s1)
  end.
Proof.
  intros Hin Hdec. cbn [receive_loop]. unfold transport_receive, taken, logged. sender_run.
  rewrite Hin. sender_cbn. rewrite decode_msg_decoded. sender_cbn. rewrite Hdec. sender_cbn.
  match goal with
  | |- context [_process_msg depth ?a ?b ?r ?q ?u ?st] =>
      destruct (_process_msg depth a b r q u st) as [[result | e] s1]
  end; [| reflexivity].
  unfold done_with. destruct request as [request |]; [| destruct updates as [updates |]];
    sender_run.
  - destruct (confirm_received (requests s1 request)); reflexivity.
  - destruct (negb (Nat.eqb (List.length (sinks s1 updates)) 0)); reflexivity.
  - reflexivity.
Qed.

(** receive() around its loop. *)
Lemma receive_around_loop (depth : nat) (request updates : option ref) (s : MtProtoSender) :
  request <> None \/ updates <> None ->
  receive depth request updates s =
  match receive_loop (S (List.length (incoming (_transport s)))) depth request updates
          (logged DEBUG "receive() acquired the lock" s) with
  | (Ok _, s1) => (Ok tt, received s1)
  | (Raise e, s1) => (Raise e, s1)
  end.
Proof.
  intros Hsome. unfold receive, received, logged.
  destruct request as [request |]; [| destruct updates as [updates |]].
  3: destruct Hsome; congruence.
  all: unfold bind at 1; unfold logger at 1; unfold modify at 1;
    unfold bind at 1; unfold gets at 1; unfold bind at 1; sender_cbn;
    match goal with
    | |- context [receive_loop ?t ?d ?q ?u ?st] =>
        destruct (receive_loop t d q u st) as [[[] | e] s1]
    end; reflexivity.
Qed.

(** A dispatch takes nothing off the transport. *)
Lemma process_msg_inbound (depth : nat) (in_msg_id in_sequence : Z) (reader : BinaryReader)
    (request updates : option ref) (s : MtProtoSender) :
  incoming
    (_transport (snd (_process_msg depth in_msg_id in_sequence reader request updates s))) =
  incoming (_transport s).
Proof.
  apply (process_msg_keeps inbound_kept (Stable0 := inbound_kept_stable)
           (StableEntry0 := inbound_kept_entry)).
Qed.

(** A loop that returns has met its exit test and has taken at least one
    envelope. *)
Lemma receive_loop_done (depth : nat) (request updates : option ref) (turns : nat) :
  forall s s' : MtProtoSender,
    receive_loop turns depth request updates s = (Ok tt, s') ->
    done_with request updates s' = true /\
    exists (first : bytes) (more : list bytes),
      incoming (_transport s) = first :: more ++ incoming (_transport s').
Proof.
  induction turns as [|turns IH]; intros s s' Hrun; [discriminate |].
  destruct (incoming (_transport s)) as [|envelope pending] eqn:Hin.
  { rewrite (receive_loop_timeout _ _ _ _ _ Hin) in Hrun. discriminate. }
  destruct (decoded (session s) envelope) as [[[payload mid] seq_no] | e] eqn:Hdec.
  2: { rewrite (receive_loop_undecoded _ _ _ _ _ _ _ _ Hin Hdec) in Hrun. discriminate. }
  rewrite (receive_loop_step _ _ _ _ _ _ _ _ _ _ Hin Hdec) in Hrun.
  pose proof (process_msg_inbound depth mid seq_no (BinaryReader_of payload) request updates
                (taken pending s)) as Hkept.
  destruct (_process_msg depth mid seq_no (BinaryReader_of payload) request updates
              (taken pending s)) as [[result | e] s1]; [| discriminate].
  cbn [snd] in Hkept. unfold taken, logged in Hkept. cbn [incoming _transport with_transport
    with_log] in Hkept.
  destruct (done_with request updates s1) eqn:Hdone.
  - inversion Hrun. subst s'. split; [exact Hdone |].
    exists envelope, []. rewrite <- Hkept. reflexivity.
  - destruct (IH s1 s' Hrun) as (Hd & first & more & Hmore). split; [exact Hd |].
    exists envelope, (first :: more). rewrite <- Hkept, Hmore. reflexivity.
Qed.

(** X16. A receive() that returns has met its exit test: the request it was
    called with is confirmed or, with no request, the updates list is not
    empty.  It has taken at least one envelope off the transport, all from
    the head of the queue, and it has cleared _waiting_receive. *)
Theorem receive_returns_when_done (depth : nat) (request updates : option ref)
    (s s' : MtProtoSender) :
  receive depth request updates s = (Ok tt, s') ->
  done_with request updates s' = true /\
  _waiting_receive s' = false /\
  exists (first : bytes) (more : list bytes),
    incoming (_transport s) = first :: more ++ incoming (_transport s').
Proof.
  intros Hrun.
  assert (Hsome : request <> None \/ updates <> None).
  { destruct request; [left; discriminate |]. destruct updates; [right; discriminate |].
    discriminate. }
  rewrite (receive_around_loop depth request updates s Hsome) in Hrun.
  destruct (receive_loop (S (List.length (incoming (_transport s)))) depth request updates
              (logged DEBUG "receive() acquired the lock" s)) as [[[] | e] s1] eqn:Hloop;
    [| discriminate].
  inversion Hrun. subst s'. clear Hrun.
  destruct (receive_loop_done _ _ _ _ _ _ Hloop) as (Hd & first & more & Hmore).
  split; [| split].
  - destruct request; [| destruct updates]; exact Hd.
  - reflexivity.
  - exists first, more. exact Hmore.
Qed.

(** X17. A receive() that raises never clears _waiting_receive.  Called with
    neither a request nor an updates list it raises ValueError and touches
    nothing; with nothing pending on the transport it raises TimeoutError and
    the flag is as it was; and however it raises, a flag that was set is
    still set. *)
Theorem receive_failure_keeps_waiting (depth : nat) (request updates : option ref)
    (s : MtProtoSender) :
  receive depth None None s =
    (Raise (ValueError
       "Both the request and updates parameters cannot be None at the same time."), s) /\
  (request <> None \/ updates <> None ->
   incoming (_transport s) = [] ->
   fst (receive depth request updates s) = Raise TimeoutError /\
   _waiting_receive (snd (receive depth request updates s)) = _waiting_receive s) /\
  (forall e : exn,
     fst (receive depth request updates s) = Raise e ->
     _waiting_receive s = true ->
     _waiting_receive (snd (receive depth request updates s)) = true).
Proof.
  split; [reflexivity | split].
  - intros Hsome Hin. rewrite (receive_around_loop depth request updates s Hsome).
    rewrite receive_loop_timeout by exact Hin. split; reflexivity.
  - intros e Hraise Hset.
    destruct request as [request |]; [| destruct updates as [updates |]; [| exact Hset]];
      match goal with
         | |- context [receive depth ?q ?u s] =>
             assert (Hsome : q <> None \/ u <> None) by
               (first [left; discriminate | right; discriminate]);
             rewrite (receive_around_loop depth q u s Hsome) in Hraise |- *;
             pose proof (receive_loop_keeps still_waiting (Stable0 := still_waiting_stable)
                           (StableEntry0 := still_waiting_entry) depth q u
                           still_waiting_transport_receive
                           (S (List.length (incoming (_transport s))))
                           (logged DEBUG "receive() acquired the lock" s)) as Hkept;
             destruct (receive_loop (S (List.length (incoming (_transport s)))) depth q u
                         (logged DEBUG "receive() acquired the lock" s)) as [[[] | e'] s1];
             [discriminate | exact (Hkept Hset)]
         end.
Qed.

(** X18. The loop of receive() takes one envelope per turn and the transport
    times out when none is pending, so one turn more than there are pending
    envelopes is all it ever makes: allowing it more turns changes neither
    what it returns or raises nor the state it leaves. *)
Theorem receive_loop_turns_suffice (depth : nat) (request updates : option ref)
    (turns : nat) (s : MtProtoSender) :
  (List.length (incoming (_transport s)) < turns)%nat ->
  receive_loop turns depth request updates s =
  receive_loop (S (List.length (incoming (_transport s)))) depth request updates s.
Proof.
  remember (List.length (incoming (_transport s))) as n eqn:Hn.
  revert s turns Hn. induction n as [|n IH]; intros s turns Hn Hlt.
  - destruct turns as [|turns]; [lia |].
    destruct (incoming (_transport s)) eqn:Hin; [| discriminate].
    rewrite !receive_loop_timeout by exact Hin. reflexivity.
  - destruct turns as [|turns]; [lia |].
    destruct (incoming (_transport s)) as [|envelope pending] eqn:Hin; [discriminate |].
    cbn [List.length] in Hn. injection Hn as Hn.
    destruct (decoded (session s) envelope) as [[[payload mid] seq_no] | e] eqn:Hdec.
    2: { rewrite !(receive_loop_undecoded _ _ _ _ _ _ _ _ Hin Hdec). reflexivity. }
    rewrite !(receive_loop_step _ _ _ _ _ _ _ _ _ _ Hin Hdec).
    pose proof (process_msg_inbound depth mid seq_no (BinaryReader_of payload) request
                  updates (taken pending s)) as Hkept.
    destruct (_process_msg depth mid seq_no (BinaryReader_of payload) request updates
                (taken pending s)) as [[result | e] s1]; [| reflexivity].
    cbn [snd] in Hkept. unfold taken, logged in Hkept.
    cbn [incoming _transport with_transport with_log] in Hkept.
    destruct (done_with request updates s1); [reflexivity |].
    assert (Hn1 : n = List.length (incoming (_transport s1))) by (rewrite Hkept; exact Hn).
    rewrite (IH s1 turns Hn1) by lia. reflexivity.
Qed.

End Receiving.

(** ** Receiving, end to end *)

Section EndToEnd.
Context `{Crypto} `{Clock} `{Codec} `{Taxonomy}.

(** The loop goes past the envelopes whose code is unknown, noting their
    msg_ids, as long as its exit test fails. *)
Lemma receive_loop_skips_unknown (depth : nat) (request updates : option ref)
    (turns : nat) (junk : list Inbound) :
  forall (s : MtProtoSender) (queue : list bytes),
    Forall (unknown_to (session s)) junk ->
    incoming (_transport s) = map inbound_bytes junk ++ queue ->
    done_with request updates s = false ->
    exists s1 : MtProtoSender,
      receive_loop (List.length junk + turns) (S depth) request updates s =
        receive_loop turns (S depth) request updates s1 /\
      incoming (_transport s1) = queue /\
      _need_confirmation s1 = _need_confirmation s ++ map inbound_msg_id junk /\
      requests s1 = requests s /\
      sinks s1 = sinks s /\
      session s1 = session s /\
      sent (_transport s1) = sent (_transport s) /\
      _waiting_receive s1 = _waiting_receive s.
Proof.
  induction junk as [|m junk IH]; intros s queue Hjunk Hin Hdone.
  - exists s. cbn [map app List.length Nat.add] in *. rewrite app_nil_r.
    repeat split; try reflexivity. exact Hin.
  - inversion Hjunk as [|m' junk' Hm Hrest]. subst m' junk'.
    destruct Hm as (Hdec & Hfit & Hout & Hcat).
    cbn [map app] in Hin. cbn [List.length Nat.add].
    rewrite (receive_loop_step _ _ _ _ _ _ _ _ _ _ Hin Hdec).
    rewrite (process_unlisted depth (inbound_msg_id m) (inbound_sequence m)
               (BinaryReader_of (tagged (inbound_tag m) (inbound_rest m))) request updates
               (taken (map inbound_bytes junk ++ queue) s) (inbound_tag m) (inbound_rest m)
               (Z.le_refl 0) eq_refl Hfit Hout).
    rewrite Hcat. unfold taken, logged. sender_run.
    match goal with
    | |- context [done_with request updates ?st] =>
        assert (Hdone1 : done_with request updates st = false) by exact Hdone;
        rewrite Hdone1;
        destruct (IH st queue Hrest eq_refl Hdone1)
          as (s1 & Hrun & E1 & E2 & E3 & E4 & E5 & E6 & E7)
    end.
    exists s1. split; [exact Hrun |].
    rewrite E1, E2, E3, E4, E5, E6, E7. sender_cbn. rewrite <- app_assoc.
    repeat split.
Qed.

(** A plain result that answers the request confirms it and is handed to it,
    from the inner code on. *)
Lemma process_answer (depth : nat) (in_msg_id in_sequence : Z) (reader : BinaryReader)
    (request : ref) (updates : option ref) (s : MtProtoSender) (code : Z) (rest : bytes) :
  0 <= position reader ->
  remaining reader = rpc_result_message (msg_id (requests s request)) code rest ->
  fits 8 false (msg_id (requests s request)) = true ->
  fits 4 false code = true ->
  code <> 0x2144ca19 ->
  code <> 0x3072cfa1 ->
  exists s' : MtProtoSender,
    _process_msg (S depth) in_msg_id in_sequence reader (Some request) updates s =
      (Ok (None, advance 8 (advance 4 reader)), s') /\
    responses (requests s' request) =
      responses (requests s request) ++ [le_split 4 code ++ rest] /\
    confirm_received (requests s' request) = true /\
    msg_id (requests s' request) = msg_id (requests s request) /\
    _need_confirmation s' = _need_confirmation s ++ [in_msg_id] /\
    _transport s' = _transport s /\
    session s' = session s /\
    sinks s' = sinks s /\
    _waiting_receive s' = _waiting_receive s.
Proof.
  intros Hpos Hrem Hid Hcode Herr Hgzip.
  rewrite (process_rpc_result depth in_msg_id in_sequence reader (Some request) updates s
             _ code rest Hpos Hrem Hid Hcode).
  apply Z.eqb_neq in Herr, Hgzip.
  rpc_fields Hpos Hrem Hid Hcode.
  rewrite Z.eqb_refl, Herr, Hgzip. sender_run.
  rewrite (seek_back _ Hpos2). sender_cbn. rewrite !Nat.eqb_refl. sender_cbn.
  rewrite Z.eqb_refl. sender_cbn.
  eexists. split; [reflexivity |]. sender_cbn. rewrite !Nat.eqb_refl. sender_cbn.
  rewrite Hrem2. repeat split.
Qed.

(** X19. receive(request) gets its answer: when the envelopes ahead on the
    transport carry unknown codes and the next one a plain result for the
    msg_id of the request, not yet confirmed, receive() returns; it has handed
    the request the result from its inner code on, confirmed it, noted the
    msg_id of every envelope it took for acknowledgement, left the envelopes
    behind the answer on the transport and cleared _waiting_receive. *)
Theorem receive_delivers_result (depth : nat) (request : ref) (updates : option ref)
    (s : MtProtoSender) (junk : list Inbound) (envelope : bytes) (pending : list bytes)
    (code : Z) (rest : bytes) (remote_msg_id remote_sequence : Z) :
  Forall (unknown_to (session s)) junk ->
  incoming (_transport s) = map inbound_bytes junk ++ envelope :: pending ->
  confirm_received (requests s request) = false ->
  decoded (session s) envelope =
    Ok (rpc_result_message (msg_id (requests s request)) code rest,
        remote_msg_id, remote_sequence) ->
  fits 8 false (msg_id (requests s request)) = true ->
  fits 4 false code = true ->
  code <> 0x2144ca19 ->
  code <> 0x3072cfa1 ->
  let run := receive (S depth) (Some request) updates s in
  fst run = Ok tt /\
  responses (requests (snd run) request) =
    responses (requests s request) ++ [le_split 4 code ++ rest] /\
  confirm_received (requests (snd run) request) = true /\
  _need_confirmation (snd run) =
    _need_confirmation s ++ map inbound_msg_id junk ++ [remote_msg_id] /\
  incoming (_transport (snd run)) = pending /\
  sent (_transport (snd run)) = sent (_transport s) /\
  _waiting_receive (snd run) = false.
Proof.
  intros Hjunk Hin Hfresh Hdec Hid Hcode Herr Hgzip. cbv zeta.
  assert (Hsome : Some request <> None \/ updates <> None) by (left; discriminate).
  rewrite (receive_around_loop (S depth) (Some request) updates s Hsome).
  replace (S (List.length (incoming (_transport s))))
    with (List.length junk + S (S (List.length pending)))%nat
    by (rewrite Hin, length_app, length_map; cbn [List.length]; lia).
  destruct (receive_loop_skips_unknown depth (Some request) updates
              (S (S (List.length pending))) junk
              (logged DEBUG "receive() acquired the lock" s) (envelope :: pending)
              Hjunk Hin Hfresh)
    as (s1 & Hrun & E1 & E2 & E3 & E4 & E5 & E6 & E7).
  rewrite Hrun. clear Hrun.
  assert (Hdec1 : decoded (session s1) envelope =
                  Ok (rpc_result_message (msg_id (requests s1 request)) code rest,
                      remote_msg_id, remote_sequence)).
  { rewrite E5, E3. exact Hdec. }
  assert (Hid1 : fits 8 false (msg_id (requests s1 request)) = true).
  { rewrite E3. exact Hid. }
  rewrite (receive_loop_step _ _ _ _ _ _ _ _ _ _ E1 Hdec1).
  destruct (process_answer depth remote_msg_id remote_sequence
              (BinaryReader_of (rpc_result_message (msg_id (requests s1 request)) code rest))
              request updates (taken pending s1) code rest (Z.le_refl 0) eq_refl Hid1 Hcode
              Herr Hgzip)
    as (s2 & Hrun & A1 & A2 & A3 & A4 & A5 & A6 & A7 & A8).
  rewrite Hrun. cbn [done_with]. rewrite A2. cbn [fst snd].
  unfold received, logged. sender_cbn.
  rewrite A1, A2, A4, A5. unfold taken, logged. sender_cbn.
  rewrite E2, E3, E6. sender_cbn. rewrite <- app_assoc.
  repeat split.
Qed.

(** X20. receive_update() returns the first object of the catalog that
    arrives: the envelopes ahead of it whose code is unknown are taken off the
    transport and dropped, the object is the only element of the updates list,
    the msg_id of every envelope taken is noted for acknowledgement, and the
    envelopes behind the update stay on the transport. *)
Theorem receive_update_returns_first_update (depth : nat) (updates : ref)
    (s : MtProtoSender) (junk : list Inbound) (envelope : bytes) (pending : list bytes)
    (tag : Z) (rest : bytes) (remote_msg_id remote_sequence : Z)
    (result : TLObject) (after : BinaryReader) :
  Forall (unknown_to (session s)) junk ->
  incoming (_transport s) = map inbound_bytes junk ++ envelope :: pending ->
  decoded (session s) envelope = Ok (tagged tag rest, remote_msg_id, remote_sequence) ->
  fits 4 false tag = true ->
  ~ In tag manual_tags ->
  tlobjects tag = true ->
  tgread_object (BinaryReader_of (tagged tag rest)) = Ok (result, after) ->
  let run := receive_update (S depth) updates s in
  fst run = Ok result /\
  sinks (snd run) updates = [result] /\
  _need_confirmation (snd run) =
    _need_confirmation s ++ map inbound_msg_id junk ++ [remote_msg_id] /\
  incoming (_transport (snd run)) = pending /\
  _waiting_receive (snd run) = false.
Proof.
  intros Hjunk Hin Hdec Hfit Hout Hcat Hread. cbv zeta.
  assert (Hrun :
    exists s' : MtProtoSender,
      receive_update (S depth) updates s = (Ok result, s') /\
      sinks s' updates = [result] /\
      _need_confirmation s' =
        _need_confirmation s ++ map inbound_msg_id junk ++ [remote_msg_id] /\
      incoming (_transport s') = pending /\
      _waiting_receive s' = false).
  { unfold receive_update. unfold bind at 1. unfold modify at 1. unfold bind at 1.
    set (s0 := with_sink updates (fun _ => []) s).
    assert (Hempty : sinks s0 updates = []).
    { unfold s0. sender_cbn. rewrite Nat.eqb_refl. reflexivity. }
    assert (Hin0 : incoming (_transport s0) = map inbound_bytes junk ++ envelope :: pending)
      by exact Hin.
    assert (Hjunk0 : Forall (unknown_to (session s0)) junk) by exact Hjunk.
    assert (Hdec0 : decoded (session s0) envelope =
                    Ok (tagged tag rest, remote_msg_id, remote_sequence)) by exact Hdec.
    assert (Hneed0 : _need_confirmation s0 = _need_confirmation s) by reflexivity.
    clearbody s0.
    assert (Hsome : @None ref <> None \/ Some updates <> None) by (right; discriminate).
    rewrite (receive_around_loop (S depth) None (Some updates) s0 Hsome).
    replace (S (List.length (incoming (_transport s0))))
      with (List.length junk + S (S (List.length pending)))%nat
      by (rewrite Hin0, length_app, length_map; cbn [List.length]; lia).
    assert (Hdone : done_with None (Some updates)
                      (logged DEBUG "receive() acquired the lock" s0) = false).
    { unfold done_with, logged. sender_cbn. rewrite Hempty. reflexivity. }
    destruct (receive_loop_skips_unknown depth None (Some updates)
                (S (S (List.length pending))) junk
                (logged DEBUG "receive() acquired the lock" s0) (envelope :: pending)
                Hjunk0 Hin0 Hdone)
      as (s1 & Hloop & E1 & E2 & E3 & E4 & E5 & E6 & E7).
    rewrite Hloop. clear Hloop.
    unfold logged in E2, E3, E4, E5, E6, E7.
    cbn [sinks with_log _need_confirmation requests session _transport _waiting_receive]
      in E2, E3, E4, E5, E6, E7.
    assert (Hdec1 : decoded (session s1) envelope =
                    Ok (tagged tag rest, remote_msg_id, remote_sequence)).
    { rewrite E5. exact Hdec0. }
    rewrite (receive_loop_step _ _ _ _ _ _ _ _ _ _ E1 Hdec1).
    rewrite (process_unlisted depth remote_msg_id remote_sequence
               (BinaryReader_of (tagged tag rest)) None (Some updates)
               (taken pending s1) tag rest (Z.le_refl 0) eq_refl Hfit Hout).
    rewrite Hcat. unfold taken, logged. sender_run. rewrite Hread. sender_cbn.
    unfold done_with. sender_cbn. rewrite !Nat.eqb_refl, E4. unfold logged. sender_cbn.
    rewrite Hempty. cbn [app List.length Nat.eqb negb].
    unfold received, logged. sender_run. rewrite ?Nat.eqb_refl, ?E4. sender_cbn.
    rewrite ?Hempty. cbn [app].
    eexists. split; [reflexivity |]. sender_cbn. rewrite ?Nat.eqb_refl, ?E2, ?E4. sender_cbn.
    rewrite ?Hempty, ?Hneed0, <- ?app_assoc. repeat split. }
  destruct Hrun as (s' & -> & Hrest). exact (conj eq_refl Hrest).
Qed.

End EndToEnd.

(** ** Pinging *)

Section Pinging.
Context `{Crypto} `{Clock} `{Codec} `{Taxonomy} `{Functions}.

Lemma decoded_same_key (x1 x2 : Session) (envelope : bytes) :
  auth_key x1 = auth_key x2 -> decoded x1 envelope = decoded x2 envelope.
Proof. intros Hkey. unfold decoded. rewrite Hkey. reflexivity. Qed.

(** X21. send_ping() sends a new PingRequest and receives for it: when the
    send returns and the next envelope on the transport is a pong that echoes
    the msg_id the send gave the ping, send_ping() returns with the ping
    confirmed, having taken that one envelope, transmitted nothing after the
    send and cleared _waiting_receive. *)
Theorem send_ping_confirmed (depth : nat) (ping_id : Z) (s s1 : MtProtoSender)
    (envelope : bytes) (pending : list bytes) (rest : bytes)
    (remote_msg_id remote_sequence : Z) :
  let ping := next_ref s in
  send ping (snd (new_object (PingRequest ping_id) s)) = (Ok tt, s1) ->
  incoming (_transport s) = envelope :: pending ->
  decoded (session s) envelope =
    Ok (pong_message (msg_id (requests s1 ping)) rest, remote_msg_id, remote_sequence) ->
  fits 8 false (msg_id (requests s1 ping)) = true ->
  let run := send_ping (S depth) ping_id s in
  fst run = Ok tt /\
  confirm_received (requests (snd run) ping) = true /\
  incoming (_transport (snd run)) = pending /\
  sent (_transport (snd run)) = sent (_transport s1) /\
  _need_confirmation (snd run) = [remote_msg_id] /\
  _waiting_receive (snd run) = false.
Proof.
  intros ping Hsend Hin Hdec Hfit. cbv zeta. subst ping.
  pose proof (send_keeps identity_kept (Stable0 := identity_kept_stable)
                (StableEntry0 := identity_kept_entry) (next_ref s)
                (snd (new_object (PingRequest ping_id) s))) as Hkept.
  pose proof (send_keeps inbound_kept (Stable0 := inbound_kept_stable)
                (StableEntry0 := inbound_kept_entry) (next_ref s)
                (snd (new_object (PingRequest ping_id) s))) as Hinbound.
  assert (Hlive : (next_ref s < next_ref (snd (new_object (PingRequest ping_id) s)))%nat).
  { unfold new_object. sender_cbn. lia. }
  destruct (send_effects (next_ref s) _ s1 Hlive Hsend) as (Hneed & _).
  rewrite Hsend in Hkept, Hinbound. cbn [snd] in Hkept, Hinbound.
  destruct Hkept as [_ Hkey _ _].
  unfold inbound_kept, new_object in Hinbound. cbn [snd] in Hinbound.
  unfold new_object in Hkey. cbn [snd] in Hkey.
  cbn [with_next_ref with_request session _transport] in Hkey, Hinbound.
  assert (Hin1 : incoming (_transport s1) = envelope :: pending) by congruence.
  assert (Hdec1 : decoded (session s1) envelope =
                  Ok (pong_message (msg_id (requests s1 (next_ref s))) rest,
                      remote_msg_id, remote_sequence)).
  { rewrite (decoded_same_key (session s1) (session s) envelope Hkey). exact Hdec. }
  assert (Hrun :
    exists s' : MtProtoSender,
      send_ping (S depth) ping_id s = (Ok tt, s') /\
      confirm_received (requests s' (next_ref s)) = true /\
      incoming (_transport s') = pending /\
      sent (_transport s') = sent (_transport s1) /\
      _need_confirmation s' = [remote_msg_id] /\
      _waiting_receive s' = false);
    [| destruct Hrun as (s' & -> & Hrest); exact (conj eq_refl Hrest)].
  unfold send_ping. unfold bind at 1.
  change (new_object (PingRequest ping_id) s)
    with (Ok (next_ref s), snd (new_object (PingRequest ping_id) s)).
  cbv iota. unfold bind at 1. rewrite Hsend.
  assert (Hsome : Some (next_ref s) <> None \/ @None ref <> None) by (left; discriminate).
  rewrite (receive_around_loop (S depth) (Some (next_ref s)) None s1 Hsome).
  assert (Hin2 : incoming (_transport (logged DEBUG "receive() acquired the lock" s1)) =
                 envelope :: pending) by exact Hin1.
  assert (Hdec2 : decoded (session (logged DEBUG "receive() acquired the lock" s1)) envelope =
                  Ok (pong_message (msg_id (requests s1 (next_ref s))) rest,
                      remote_msg_id, remote_sequence)) by exact Hdec1.
  rewrite Hin1. cbn [List.length].
  rewrite (receive_loop_step _ _ _ _ _ _ _ _ _ _ Hin2 Hdec2).
  destruct (process_pong_live depth remote_msg_id remote_sequence
              (BinaryReader_of (pong_message (msg_id (requests s1 (next_ref s))) rest))
              (next_ref s) None (taken pending (logged DEBUG "receive() acquired the lock" s1))
              (msg_id (requests s1 (next_ref s))) rest (Z.le_refl 0) eq_refl Hfit)
    as (P1 & P2 & _ & _ & _ & P6 & _ & P8 & _).
  match type of P1 with
  | fst ?r = _ => destruct r as [[result | e] s2]
  end; cbn [fst snd] in *; [| discriminate].
  unfold taken, logged in P2, P6, P8.
  cbn [requests with_transport with_log _need_confirmation _transport] in P2, P6, P8.
  rewrite Z.eqb_refl in P2. cbn [orb] in P2.
  cbn [done_with]. rewrite P2.
  eexists. split; [reflexivity |].
  unfold received, logged. sender_cbn. rewrite P2, P6, P8, Hneed. sender_cbn.
  repeat split.
Qed.

End Pinging.

(** * Connection, update handlers and the updates thread *)

Lemma threads_known_set (running : bool) (c : Coordinator) :
  threads_known c ->
  (running = true -> _updates_thread_running c = false ->
   forall thread, _updates_thread c = Some thread -> ~ In thread (threads_started c)) ->
  threads_known (_set_updates_thread running c).
Proof.
  intros Hknown Hfresh. unfold _set_updates_thread.
  destruct (_updates_thread c) as [thread |] eqn:Hthread; [| exact Hknown].
  destruct (Bool.eqb running (_updates_thread_running c)) eqn:Hsame; [exact Hknown |].
  destruct Hknown as (Hcur & Hstarted & Hnodup).
  assert (Hcur' : forall t, Some thread = Some t -> (t < threads_created c)%nat).
  { intros t [= <-]. apply Hcur. exact Hthread. }
  destruct running.
  - destruct (_updates_thread_running c) eqn:Hrun; [discriminate |].
    unfold threads_known. cbn. rewrite ?Hthread. repeat split.
    + exact Hcur'.
    + intros t Ht. apply in_app_or in Ht. destruct Ht as [Ht | [<- | []]].
      * apply Hstarted. exact Ht.
      * apply Hcur. exact Hthread.
    + apply NoDup_app.
      * exact Hnodup.
      * constructor; [intros [] | constructor].
      * intros t Ht [<- | []]. apply (Hfresh eq_refl eq_refl thread eq_refl). exact Ht.
  - unfold threads_known.
    destruct (_updates_thread_receiving _); cbn; rewrite ?Hthread; repeat split; assumption.
Qed.

Lemma threads_known_perform (op : call) (c : Coordinator) :
  threads_known c -> threads_known (perform op c).
Proof.
  intros Hknown. destruct op; cbn [perform].
  - exact Hknown.
  - unfold disconnect. apply (threads_known_set false c Hknown). discriminate.
  - unfold reconnect, connect, disconnect.
    apply (threads_known_set false c Hknown). discriminate.
  - unfold setup_ping_thread. destruct Hknown as (Hcur & Hstarted & Hnodup).
    apply threads_known_set.
    + unfold threads_known, new_thread. cbn. repeat split.
      * intros thread [= <-]. lia.
      * intros thread Ht. specialize (Hstarted thread Ht). lia.
      * exact Hnodup.
    + intros _ _ thread [= <-] Hin. cbn in Hin.
      specialize (Hstarted _ Hin). lia.
  - exact Hknown.
  - unfold remove_update_handler.
    destruct (list_remove handler (_on_update_handlers c)); exact Hknown.
Qed.

Lemma threads_known_perform_all (ops : list call) :
  forall c : Coordinator, threads_known c -> threads_known (perform_all ops c).
Proof.
  induction ops as [|op ops IH]; intros c Hknown; [exact Hknown |].
  cbn [perform_all fold_left]. apply IH, threads_known_perform, Hknown.
Qed.

(** X22. Whatever public methods are called on a new sender and in whatever
    order, start() is never called twice on the same Thread object: the
    threads started are all different, each one was created by
    setup_ping_thread, and so is the Thread the sender holds. *)
Theorem no_thread_started_twice (ops : list call) (s : MtProtoSender) :
  let c := perform_all ops (coordinator0 s) in
  NoDup (threads_started c) /\
  (forall thread, In thread (threads_started c) -> (thread < threads_created c)%nat) /\
  (forall thread, _updates_thread c = Some thread -> (thread < threads_created c)%nat).
Proof.
  cbv zeta.
  assert (Hknown : threads_known (coordinator0 s)).
  { unfold threads_known, coordinator0. cbn. repeat split.
    - discriminate.
    - intros thread [].
    - constructor. }
  destruct (threads_known_perform_all ops _ Hknown) as (Hcur & Hstarted & Hnodup).
  repeat split; assumption.
Qed.

(** X23. setup_ping_thread() always replaces the Thread the sender holds by
    a new one, but starts it only if the running flag was clear: while the
    flag is set the new Thread is held and never started, nothing is logged,
    and the flag goes on standing for the Thread that was replaced. *)
Theorem setup_ping_thread_starts_once (c : Coordinator) :
  let c' := setup_ping_thread c in
  _updates_thread c' = Some (threads_created c) /\
  _updates_thread_running c' = true /\
  threads_started c' =
    (if _updates_thread_running c then threads_started c
     else threads_started c ++ [threads_created c]) /\
  (_updates_thread_running c = true -> sender c' = sender c) /\
  threads_started (setup_ping_thread c') = threads_started c'.
Proof.
  cbv zeta. unfold setup_ping_thread, _set_updates_thread, new_thread. cbn.
  destruct (_updates_thread_running c); cbn; repeat split; discriminate.
Qed.

(** X24. disconnect() stops the updates thread and closes the transport:
    with a Thread whose running flag is set it clears the flag, logs the
    change and cancels the receive in progress exactly when
    _updates_thread_receiving is set; with no Thread, or with the flag clear,
    it only closes the transport.  It starts no thread, and a second
    disconnect() changes nothing more. *)
Theorem disconnect_stops_updates_thread (c : Coordinator) :
  let c' := disconnect c in
  connected c' = false /\
  threads_started c' = threads_started c /\
  (_updates_thread c <> None -> _updates_thread_running c' = false) /\
  cancelled (_transport (sender c')) =
    (match _updates_thread c with
     | Some _ =>
         if _updates_thread_running c && _updates_thread_receiving (sender c)
         then S (cancelled (_transport (sender c)))
         else cancelled (_transport (sender c))
     | None => cancelled (_transport (sender c))
     end) /\
  (_updates_thread c = None \/ _updates_thread_running c = false ->
   sender c' = sender c) /\
  disconnect c' = c'.
Proof.
  cbv zeta. unfold disconnect, _set_updates_thread.
  destruct c as [s conn handlers thread running created started]. cbn.
  destruct thread as [thread |]; cbn.
  - destruct running; cbn.
    + destruct (_updates_thread_receiving s) eqn:Hreceiving; cbn; rewrite ?Hreceiving;
        repeat split; try discriminate; intros [? | ?]; discriminate.
    + repeat split; intros; reflexivity.
  - repeat split; try reflexivity. intros Habsurd. congruence.
Qed.

Lemma list_remove_absent (x : nat) (l : list nat) :
  ~ In x l -> list_remove x l = None.
Proof.
  induction l as [|y l IH]; intros Hout; [reflexivity |].
  cbn [list_remove]. destruct (Nat.eqb_spec y x) as [-> | Hne].
  - exfalso. apply Hout. left. reflexivity.
  - rewrite IH; [reflexivity |]. intros Hin. apply Hout. right. exact Hin.
Qed.

Lemma list_remove_present (x : nat) (l : list nat) :
  In x l ->
  exists before after : list nat,
    l = before ++ x :: after /\ ~ In x before /\ list_remove x l = Some (before ++ after).
Proof.
  induction l as [|y l IH]; intros Hin; [destruct Hin |].
  cbn [list_remove]. destruct (Nat.eqb_spec y x) as [-> | Hne].
  - exists [], l. repeat split. intros [].
  - destruct Hin as [-> | Hin]; [congruence |].
    destruct (IH Hin) as (before & after & -> & Hout & ->).
    exists (y :: before), after. repeat split.
    intros [-> | Hb]; [congruence | exact (Hout Hb)].
Qed.

Lemma list_remove_added (x : nat) (l : list nat) :
  ~ In x l -> list_remove x (l ++ [x]) = Some l.
Proof.
  induction l as [|y l IH]; intros Hout.
  - cbn. rewrite Nat.eqb_refl. reflexivity.
  - cbn [app list_remove]. destruct (Nat.eqb_spec y x) as [-> | Hne].
    + exfalso. apply Hout. left. reflexivity.
    + rewrite IH; [reflexivity |]. intros Hin. apply Hout. right. exact Hin.
Qed.

(** X25. remove_update_handler(h) removes the first occurrence of h and
    nothing else, and raises ValueError, changing nothing, when h is not among
    the handlers; a handler that was added twice is still there after one
    removal.  Removing a handler right after adding it gives back the sender
    as it was if the handler was not there before. *)
Theorem update_handlers_add_remove (handler : nat) (c : Coordinator) :
  (~ In handler (_on_update_handlers c) ->
   remove_update_handler handler c =
     (Raise (ValueError "list.remove(x): x not in list"), c) /\
   remove_update_handler handler (add_update_handler handler c) = (Ok tt, c)) /\
  (In handler (_on_update_handlers c) ->
   exists before after : list nat,
     _on_update_handlers c = before ++ handler :: after /\
     ~ In handler before /\
     remove_update_handler handler c =
       (Ok tt, with_handlers (fun _ => before ++ after) c)) /\
  In handler
    (_on_update_handlers
       (snd (remove_update_handler handler
               (add_update_handler handler (add_update_handler handler c))))).
Proof.
  split; [| split].
  - intros Hout. unfold remove_update_handler, add_update_handler. cbn.
    rewrite (list_remove_absent _ _ Hout), (list_remove_added _ _ Hout).
    split; [reflexivity |]. destruct c; reflexivity.
  - intros Hin. destruct (list_remove_present _ _ Hin) as (before & after & Hl & Hout & Hr).
    exists before, after. unfold remove_update_handler. rewrite Hr. repeat split; assumption.
  - unfold remove_update_handler, add_update_handler. cbn.
    assert (Hin : In handler ((_on_update_handlers c ++ [handler]) ++ [handler])).
    { apply in_or_app. right. left. reflexivity. }
    destruct (list_remove_present _ _ Hin) as (before & after & Hl & Hout & Hr).
    rewrite Hr. cbn.
    assert (Hmid : In handler (_on_update_handlers c ++ [handler])).
    { apply in_or_app. right. left. reflexivity. }
    destruct after as [|a after].
    + exfalso. apply Hout.
      assert (Hb : before = _on_update_handlers c ++ [handler]).
      { apply (app_inj_tail before (_on_update_handlers c ++ [handler]) handler handler).
        symmetry. exact Hl. }
      rewrite Hb. exact Hmid.
    + assert (Hlast : exists after', a :: after = after' ++ [handler]).
      { destruct (exists_last (l := a :: after)) as (after' & z & Hz); [discriminate |].
        exists after'. rewrite Hz in Hl. rewrite Hz.
        change (before ++ handler :: after' ++ [z])
          with (before ++ (handler :: after') ++ [z]) in Hl.
        rewrite app_assoc in Hl. apply app_inj_tail in Hl. destruct Hl as [_ <-].
        reflexivity. }
      destruct Hlast as (after' & ->). apply in_or_app. right.
      apply in_or_app. right. left. reflexivity.
Qed.

(** * The properties on concrete senders *)

(** Two sends around the dispatch of an unknown message, with two ids
    pending at the start and a clock that steps by four. *)
Lemma msg_ids_increase_witness :
  let s := sender0 5 3 100 [11; 12] request0 in
  let s1 := snd (@send loopback_crypto stepping_clock plain_codec 0%nat s) in
  let between :=
    snd (@_process_msg loopback_crypto stepping_clock plain_codec see_other 1 204 8
           (BinaryReader_of (tagged 0x11223344 [])) None None s1) in
  let s2 := snd (@send loopback_crypto stepping_clock plain_codec 0%nat between) in
  last_msg_id (session s) < msg_id (requests s1 0%nat) /\
  msg_id (requests s1 0%nat) = last_msg_id (session s1) /\
  msg_id (requests s1 0%nat) < msg_id (requests s2 0%nat) /\
  last_msg_id (session s) <=
    last_msg_id
      (session
         (snd (@receive loopback_crypto stepping_clock plain_codec see_other 1 None None s))).
Proof.
  intros s s1 between s2.
  apply (@msg_ids_increase loopback_crypto stepping_clock plain_codec see_other 1 204 8
           (BinaryReader_of (tagged 0x11223344 [])) 0%nat 0%nat None None s s1 s2).
  - intros x. cbn. lia.
  - vm_compute. lia.
  - vm_compute. reflexivity.
  - vm_compute. lia.
  - vm_compute. reflexivity.
Defined.

(** The envelope of scenario S1 under two different auth_key_ids. *)
Lemma decode_ignores_auth_key_id_witness :
  let s := sender0 5 3 100 [] request0 in
  let rest := skipn 8 good_envelope in
  fst (@_decode_msg loopback_crypto (le_split 8 9 ++ rest) s) =
  fst (@_decode_msg loopback_crypto (le_split 8 77 ++ rest) s) /\
  snd (@_decode_msg loopback_crypto (le_split 8 9 ++ rest) s) = s.
Proof.
  intros s rest.
  apply (@decode_ignores_auth_key_id loopback_crypto (le_split 8 9) (le_split 8 77) rest s s);
    reflexivity.
Defined.

(** The same message under the salt and session id of the session, and under
    others. *)
Lemma decode_ignores_salt_and_session_witness :
  let s := sender0 5 3 100 [] request0 in
  let tail :=
    le_split 8 104 ++ le_split 4 7 ++ le_split 4 2 ++ [Byte.x01; Byte.x02] in
  let foreign := repeat Byte.x00 24 ++ (le_split 8 99 ++ le_split 8 42) ++ tail in
  fst (@_decode_msg loopback_crypto good_envelope s) =
  fst (@_decode_msg loopback_crypto foreign s).
Proof.
  intros s tail foreign.
  apply (@decode_ignores_salt_and_session loopback_crypto good_envelope foreign
           (le_split 8 5 ++ le_split 8 7) (le_split 8 99 ++ le_split 8 42) tail s s).
  - vm_compute. discriminate.
  - vm_compute. discriminate.
  - vm_compute. reflexivity.
  - vm_compute. reflexivity.
  - reflexivity.
  - reflexivity.
Defined.


(** A content-related request sent with two ids pending. *)
Lemma send_counts_and_saves_witness :
  let s := sender0 5 3 100 [11; 12] request0 in
  let s' := snd (@send loopback_crypto stepping_clock plain_codec 0%nat s) in
  sequence (session s') =
    (if confirmed (requests s 0%nat) then sequence (session s) + 1
     else sequence (session s)) /\
  saved s' = saved s ++ [session s'] /\
  requests s' 0%nat =
    with_msg_id (@request_msg_id stepping_clock s) (requests s 0%nat).
Proof.
  intros s s'.
  apply (@send_counts_and_saves loopback_crypto stepping_clock plain_codec 0%nat s s').
  - vm_compute. lia.
  - vm_compute. reflexivity.
Defined.


Lemma sample_tags_not_manual : ~ In 0x11223344 manual_tags /\ ~ In 0x74ae4240 manual_tags.
Proof.
  split; intros Hin; unfold manual_tags in Hin; cbn [In] in Hin;
    repeat (destruct Hin as [Hin | Hin]; [discriminate |]); exact Hin.
Qed.

(** A message nobody knows, and an object of the catalog. *)
Lemma unlisted_message_witness :
  let s := sender0 5 3 100 [] request100 in
  let unknown := BinaryReader_of (tagged 0x11223344 [Byte.x09]) in
  let update := BinaryReader_of (tagged 0x74ae4240 [Byte.x03]) in
  @_process_msg loopback_crypto stepping_clock catalog_codec see_other 1 201 2 unknown
    (Some 0%nat) (Some 1%nat) s =
    (Ok (Some false, unknown), dropped 201 s) /\
  @_process_msg loopback_crypto stepping_clock catalog_codec see_other 1 206 10 update
    (Some 0%nat) (Some 1%nat) s =
    (Ok (Some false, advance 4 update),
     with_sink 1%nat (fun l => l ++ [UpdateObject 0x74ae4240 [Byte.x03]])
       (logged DEBUG "Read update for %s" (noted 206 s))).
Proof.
  intros s unknown update. split.
  - apply (proj1 (@unlisted_message loopback_crypto stepping_clock catalog_codec see_other
                    0%nat 201 2 unknown (Some 0%nat) s 0x11223344 [Byte.x09]
                    (Z.le_refl 0) eq_refl eq_refl (proj1 sample_tags_not_manual))).
    reflexivity.
  - apply (proj2 (@unlisted_message loopback_crypto stepping_clock catalog_codec see_other
                    0%nat 206 10 update (Some 0%nat) s 0x74ae4240 [Byte.x03]
                    (Z.le_refl 0) eq_refl eq_refl (proj2 sample_tags_not_manual))).
    + reflexivity.
    + vm_compute. reflexivity.
Defined.

(** A pong for the request 100, and one for another ping. *)
Lemma pong_confirms_its_ping_witness :
  let s := sender0 5 3 100 [] request100 in
  let reader := BinaryReader_of (pong_message 100 (le_split 8 1)) in
  let run :=
    @_process_msg loopback_crypto stepping_clock plain_codec see_other 1 204 8 reader
      (Some 0%nat) None s in
  fst run = Ok (Some false, advance 8 (advance 4 reader)) /\
  confirm_received (requests (snd run) 0%nat) = true /\
  _need_confirmation (snd run) = [204].
Proof.
  intros s reader run.
  destruct (@pong_confirms_its_ping loopback_crypto stepping_clock plain_codec see_other
              0%nat 204 8 reader 0%nat None s 100 (le_split 8 1)
              (Z.le_refl 0) eq_refl eq_refl)
    as (Hreturn & Hconfirmed & _ & _ & _ & Hnoted & _).
  split; [exact Hreturn | split; [exact Hconfirmed | exact Hnoted]].
Defined.

(** A msgs_ack for the ids 100 and 7, while logging out. *)
Lemma msgs_ack_confirms_logout_witness :
  let s := sender1 true false [] request100 in
  let reader := BinaryReader_of (@MsgsAck_on_send plain_codec [100; 7]) in
  let run :=
    @_process_msg loopback_crypto stepping_clock catalog_codec see_other 1 204 8 reader
      (Some 0%nat) None s in
  fst run = Ok (Some false, advance 28 reader) /\
  confirm_received (requests (snd run) 0%nat) =
    (existsb (Z.eqb (msg_id (requests s 0%nat))) [100; 7] && logging_out s) ||
    confirm_received (requests s 0%nat) /\
  _need_confirmation (snd run) = _need_confirmation s ++ [204] /\
  responses (requests (snd run) 0%nat) = responses (requests s 0%nat).
Proof.
  intros s reader run.
  apply (@msgs_ack_confirms_logout loopback_crypto stepping_clock catalog_codec see_other
           0%nat 204 8 reader (advance 28 reader) 0%nat None s [100; 7]
           (le_split 4 0x1cb5c415 ++ le_split 4 2 ++ le_split 8 100 ++ le_split 8 7)).
  - apply Z.le_refl.
  - reflexivity.
  - vm_compute. reflexivity.
Defined.

(** A gzip_packed message around a pong for the request 100. *)
Lemma gzip_packed_unwraps_witness :
  let s := sender0 5 3 100 [] request100 in
  let reader := BinaryReader_of packed_pong in
  let inner :=
    @_process_msg loopback_crypto stepping_clock plain_codec see_other 1 204 8
      (BinaryReader_of (pong_message 100 (le_split 8 1))) (Some 0%nat) None
      (logged DEBUG "Handling gzip packed data" (noted 204 s)) in
  @_process_msg loopback_crypto stepping_clock plain_codec see_other 2 204 8 reader
    (Some 0%nat) None s =
    (match fst inner with
     | Ok (result, _) => Ok (result, advance 25 reader)
     | Raise e => Raise e
     end, snd inner) /\
  _need_confirmation (snd inner) = [204; 204] /\
  confirm_received (requests (snd inner) 0%nat) = true.
Proof.
  intros s reader inner. split; [| split; vm_compute; reflexivity].
  apply (proj1 (@gzip_packed_unwraps loopback_crypto stepping_clock plain_codec see_other
                  1%nat 204 8 reader (advance 25 reader) (Some 0%nat) None s
                  (pong_message 100 (le_split 8 1)) (pong_message 100 (le_split 8 1))
                  (Byte.x14 :: pong_message 100 (le_split 8 1))
                  (Z.le_refl 0) eq_refl eq_refl eq_refl)).
Defined.


(** A container of two results for requests of an earlier session, received
    while waiting for the answer to the request 100. *)
Lemma container_skips_stale_results_witness :
  let s := sender0 5 3 100 [] request100 in
  let reader :=
    BinaryReader_of (container_message 2 (flat_map result_record stale_results ++ [])) in
  let run :=
    @_process_msg loopback_crypto stepping_clock plain_codec see_other 2 204 8 reader
      (Some 0%nat) None s in
  run =
    (Ok (Some false, advance (8 + len (flat_map result_record stale_results)) reader),
     all_skipped stale_results (logged DEBUG "Handling container" (noted 204 s))) /\
  _need_confirmation (snd run) =
    _need_confirmation s ++ 204 :: map inner_msg_id stale_results /\
  requests (snd run) = requests s /\
  _transport (snd run) = _transport s /\
  session (snd run) = session s /\
  sinks (snd run) = sinks s /\
  confirm_writes (snd run) = confirm_writes s.
Proof.
  intros s reader run.
  apply (@container_skips_stale_results loopback_crypto stepping_clock plain_codec see_other
           0%nat 204 8 reader 0%nat None s stale_results []).
  - apply Z.le_refl.
  - reflexivity.
  - reflexivity.
  - reflexivity.
Defined.

(** The answer to the request 100 behind a message nobody knows. *)
Lemma receive_returns_when_done_witness :
  let s := sender1 false false [inbound_bytes unknown_inbound; answer_envelope] request100 in
  let s' :=
    snd (@receive loopback_crypto stepping_clock plain_codec see_other 1 (Some 0%nat) None s) in
  done_with (Some 0%nat) None s' = true /\
  _waiting_receive s' = false /\
  exists (first : bytes) (more : list bytes),
    incoming (_transport s) = first :: more ++ incoming (_transport s').
Proof.
  intros s s'.
  apply (@receive_returns_when_done loopback_crypto stepping_clock plain_codec see_other
           1%nat (Some 0%nat) None s s').
  vm_compute. reflexivity.
Defined.

(** A receive on a transport with nothing pending, after a send. *)
Lemma receive_failure_keeps_waiting_witness :
  let s := snd (@send loopback_crypto stepping_clock plain_codec 0%nat
                  (sender1 false false [] request0)) in
  let run :=
    @receive loopback_crypto stepping_clock plain_codec see_other 1 (Some 0%nat) None s in
  fst run = Raise TimeoutError /\ _waiting_receive (snd run) = true.
Proof.
  intros s run.
  destruct (@receive_failure_keeps_waiting loopback_crypto stepping_clock plain_codec see_other
              1%nat (Some 0%nat) None s) as (_ & Htimeout & Hkept).
  assert (Hsome : Some 0%nat <> None \/ @None ref <> None) by (left; discriminate).
  destruct (Htimeout Hsome eq_refl) as [Hraise _].
  split; [exact Hraise |].
  apply (Hkept TimeoutError Hraise). reflexivity.
Defined.

(** Two envelopes pending and five turns allowed. *)
Lemma receive_loop_turns_suffice_witness :
  let s := sender1 false false [inbound_bytes unknown_inbound; answer_envelope] request100 in
  @receive_loop loopback_crypto stepping_clock plain_codec see_other 5 1 (Some 0%nat) None s =
  @receive_loop loopback_crypto stepping_clock plain_codec see_other 3 1 (Some 0%nat) None s.
Proof.
  intros s.
  apply (@receive_loop_turns_suffice loopback_crypto stepping_clock plain_codec see_other
           1%nat (Some 0%nat) None 5%nat s).
  vm_compute. lia.
Defined.

Lemma unknown_inbound_is_unknown (x : Session) :
  @unknown_to loopback_crypto catalog_codec x unknown_inbound.
Proof.
  unfold unknown_to. repeat split.
  exact (proj1 sample_tags_not_manual).
Qed.

(** The answer to the request 100 behind a message nobody knows and ahead of
    an update. *)
Lemma receive_delivers_result_witness :
  let s :=
    sender1 false false [inbound_bytes unknown_inbound; answer_envelope; update_envelope]
      request100 in
  let run :=
    @receive loopback_crypto stepping_clock catalog_codec see_other 1 (Some 0%nat) None s in
  fst run = Ok tt /\
  responses (requests (snd run) 0%nat) = [le_split 4 0x997275b5 ++ [Byte.x07]] /\
  confirm_received (requests (snd run) 0%nat) = true /\
  _need_confirmation (snd run) = [201; 204] /\
  incoming (_transport (snd run)) = [update_envelope] /\
  sent (_transport (snd run)) = [] /\
  _waiting_receive (snd run) = false.
Proof.
  intros s run.
  apply (@receive_delivers_result loopback_crypto stepping_clock catalog_codec see_other
           0%nat 0%nat None s [unknown_inbound] answer_envelope [update_envelope]
           0x997275b5 [Byte.x07] 204 8).
  - constructor; [apply unknown_inbound_is_unknown | constructor].
  - reflexivity.
  - reflexivity.
  - vm_compute. reflexivity.
  - reflexivity.
  - reflexivity.
  - discriminate.
  - discriminate.
Defined.

(** An update behind a message nobody knows and ahead of the answer to a
    request. *)
Lemma receive_update_returns_first_update_witness :
  let s :=
    sender1 false false [inbound_bytes unknown_inbound; update_envelope; answer_envelope]
      request100 in
  let run :=
    @receive_update loopback_crypto stepping_clock catalog_codec see_other 1 1%nat s in
  fst run = Ok (UpdateObject 0x74ae4240 [Byte.x03]) /\
  sinks (snd run) 1%nat = [UpdateObject 0x74ae4240 [Byte.x03]] /\
  _need_confirmation (snd run) = [201; 206] /\
  incoming (_transport (snd run)) = [answer_envelope] /\
  _waiting_receive (snd run) = false.
Proof.
  intros s run.
  apply (@receive_update_returns_first_update loopback_crypto stepping_clock catalog_codec
           see_other 0%nat 1%nat s [unknown_inbound] update_envelope [answer_envelope]
           0x74ae4240 [Byte.x03] 206 10 (UpdateObject 0x74ae4240 [Byte.x03])
           (advance 4 (BinaryReader_of (tagged 0x74ae4240 [Byte.x03])))).
  - constructor; [apply unknown_inbound_is_unknown | constructor].
  - reflexivity.
  - vm_compute. reflexivity.
  - reflexivity.
  - exact (proj2 sample_tags_not_manual).
  - reflexivity.
  - vm_compute. reflexivity.
Defined.

(** A ping that gets the msg_id 104, and the pong that echoes it. *)
Lemma send_ping_confirmed_witness :
  let pong := inbound_envelope 204 8 (pong_message 104 (le_split 8 77)) in
  let s := sender1 false false [pong] request0 in
  let run :=
    @send_ping loopback_crypto stepping_clock plain_codec see_other ping_functions 1 77 s in
  fst run = Ok tt /\
  confirm_received (requests (snd run) 1%nat) = true /\
  incoming (_transport (snd run)) = [] /\
  sent (_transport (snd run)) =
    [@envelope_of loopback_crypto (session s) 104 7 (@PingRequest_on_send ping_functions 77)] /\
  _need_confirmation (snd run) = [204] /\
  _waiting_receive (snd run) = false.
Proof.
  intros pong s run.
  apply (@send_ping_confirmed loopback_crypto stepping_clock plain_codec see_other
           ping_functions 0%nat 77 s
           (snd (@send loopback_crypto stepping_clock plain_codec 1%nat
                   (snd (new_object (@PingRequest ping_functions 77) s))))
           pong [] (le_split 8 77) 204 8).
  - vm_compute. reflexivity.
  - reflexivity.
  - vm_compute. reflexivity.
  - vm_compute. reflexivity.
Defined.

(** A handler added twice and removed once, and one that was never added. *)
Lemma update_handlers_add_remove_witness :
  let c := add_update_handler 4 (coordinator0 (sender1 false false [] request0)) in
  remove_update_handler 5 c = (Raise (ValueError "list.remove(x): x not in list"), c) /\
  remove_update_handler 5 (add_update_handler 5 c) = (Ok tt, c) /\
  In 4%nat
    (_on_update_handlers
       (snd (remove_update_handler 4 (add_update_handler 4 (add_update_handler 4 c))))).
Proof.
  intros c.
  destruct (update_handlers_add_remove 5 c) as (Habsent & _ & _).
  destruct (update_handlers_add_remove 4 c) as (_ & _ & Hkept).
  split; [| split].
  - apply Habsent. vm_compute. intros [Heq | []]. discriminate.
  - apply Habsent. vm_compute. intros [Heq | []]. discriminate.
  - exact Hkept.
Defined.
